(** * pftp: the proxy server half of the FTP proxy (package pftp)

    A shallow embedding of the control-channel proxy (type [proxyServer]
    and its methods) together with the properties its specification
    states about it.

    Go strings are byte sequences: they are modelled as [list ascii].
    Sockets, buffered readers and writers are explicit state: a reader is
    the stream of bytes its peer sends, a writer records the chunks it
    sent, and the sends on the channels of a proxy server are logged in
    order.  A call returns, returns an error, or panics.

    The reply pump runs beside the goroutine that handles commands.  It
    is embedded twice.  Step by step ([pumpStep]): the reading goroutine
    and the select loop of [start] stand at the read, at the gate, at the
    hand-over or at their ends, and a call of [suspend] or [unsuspend] or a
    stop signal of the other goroutine may fall between any two steps.
    And as functions ([readerIteration], [readerLoop], [start]) for the
    run in which nothing falls between; [readerLoop_run] shows that
    [start] is such a run of steps.

    [switchOrigin] is embedded for a pump that runs and takes the stop
    signal: the call waits for the acknowledgement on [stopChanDone], for
    ever when no pump runs, and the embedding has the stop ending of the
    pump ([pumpStop]) at that point.  [switchAfterStop] is the call from
    the acknowledgement on, in any state the pump may leave.

    Real time (deadlines, time outs), the mutex and the logger (with
    [commandLog]) are not part of the embedding. *)

From Stdlib Require Import ZArith Ascii String.
From stdpp Require Import base relations list strings pretty.
From Equations Require Import Equations.

Set Default Proof Using "Type".
Local Open Scope Z_scope.

(** ** Go strings *)

Abbreviation gostring := (list ascii).

(** A string literal as a Go string. *)
Definition str (s : string) : gostring := list_ascii_of_string s.

Definition CR : ascii := ascii_of_nat 13.
Definition LF : ascii := ascii_of_nat 10.
Definition SP : ascii := ascii_of_nat 32.
Definition DASH : ascii := ascii_of_nat 45.
Definition CRLF : gostring := [CR; LF].

(** The numeric value of a byte. *)
Definition byteval (b : ascii) : Z := Z.of_N (N_of_ascii b).

(** [(b >= 'a' && b <= 'z') || (b >= 'A' && b <= 'Z')] *)
Definition isAlpha (b : ascii) : bool :=
  ((97 <=? byteval b) && (byteval b <=? 122)) ||
  ((65 <=? byteval b) && (byteval b <=? 90)).

(** A decimal digit. *)
Definition isDigit (b : ascii) : bool := (48 <=? byteval b) && (byteval b <=? 57).

(** [strings.HasPrefix]: [len(s) >= len(prefix) && s[:len(prefix)] == prefix] *)
Definition HasPrefix (s prefix : gostring) : bool :=
  bool_decide (length prefix ≤ length s)%nat &&
  bool_decide (take (length prefix) s = prefix).

(** [strings.HasSuffix]: [len(s) >= len(suffix) && s[len(s)-len(suffix):] == suffix] *)
Definition HasSuffix (s suffix : gostring) : bool :=
  bool_decide (length suffix ≤ length s)%nat &&
  bool_decide (drop (length s - length suffix) s = suffix).

(** [strings.Count(s, string(b))] for a one-byte pattern. *)
Fixpoint Count (s : gostring) (b : ascii) : nat :=
  match s with
  | [] => 0%nat
  | c :: s' => ((if bool_decide (c = b) then 1 else 0) + Count s' b)%nat
  end.

(** [strings.Replace] of a one-byte pattern by the empty string, without
    limit: every occurrence of the byte goes. *)
Fixpoint Remove (s : gostring) (b : ascii) : gostring :=
  match s with
  | [] => []
  | c :: s' => if bool_decide (c = b) then Remove s' b else c :: Remove s' b
  end.

(** [strings.Index]: the first position at which [sub] starts. *)
Fixpoint Index (s sub : gostring) : option nat :=
  if HasPrefix s sub then Some 0%nat
  else match s with
       | [] => None
       | _ :: s' => S <$> Index s' sub
       end.

(** [strings.Contains] *)
Definition Contains (s sub : gostring) : bool :=
  bool_decide (is_Some (Index s sub)).

(** [strings.Trim(s, cutset)] for an ASCII cutset: bytes of the cutset are
    cut from both ends. *)
Fixpoint TrimLeft (s cutset : gostring) : gostring :=
  match s with
  | [] => []
  | c :: s' => if bool_decide (c ∈ cutset) then TrimLeft s' cutset else s
  end.

Definition TrimRight (s cutset : gostring) : gostring :=
  reverse (TrimLeft (reverse s) cutset).

Definition Trim (s cutset : gostring) : gostring :=
  TrimRight (TrimLeft s cutset) cutset.

(** [strings.SplitN(s, sep, 2)] with a non-empty separator: cut at the first
    occurrence of [sep], or return [s] alone. *)
Definition SplitN2 (s sep : gostring) : list gostring :=
  match Index s sep with
  | None => [s]
  | Some i => [take i s; drop (i + length sep) s]
  end.

(** [string(b)] for a byte [b]: Go converts the integer to the UTF-8
    encoding of the code point of that number, so bytes from 0x80 on give
    two bytes. *)
Definition string_of_byte (b : ascii) : gostring :=
  let v := byteval b in
  if v <? 128 then [b]
  else [ascii_of_N (Z.to_N (Z.lor 192 (Z.shiftr v 6)));
        ascii_of_N (Z.to_N (Z.lor 128 (Z.land v 63)))].

(** [strings.ToUpper] on the ASCII letters; other bytes are kept.  It is
    used to compare a verb with an ASCII word, which no byte outside ASCII
    can turn equal. *)
Definition upperByte (b : ascii) : ascii :=
  if (97 <=? byteval b) && (byteval b <=? 122)
  then ascii_of_N (Z.to_N (byteval b - 32)) else b.

Definition ToUpper (s : gostring) : gostring := upperByte <$> s.

(** [strings.ReplaceAll(s, string(old), string(new))] for one-byte patterns. *)
Definition ReplaceAll (s : gostring) (old new : ascii) : gostring :=
  (λ c, if bool_decide (c = old) then new else c) <$> s.

(** [strconv.Itoa] *)
Definition Itoa (n : Z) : gostring := str (pretty n).

(** ** Errors

    One constructor for each error the proxy server builds, plus the
    errors that come from the network. *)

Inductive error :=
| ErrWrongCommandLine                (* "aborted : wrong command line" *)
| ErrSendAUTH                        (* "failed to send AUTH command to origin" *)
| ErrMakeTLS                         (* "failed to make TLS connection" *)
| ErrNoTLS (code : gostring)         (* "%s origin server has not support TLS connection" *)
| ErrUserNotFound                    (* "user id not found" *)
| ErrAlreadySwitched                 (* "origin already switched" *)
| ErrCannotConnect                   (* "cannot connect to new origin server" *)
| ErrDial                            (* error of net.DialTimeout *)
| ErrLookup                          (* error of net.LookupIP *)
| ErrWrite                           (* error of a write on a socket *)
| ErrRead.                           (* error of a read on a socket, EOF included *)

(** ** bufio.Writer and bufio.Reader

    A writer keeps the bytes accepted by [WriteString] until [Flush] hands
    them to the socket as one chunk; [wsent] lists the chunks in order.
    [wlife] is the number of writes the socket still takes before it
    breaks ([None]: it never breaks); once a flush has failed the writer
    keeps its error ([werr]) and refuses further writes.  The capacity of
    the buffer is not modelled. *)

Record Writer := mkWriter {
  wbuf  : gostring;
  wsent : list gostring;
  wlife : option nat;
  werr  : bool
}.

(** One write on the socket. *)
Definition tick (life : option nat) : option nat := pred <$> life.

Definition NewWriter (life : option nat) : Writer :=
  {| wbuf := []; wsent := []; wlife := life; werr := false |}.

Definition WriteString (w : Writer) (s : gostring) : option error * Writer :=
  if werr w then (Some ErrWrite, w)
  else (None, {| wbuf := wbuf w ++ s; wsent := wsent w;
                 wlife := wlife w; werr := werr w |}).

Definition Flush (w : Writer) : option error * Writer :=
  if werr w then (Some ErrWrite, w)
  else if bool_decide (wbuf w = []) then (None, w)
  else if bool_decide (wlife w = Some 0%nat)
  then (Some ErrWrite, {| wbuf := wbuf w; wsent := wsent w;
                          wlife := wlife w; werr := true |})
  else (None, {| wbuf := []; wsent := wsent w ++ [wbuf w];
                 wlife := tick (wlife w); werr := werr w |}).

(** A reader is the sequence of bytes that the peer sends before the
    stream ends or breaks. *)
Abbreviation Reader := gostring.

(** [ReadString('\n')]: the bytes up to and including the first LF and the
    rest of the stream; [None] when the stream ends before an LF (an error
    for the callers here, which then ignore the bytes read). *)
Fixpoint ReadString (r : Reader) : option (gostring * Reader) :=
  match r with
  | [] => None
  | c :: r' =>
      if bool_decide (c = LF) then Some ([c], r')
      else '(l, rest) ← ReadString r'; Some (c :: l, rest)
  end.

(** A line as [ReadString] returns it: it ends with its only LF. *)
Definition isLine (l : gostring) : Prop := ∃ body, l = body ++ [LF] ∧ LF ∉ body.

(** ** commandLineCheck *)

(** The loop that deletes the first byte until the line starts with a
    letter; [None] when the line runs empty. *)
Fixpoint stripToAlpha (line : gostring) : option gostring :=
  match line with
  | [] => None
  | b :: line' => if isAlpha b then Some line else stripToAlpha line'
  end.

Definition commandLineCheck (line : gostring) : error + gostring :=
  match stripToAlpha line with
  | None => inl ErrWrongCommandLine
  | Some line =>
      if negb (HasSuffix line CRLF)
         || negb (bool_decide (Count line CR = 1%nat))
         || negb (bool_decide (Count line LF = 1%nat))
      then inr (Remove (Remove line LF) CR ++ CRLF)
      else inr line
  end.

(** ** getCode

    [strings.SplitN(strings.Trim(line, "\r\n"), string(line[3]), 2)] for a
    line of four bytes or more, the line alone otherwise. *)
Definition getCode (line : gostring) : list gostring :=
  match line !! 3%nat with
  | Some b => SplitN2 (Trim line CRLF) (string_of_byte b)
  | None => [line]
  end.

(** [xs[0]] of a result that is never empty (see [getCode_first]). *)
Definition first (xs : list gostring) : gostring := default [] (xs !! 0%nat).

(** The line that closes a block opened with [code]: its code is [code]
    and its fourth byte is a space. *)
Definition isTerminator (code l : gostring) : Prop :=
  first (getCode l) = code ∧ l !! 3%nat = Some SP.

(** ** Configuration, sockets, data handler *)

(** Modelled from the spec: the fields of [config] that the proxy server
    reads ([KeepaliveTime], [ProxyTimeout], [WelcomeMsg], [ProxyProtocol],
    [DataChanProxy], [MasqueradeIP]); the declaration under src/ lists
    only part of them. *)
Record config := mkConfig {
  KeepaliveTime : Z;
  ProxyTimeout  : Z;
  WelcomeMsg    : gostring;
  ProxyProtocol : bool;
  DataChanProxy : bool;
  MasqueradeIP  : gostring
}.

(** [tls.Config], the three fields that the proxy server sets. *)
Record tlsConfig := mkTLS {
  InsecureSkipVerify : bool;
  MinVersion : Z;
  MaxVersion : Z
}.

(** The PROXY protocol header written by [sendProxyHeader]; the fields are
    kept as the text they are computed from. *)
Record proxyHeader := mkHeader {
  hSourceIP : gostring;
  hSourcePort : gostring;
  hDestinationIP : gostring;
  hDestinationPort : gostring
}.

(** A TCP connection: where it goes, the bytes its peer sends, how many
    writes it takes before it breaks ([None]: it never breaks), and what
    was set on it. *)
Record tcpConn := mkTCP {
  remoteAddr : gostring;
  incoming : Reader;
  writes : option nat;
  closed : bool;
  keepAlive : bool;
  keepAlivePeriod : Z;
  linger : option Z;
  header : option proxyHeader
}.

Inductive Conn :=
| TCP (c : tcpConn)
| TLSClient (cfg : tlsConfig) (c : Conn).

Fixpoint connClose (c : Conn) : Conn :=
  match c with
  | TCP c => TCP (mkTCP (remoteAddr c) (incoming c) (writes c) true
                        (keepAlive c) (keepAlivePeriod c) (linger c) (header c))
  | TLSClient cfg c => TLSClient cfg (connClose c)
  end.

Fixpoint connClosed (c : Conn) : bool :=
  match c with
  | TCP c => closed c
  | TLSClient _ c => connClosed c
  end.

(** [SetKeepAlive(true)], [SetKeepAlivePeriod], [SetLinger(0)] *)
Definition tune (keepalive : Z) (c : tcpConn) : tcpConn :=
  mkTCP (remoteAddr c) (incoming c) (writes c) (closed c)
        true keepalive (Some 0) (header c).

(** The header is written on the socket under any TLS layer; it is one
    write. *)
Fixpoint writeHeader (h : proxyHeader) (c : Conn) : option Conn :=
  match c with
  | TCP c =>
      if bool_decide (writes c = Some 0%nat) || closed c then None
      else Some (TCP (mkTCP (remoteAddr c) (incoming c) (tick (writes c)) (closed c)
                            (keepAlive c) (keepAlivePeriod c) (linger c) (Some h)))
  | TLSClient cfg c => TLSClient cfg <$> writeHeader h c
  end.

(** Modelled from the spec: the data handler is not under src/.  It
    records the mode of the client's data command, the port of the
    listener opened for the client (when there is one), the origin
    endpoint programmed from a 227 or 229 reply, whether it is in use,
    how many transfers were started on it and whether it was closed. *)
Record dataHandler := mkData {
  mode : gostring;
  listener : option Z;
  originEndpoint : option gostring;
  inUse : bool;
  transfers : nat;
  dataClosed : bool
}.

Definition dataClose (d : dataHandler) : dataHandler :=
  mkData (mode d) (listener d) (originEndpoint d) (inUse d) (transfers d) true.

Definition setInUse (d : dataHandler) : dataHandler :=
  mkData (mode d) (listener d) (originEndpoint d) true (transfers d) (dataClosed d).

Definition setEndpoint (e : option gostring) (d : dataHandler) : dataHandler :=
  mkData (mode d) (listener d) e (inUse d) (transfers d) (dataClosed d).

(** [go s.dataConnector.StartDataTransfer()] *)
Definition startTransfer (d : dataHandler) : dataHandler :=
  mkData (mode d) (listener d) (originEndpoint d) (inUse d) (S (transfers d))
         (dataClosed d).

(** What goes over the channels of a proxy server, in order. *)
Inductive signal :=
| StopChan                     (* s.stopChan <- struct{}{} *)
| StopChanDone                 (* s.stopChanDone <- struct{}{} *)
| WaitSwitching (result : bool)  (* s.waitSwitching <- switchResult *)
| ErrChan (e : error).         (* safeSetChanel(errchan, err): not under src/,
                                  taken as the send of err on errchan *)

(** ** The proxy server *)

Record proxyServer := mkProxy {
  clientWriter : Writer;
  origin : option Conn;
  originReader : Reader;
  originWriter : Writer;
  passThrough : bool;
  stop : bool;
  isSwitched : bool;
  welcomeMsg : gostring;
  conf : config;
  dataConnector : option dataHandler;
  isDataCommandResponse : bool;
  signals : list signal
}.

Definition set_clientWriter (w : Writer) (s : proxyServer) : proxyServer :=
  mkProxy w (origin s) (originReader s) (originWriter s) (passThrough s)
    (stop s) (isSwitched s) (welcomeMsg s) (conf s) (dataConnector s)
    (isDataCommandResponse s) (signals s).

Definition set_origin (c : option Conn) (s : proxyServer) : proxyServer :=
  mkProxy (clientWriter s) c (originReader s) (originWriter s) (passThrough s)
    (stop s) (isSwitched s) (welcomeMsg s) (conf s) (dataConnector s)
    (isDataCommandResponse s) (signals s).

Definition set_originReader (r : Reader) (s : proxyServer) : proxyServer :=
  mkProxy (clientWriter s) (origin s) r (originWriter s) (passThrough s)
    (stop s) (isSwitched s) (welcomeMsg s) (conf s) (dataConnector s)
    (isDataCommandResponse s) (signals s).

Definition set_originWriter (w : Writer) (s : proxyServer) : proxyServer :=
  mkProxy (clientWriter s) (origin s) (originReader s) w (passThrough s)
    (stop s) (isSwitched s) (welcomeMsg s) (conf s) (dataConnector s)
    (isDataCommandResponse s) (signals s).

Definition set_passThrough (b : bool) (s : proxyServer) : proxyServer :=
  mkProxy (clientWriter s) (origin s) (originReader s) (originWriter s) b
    (stop s) (isSwitched s) (welcomeMsg s) (conf s) (dataConnector s)
    (isDataCommandResponse s) (signals s).

Definition set_stop (b : bool) (s : proxyServer) : proxyServer :=
  mkProxy (clientWriter s) (origin s) (originReader s) (originWriter s)
    (passThrough s) b (isSwitched s) (welcomeMsg s) (conf s) (dataConnector s)
    (isDataCommandResponse s) (signals s).

Definition set_isSwitched (b : bool) (s : proxyServer) : proxyServer :=
  mkProxy (clientWriter s) (origin s) (originReader s) (originWriter s)
    (passThrough s) (stop s) b (welcomeMsg s) (conf s) (dataConnector s)
    (isDataCommandResponse s) (signals s).

Definition set_dataConnector (d : option dataHandler) (s : proxyServer) : proxyServer :=
  mkProxy (clientWriter s) (origin s) (originReader s) (originWriter s)
    (passThrough s) (stop s) (isSwitched s) (welcomeMsg s) (conf s) d
    (isDataCommandResponse s) (signals s).

Definition set_isDataCommandResponse (b : bool) (s : proxyServer) : proxyServer :=
  mkProxy (clientWriter s) (origin s) (originReader s) (originWriter s)
    (passThrough s) (stop s) (isSwitched s) (welcomeMsg s) (conf s)
    (dataConnector s) b (signals s).

(** A send on one of the channels. *)
Definition send (g : signal) (s : proxyServer) : proxyServer :=
  mkProxy (clientWriter s) (origin s) (originReader s) (originWriter s)
    (passThrough s) (stop s) (isSwitched s) (welcomeMsg s) (conf s)
    (dataConnector s) (isDataCommandResponse s) (signals s ++ [g]).

(** The outcome of a call: it returns nil, returns an error, or panics. *)
Inductive result :=
| Ok
| Err (e : error)
| Panic.

(** The network as the proxy server sees it: what dialling an address
    gives and what a host name resolves to. *)
Record network := mkNet {
  dial : gostring → option tcpConn;
  lookupIP : gostring → option (list gostring)
}.

(** [strings.Split(s, ":")] *)
Fixpoint splitColon (s : gostring) : list gostring :=
  match s with
  | [] => [[]]
  | c :: s' =>
      if bool_decide (c = ascii_of_nat 58) then [] :: splitColon s'
      else match splitColon s' with
           | [] => [[c]]
           | w :: ws => (c :: w) :: ws
           end
  end.

(** ** newProxyServer *)

Definition newProxyServer (net : network) (clientW : Writer) (originAddr : gostring)
    (cfg : config) : error + proxyServer :=
  match dial net originAddr with
  | None => inl ErrDial
  | Some c =>
      let tcp := tune (KeepaliveTime cfg) c in
      inr {| clientWriter := clientW;
             originWriter := NewWriter (writes c);
             originReader := incoming c;
             origin := Some (TCP tcp);
             passThrough := true;
             stop := false;
             welcomeMsg := str "220 " ++ WelcomeMsg cfg ++ CRLF;
             isSwitched := false;
             conf := cfg;
             dataConnector := None;
             isDataCommandResponse := false;
             signals := [] |}
  end.

(** ** sendToOrigin, suspend, unsuspend, Close, SetDataHandler *)

Definition sendToOrigin (s : proxyServer) (line : gostring) : result * proxyServer :=
  match commandLineCheck line with
  | inl err => (Err err, s)
  | inr line =>
      match WriteString (originWriter s) line with
      | (Some err, w) => (Err err, set_originWriter w s)
      | (None, w) =>
          match Flush w with
          | (Some err, w) => (Err err, set_originWriter w s)
          | (None, w) => (Ok, set_originWriter w s)
          end
      end
  end.

Definition suspend (s : proxyServer) : proxyServer := set_passThrough false s.

Definition unsuspend (s : proxyServer) : proxyServer := set_passThrough true s.

(** [Close]: closes the origin connection when there is one. *)
Definition Close (s : proxyServer) : proxyServer :=
  match origin s with
  | Some c => set_origin (Some (connClose c)) s
  | None => s
  end.

(** [SetDataHandler]: the previous handler, once no longer in use, is
    closed and replaced. *)
Definition SetDataHandler (handler : dataHandler) (s : proxyServer) : proxyServer :=
  set_dataConnector (Some (setInUse handler)) s.

(** ** sendProxyHeader *)

Definition sendProxyHeader (net : network) (clientAddr originAddr : gostring)
    (s : proxyServer) : result * proxyServer :=
  let sourceAddr := splitColon clientAddr in
  let destinationAddr := splitColon originAddr in
  match sourceAddr !! 1%nat, destinationAddr !! 1%nat with
  | Some sourcePort, Some destinationPort =>
      match lookupIP net (first destinationAddr) with
      | None => (Err ErrLookup, s)
      | Some hostIP =>
          match hostIP !! 0%nat, origin s with
          | Some ip, Some c =>
              match writeHeader (mkHeader (first sourceAddr) sourcePort ip
                                          destinationPort) c with
              | Some c' =>
                  let w := originWriter s in
                  (Ok, set_originWriter
                         {| wbuf := wbuf w; wsent := wsent w;
                            wlife := tick (wlife w); werr := werr w |}
                         (set_origin (Some c') s))
              | None => (Err ErrWrite, s)
              end
          | _, _ => (Panic, s)
          end
      end
  | _, _ => (Panic, s)
  end.

(** When the PROXY header can be written on a freshly dialled
    connection: both addresses have a port part, the origin's host
    resolves, and the socket takes the write. *)
Definition headerGoes (net : network) (clientAddr originAddr : gostring)
    (c : tcpConn) : Prop :=
  is_Some (splitColon clientAddr !! 1%nat) ∧
  is_Some (splitColon originAddr !! 1%nat) ∧
  (∃ ip ips, lookupIP net (first (splitColon originAddr)) = Some (ip :: ips)) ∧
  writes c ≠ Some 0%nat ∧ closed c = false.

(** ** Reading lines: facts the loops below rest on *)

(** A value together with the equation that says what it is, for the
    loops that recurse on what a read leaves. *)
Definition inspect {A : Type} (a : A) : {b : A | a = b} := exist _ a eq_refl.

Lemma ReadString_length (r : Reader) (l : gostring) (rest : Reader) :
  ReadString r = Some (l, rest) → (length rest < length r)%nat.
Proof.
  revert l rest. induction r as [|c r IH]; intros l rest H; simpl in H; [done|].
  case_bool_decide.
  - injection H as <- <-. simpl. lia.
  - destruct (ReadString r) as [[l' rest']|] eqn:E; simpl in H; [|done].
    injection H as <- <-. specialize (IH _ _ eq_refl). simpl. lia.
Qed.

(** Modelled from the spec: [getCommand] is not under src/.  Command
    parsing splits a line into its verb (the first token) and the rest, so
    the slice it returns has a first element; the model below cuts the
    line, without its line end, at the first space. *)
Definition getCommandModel (line : gostring) : gostring * list gostring :=
  match SplitN2 (Trim line CRLF) [SP] with
  | [] => ([], [])
  | verb :: rest => (verb, rest)
  end.

(** ** What a call leaves alone *)

(** The fields of a proxy server other than the origin connection, its
    reader and its writer. *)
Definition besideOrigin (s : proxyServer)
    : Writer * bool * bool * bool * gostring * config * option dataHandler
      * bool * list signal :=
  (clientWriter s, passThrough s, stop s, isSwitched s, welcomeMsg s, conf s,
   dataConnector s, isDataCommandResponse s, signals s).


(** The byte ':' *)
Definition COLON : ascii := ascii_of_nat 58.

(** The three tests of the reply pump for the reply to a data command:
    [strings.HasPrefix(buff, "227 ")], [strings.HasPrefix(buff, "229 ")] and
    [strings.HasPrefix(buff, "200 PORT command successful")]. *)
Definition isDataReply (buff : gostring) : bool :=
  HasPrefix buff (str "227 ") || HasPrefix buff (str "229 ")
  || HasPrefix buff (str "200 PORT command successful").

(** ** Events (events.go)

    An event is a name with a payload.  The payload is any value in the
    source ([interface{}]); the values the package puts there are the five
    records below. *)

Abbreviation EventType := gostring.

Definition ClientConnectEventType : EventType := str "client-connect".
Definition ClientDisconnectEventType : EventType := str "client-disconnect".
Definition ClientCommandEventType : EventType := str "client-command".
Definition DataTransferEventType : EventType := str "data-transfer".
Definition ErrorEventType : EventType := str "error".

Inductive eventPayload :=
| ClientConnectEvent (RemoteAddr : gostring) (ClientCount : Z)
| ClientDisconnectEvent (RemoteAddr : gostring) (ClientCount : Z)
| ClientCommandEvent (RemoteAddr Command : gostring)
| DataTransferEvent (SrcAddr DstAddr : gostring) (Bytes : Z)
| ErrorEvent (RemoteAddr ErrorMessage : gostring).

Record Event := mkEvent {
  name : EventType;
  payload : eventPayload
}.

Definition Name (e : Event) : EventType := name e.

Definition Payload (e : Event) : eventPayload := payload e.

(** [type EventChan chan Event]: a channel is its capacity, the events it
    buffers, oldest first, the number of goroutines blocked in a receive
    on it, and the events that were handed to such receivers. *)
Record EventChan := mkChan {
  capacity : nat;
  buffered : list Event;
  receivers : nat;
  handed : list Event
}.

(** [make(EventChan, bufSize)]; a negative size panics ([None]). *)
Definition NewEventChan (bufSize : Z) : option EventChan :=
  if bufSize <? 0 then None
  else Some {| capacity := Z.to_nat bufSize; buffered := []; receivers := 0;
               handed := [] |}.

(** [Send]: a select with a send and a default branch.  The send goes
    through when a receiver waits, which then gets the event, or when the
    buffer has room; otherwise the default branch returns the error
    [errors.New("no receivers")], here its text. *)
Definition Send (eventC : EventChan) (event : Event) : option gostring * EventChan :=
  match receivers eventC with
  | S n =>
      (None, {| capacity := capacity eventC; buffered := buffered eventC;
                receivers := n; handed := handed eventC ++ [event] |})
  | O =>
      if bool_decide (length (buffered eventC) < capacity eventC)%nat
      then (None, {| capacity := capacity eventC;
                     buffered := buffered eventC ++ [event];
                     receivers := 0; handed := handed eventC |})
      else (Some (str "no receivers"), eventC)
  end.

(** [ev := <-eventC], as the consumers of main.go do: the oldest buffered
    event, or the goroutine blocks until a send. *)
Definition receive (eventC : EventChan) : EventChan :=
  match buffered eventC with
  | e :: q => {| capacity := capacity eventC; buffered := q;
                 receivers := receivers eventC; handed := handed eventC ++ [e] |}
  | [] => {| capacity := capacity eventC; buffered := [];
             receivers := S (receivers eventC); handed := handed eventC |}
  end.

(** A receive in a select with a default branch, as in events_test.go. *)
Definition tryReceive (eventC : EventChan) : option Event * EventChan :=
  match buffered eventC with
  | e :: q => (Some e, {| capacity := capacity eventC; buffered := q;
                          receivers := receivers eventC; handed := handed eventC |})
  | [] => (None, eventC)
  end.

(** Calls to [Send], one after the other: what each returned and the
    channel in the end. *)
Fixpoint sendAll (eventC : EventChan) (events : list Event)
    : list (option gostring) * EventChan :=
  match events with
  | [] => ([], eventC)
  | e :: events =>
      let '(r, eventC) := Send eventC e in
      let '(rs, eventC) := sendAll eventC events in
      (r :: rs, eventC)
  end.

(** The events [n] receives without blocking get, and the channel left. *)
Fixpoint tryReceiveN (n : nat) (eventC : EventChan) : list Event * EventChan :=
  match n with
  | O => ([], eventC)
  | S n =>
      match tryReceive eventC with
      | (Some e, eventC) =>
          let '(es, eventC) := tryReceiveN n eventC in (e :: es, eventC)
      | (None, eventC) => ([], eventC)
      end
  end.

(** ** Data for the concrete runs *)

(** A line of text with its CR LF. *)
Definition ln (s : string) : gostring := str s ++ CRLF.

(** A parser of data endpoints that finds none. *)
Definition noEndpoint : gostring → option gostring := λ _, None.

Definition sampleConfig (proxyProtocol dataChanProxy : bool) : config :=
  mkConfig 30 900 (str "pftp ready") proxyProtocol dataChanProxy
    (str "198.51.100.9").

Definition sampleConn (addr : gostring) (stream : Reader) (life : option nat)
    : tcpConn :=
  mkTCP addr stream life false false 0 None None.

(** A network with one origin to switch to, which sends [stream]. *)
Definition sampleNet (stream : Reader) (life : option nat) : network :=
  mkNet (λ addr, if bool_decide (addr = str "10.0.0.7:21")
                 then Some (sampleConn addr stream life) else None)
        (λ host, Some [host]).

(** A proxy server as [newProxyServer] leaves it, on an origin that
    sends [stream]. *)
Definition sampleServer (cfg : config) (stream : Reader) : proxyServer :=
  mkProxy (NewWriter None)
    (Some (TCP (tune (KeepaliveTime cfg) (sampleConn (str "10.0.0.1:21") stream None))))
    stream (NewWriter None) true false false
    (str "220 " ++ WelcomeMsg cfg ++ CRLF) cfg None false [].

(** A switched proxy server with the data channel proxied and a data
    handler for a PASV command of the client, listening on [port]. *)
Definition pasvServer (port : Z) : proxyServer :=
  set_dataConnector (Some (mkData (str "PASV") (Some port) None true 0 false))
    (set_isSwitched true (sampleServer (sampleConfig false true) [])).

(** A switched proxy server with the data channel proxied and a data
    handler for a PORT command of the client. *)
Definition portServer : proxyServer :=
  set_dataConnector (Some (mkData (str "PORT") None None true 0 false))
    (set_isSwitched true (sampleServer (sampleConfig false true) [])).

Section Proxy.

(** Modelled from the spec: [getCommand], and the parsers of the data
    handler for the endpoint in a 227 and in a 229 reply, are not under
    src/; the proxy server is embedded for any such functions. *)
Variable getCommand : gostring → gostring * list gostring.
Variable parsePASV parseEPSV : gostring → option gostring.

(** ** sendTLSCommand *)

(** [tls.Client(s.origin, &config)] with fresh reader and writer on it. *)
Definition wrapTLS (tlsProtocol : Z) (s : proxyServer) : proxyServer :=
  let config := {| InsecureSkipVerify := true;
                   MinVersion := tlsProtocol;
                   MaxVersion := tlsProtocol |} in
  let w := originWriter s in
  set_originWriter {| wbuf := []; wsent := wsent w; wlife := wlife w; werr := false |}
    (set_origin (TLSClient config <$> origin s) s).

(** How the loop that reads the replies to one command ends: by [break],
    with the value of [lastError], or by returning an error. *)
Inductive replyFlow :=
| Break (lastError : option error)
| Return (e : error).

Equations? replyLoop (cmd : gostring) (tlsProtocol : Z) (lastError : option error)
    (s : proxyServer) : replyFlow * proxyServer
    by wf (length (originReader s)) lt :=
replyLoop cmd tlsProtocol lastError s with inspect (ReadString (originReader s)) := {
  | exist _ None _ => (Return ErrMakeTLS, set_originReader [] s)
  | exist _ (Some (line, rest)) Hread =>
      if bool_decide (ToUpper (fst (getCommand cmd)) = str "AUTH") then
        if negb (bool_decide (first (getCode line) = str "234")) then
          if ProxyProtocol (conf s) && Contains line (str "500 PROXY")
          then replyLoop cmd tlsProtocol lastError (set_originReader rest s)
          else (Break (Some (ErrNoTLS (first (getCode line)))), set_originReader rest s)
        else (Break lastError, wrapTLS tlsProtocol (set_originReader rest s))
      else (Break lastError, set_originReader rest s) }.
Proof. simpl. by eapply ReadString_length. Qed.

Fixpoint replay (tlsProtocol : Z) (cmds : list gostring) (lastError : option error)
    (s : proxyServer) : result * proxyServer :=
  match cmds with
  | [] => (match lastError with None => Ok | Some e => Err e end, s)
  | cmd :: cmds =>
      match WriteString (originWriter s) cmd with
      | (Some _, w) => (Err ErrSendAUTH, set_originWriter w s)
      | (None, w) =>
          match Flush w with
          | (Some err, w) => (Err err, set_originWriter w s)
          | (None, w) =>
              match replyLoop cmd tlsProtocol lastError (set_originWriter w s) with
              | (Return e, s) => (Err e, s)
              | (Break lastError, s) => replay tlsProtocol cmds lastError s
              end
          end
      end
  end.

Definition sendTLSCommand (tlsProtocol : Z) (previousTLSCommands : list gostring)
    (s : proxyServer) : result * proxyServer :=
  replay tlsProtocol previousTLSCommands None s.

(** ** The stop branch of the reply pump

    What [start] does when it receives on [stopChan]: it sets [stop],
    closes the connection, acknowledges on [stopChanDone], leaves its loop
    and, once the reading goroutine is done, closes the data handler if
    there is one.  Here the whole ending is taken at once; in [pumpStep]
    the acknowledgement ([StepStop]) and the close of the data handler
    ([StepDone]) are steps of their own.

    Modelled from the spec: [connectionCloser] is not under src/; on a
    stop signal and on a read error the pump closes the connection, which
    is [Close] here. *)
Definition pumpStop (s : proxyServer) : proxyServer :=
  let s := set_stop true s in
  let s := Close s in
  let s := send StopChanDone s in
  set_dataConnector (dataClose <$> dataConnector s) s.

(** ** switchOrigin *)

(** The part of [switchOrigin] between the stop of the reply pump and the
    deferred calls: the outcome, [switchResult] and the state. *)
Definition switchSteps (net : network) (clientAddr originAddr : gostring)
    (tlsProtocol : Z) (previousTLSCommands : list gostring) (s : proxyServer)
    : result * bool * proxyServer :=
  match dial net originAddr with
  | None => (Err ErrDial, false, set_origin None s)
  | Some c =>
      let s := set_origin (Some (TCP c)) s in
      let s := set_originReader (incoming c) s in
      let s := set_originWriter (NewWriter (writes c)) s in
      let '(r, s) := if ProxyProtocol (conf s)
                     then sendProxyHeader net clientAddr originAddr s
                     else (Ok, s) in
      match r with
      | Err _ | Panic => (r, false, s)
      | Ok =>
          match ReadString (originReader s) with
          | None => (Err ErrCannotConnect, false, set_originReader [] s)
          | Some (res, rest) =>
              let s := set_originReader rest s in
              match origin s with
              | Some (TCP tcpConn) =>
                  let s := set_origin
                             (Some (TCP (tune (KeepaliveTime (conf s)) tcpConn))) s in
                  match sendTLSCommand tlsProtocol previousTLSCommands s with
                  | (Ok, s) => (Ok, true, s)
                  | (r, s) => (r, false, s)
                  end
              | _ => (Panic, false, s)
              end
          end
      end
  end.

Definition switchOrigin (net : network) (clientAddr originAddr : gostring)
    (tlsProtocol : Z) (previousTLSCommands : list gostring) (s : proxyServer)
    : result * proxyServer :=
  if bool_decide (length originAddr = 0%nat) then (Err ErrUserNotFound, s)
  else if isSwitched s then (Err ErrAlreadySwitched, s)
  else
    let s := set_isSwitched true s in
    let suspended := passThrough s in
    let s := if suspended then suspend s else s in
    (* s.stopChan <- struct{}{}; <-s.stopChanDone *)
    let s := pumpStop (send StopChan s) in
    let '(r, switchResult, s) :=
      switchSteps net clientAddr originAddr tlsProtocol previousTLSCommands s in
    (* the deferred calls, last one first *)
    let s := send (WaitSwitching switchResult) (set_stop false s) in
    let s := if suspended then unsuspend s else s in
    (r, s).


(** ** The reply pump: [start] *)

(** [fmt.Sprintf("200 %s command successful\r\n", mode)] *)
Definition portReply (mode : gostring) : gostring :=
  str "200 " ++ mode ++ str " command successful" ++ CRLF.

(** [fmt.Sprintf("227 Entering Passive Mode (%s,%s,%s).\r\n", ...)] on the
    masquerade address with its dots turned into commas and on the two
    halves of the listener's port. *)
Definition pasvReply (masqueradeIP : gostring) (listenPort : Z) : gostring :=
  str "227 Entering Passive Mode ("
    ++ ReplaceAll masqueradeIP (ascii_of_nat 46) (ascii_of_nat 44)
    ++ str "," ++ Itoa (Z.quot listenPort 256)
    ++ str "," ++ Itoa (Z.rem listenPort 256)
    ++ str ")." ++ CRLF.

(** [fmt.Sprintf("229 Entering Extended Passive Mode (|||%s|).\r\n", listenPort)] *)
Definition epsvReply (listenPort : Z) : gostring :=
  str "229 Entering Extended Passive Mode (|||" ++ Itoa listenPort ++ str "|)." ++ CRLF.

(** The three tests on a reply when the data channel is proxied.  A call
    on a data handler that is not there panics: [None]. *)
Definition on227 (buff : gostring) (s : proxyServer) : option proxyServer :=
  if HasPrefix buff (str "227 ") then
    d ← dataConnector s;
    Some (set_dataConnector (Some (setEndpoint (parsePASV buff) d))
            (set_isDataCommandResponse true s))
  else Some s.

Definition on229 (buff : gostring) (s : proxyServer) : option proxyServer :=
  if HasPrefix buff (str "229 ") then
    d ← dataConnector s;
    Some (set_dataConnector (Some (setEndpoint (parseEPSV buff) d))
            (set_isDataCommandResponse true s))
  else Some s.

Definition on200PORT (buff : gostring) (s : proxyServer) : proxyServer :=
  if HasPrefix buff (str "200 PORT command successful")
  then set_isDataCommandResponse true s else s.

(** The reply that goes to the client for a data command, by the mode of
    the client's command; [None] is a panic (no data handler, no listener). *)
Definition dataResponse (buff : gostring) (s : proxyServer)
    : option (proxyServer * gostring) :=
  if isDataCommandResponse s then
    d ← dataConnector s;
    let s := set_dataConnector (Some (startTransfer d)) s in
    if bool_decide (mode d = str "PORT") || bool_decide (mode d = str "EPRT")
    then Some (s, portReply (mode d))
    else if bool_decide (mode d = str "PASV")
    then listenPort ← listener d;
         Some (s, pasvReply (MasqueradeIP (conf s)) listenPort)
    else if bool_decide (mode d = str "EPSV")
    then listenPort ← listener d; Some (s, epsvReply listenPort)
    else Some (s, buff)
  else Some (s, buff).

Definition dataChannelStep (buff : gostring) (s : proxyServer)
    : option (proxyServer * gostring) :=
  if DataChanProxy (conf s) && isSwitched s then
    s ← on227 buff s;
    s ← on229 buff s;
    dataResponse buff (on200PORT buff s)
  else Some (s, buff).

(** How the reading of a multi-line block ends: with the whole block and
    what is left to read, with a read error, or with a panic (an index
    past the end of a line). *)
Inductive blockFlow :=
| BlockEnd (buff : gostring) (from : Reader)
| BlockError
| BlockPanic.

Equations? multiLineLoop (code : gostring) (multiLine : gostring) (from : Reader)
    : blockFlow by wf (length from) lt :=
multiLineLoop code multiLine from with inspect (ReadString from) := {
  | exist _ None _ => BlockError
  | exist _ (Some (res, rest)) Hread =>
      if bool_decide (first (getCode res) = code) then
        match res !! 3%nat with
        | None => BlockPanic
        | Some b =>
            if bool_decide (b = SP) then BlockEnd (multiLine ++ res) rest
            else multiLineLoop code (multiLine ++ res) rest
        end
      else multiLineLoop code (multiLine ++ res) rest }.
Proof. all: by eapply ReadString_length. Qed.

(** [len(buff) >= 4 && buff[3] == '-'] *)
Definition opensBlock (buff : gostring) : bool :=
  bool_decide (4 ≤ length buff)%nat && bool_decide (buff !! 3%nat = Some DASH).

Definition multiLine (buff : gostring) (from : Reader) : blockFlow :=
  if opensBlock buff then multiLineLoop (first (getCode buff)) buff from
  else BlockEnd buff from.

(** [strings.Compare(getCode(buff)[0], "220") == 0 && !s.isSwitched] *)
Definition welcome (s : proxyServer) (buff : gostring) : gostring :=
  if bool_decide (first (getCode buff) = str "220") && negb (isSwitched s)
  then welcomeMsg s else buff.

(** [s.config.ProxyProtocol && strings.Contains(buff, "500 PROXY")] *)
Definition isProxy500 (s : proxyServer) (buff : gostring) : bool :=
  ProxyProtocol (conf s) && Contains buff (str "500 PROXY").

(** One pass through the loop of the reading goroutine. *)
Inductive iteration :=
| ReadFailed (s : proxyServer)
    (* the read failed: the error goes to errchan unless stop is set *)
| Dropped (s : proxyServer) (from : Reader)
    (* a 500 PROXY line: continue *)
| BlockFailed (s : proxyServer)
    (* a read failed inside a multi-line block: errchan, done, return *)
| Handed (buff : gostring) (s : proxyServer) (from : Reader)
    (* read <- buff; <-send *)
| Withheld (buff : gostring) (s : proxyServer) (from : Reader)
    (* passThrough is false: buff stays in the goroutine *)
| Panicked.

Definition readerIteration (s : proxyServer) (from : Reader) : iteration :=
  let s := set_isDataCommandResponse false s in
  match ReadString from with
  | None => ReadFailed (if stop s then s else send (ErrChan ErrRead) s)
  | Some (buff, from) =>
      let buff := welcome s buff in
      if isProxy500 s buff then Dropped s from
      else
        match dataChannelStep buff s with
        | None => Panicked
        | Some (s, buff) =>
            match multiLine buff from with
            | BlockError => BlockFailed (send (ErrChan ErrRead) s)
            | BlockPanic => Panicked
            | BlockEnd buff from =>
                if passThrough s then Handed buff s from
                else Withheld buff s from
            end
        end
  end.

(** The same pass up to the gate of line 471, where the reading
    goroutine tests [s.passThrough]: the lines 377 to 469. *)
Inductive reading :=
| ReadError (s : proxyServer)
    (* the read failed: the error goes to errchan unless stop is set *)
| ReadDropped (s : proxyServer) (from : Reader)
    (* a 500 PROXY line: continue *)
| ReadBlockError (s : proxyServer)
    (* a read failed inside a multi-line block: errchan, done, return *)
| ReadGate (buff : gostring) (s : proxyServer) (from : Reader)
    (* buff is complete: the test of s.passThrough comes next *)
| ReadPanic.

Definition readerPass (s : proxyServer) (from : Reader) : reading :=
  let s := set_isDataCommandResponse false s in
  match ReadString from with
  | None => ReadError (if stop s then s else send (ErrChan ErrRead) s)
  | Some (buff, from) =>
      let buff := welcome s buff in
      if isProxy500 s buff then ReadDropped s from
      else
        match dataChannelStep buff s with
        | None => ReadPanic
        | Some (s, buff) =>
            match multiLine buff from with
            | BlockError => ReadBlockError (send (ErrChan ErrRead) s)
            | BlockPanic => ReadPanic
            | BlockEnd buff from => ReadGate buff s from
            end
        end
  end.

(** A change of the proxy server, on what a pass leaves. *)
Definition onReading (f : proxyServer → proxyServer) (r : reading) : reading :=
  match r with
  | ReadError s => ReadError (f s)
  | ReadDropped s from => ReadDropped (f s) from
  | ReadBlockError s => ReadBlockError (f s)
  | ReadGate buff s from => ReadGate buff (f s) from
  | ReadPanic => ReadPanic
  end.

(** The test of line 471 behind a pass, taken at once. *)
Definition gate (r : reading) : iteration :=
  match r with
  | ReadError s => ReadFailed s
  | ReadDropped s from => Dropped s from
  | ReadBlockError s => BlockFailed s
  | ReadGate buff s from =>
      if passThrough s then Handed buff s from else Withheld buff s from
  | ReadPanic => Panicked
  end.

(** The writing half, on a buffer received on [read]: write and flush
    under the mutex; a failure is logged and nothing else. *)
Definition writerHalf (to : Writer) (b : gostring) : Writer :=
  (Flush (WriteString to b).2).2.

(** The end of [start] after an error on [errchan]: the connection is
    closed ([connectionCloser], as in [pumpStop]), the data handler too,
    and the error is returned. *)
Definition pumpFail (s : proxyServer) : proxyServer :=
  let s := Close s in
  set_dataConnector (dataClose <$> dataConnector s) s.

(** The loops as equations on what the next read gives. *)
Lemma multiLineLoop_eq (code m : gostring) (from : Reader) :
  multiLineLoop code m from =
  match ReadString from with
  | None => BlockError
  | Some (res, rest) =>
      if bool_decide (first (getCode res) = code) then
        match res !! 3%nat with
        | None => BlockPanic
        | Some b =>
            if bool_decide (b = SP) then BlockEnd (m ++ res) rest
            else multiLineLoop code (m ++ res) rest
        end
      else multiLineLoop code (m ++ res) rest
  end.
Proof.
  funelim (multiLineLoop code m from).
  - by rewrite Hread.
  - by rewrite e.
Qed.

Lemma replyLoop_eq (cmd : gostring) (tlsProtocol : Z) (lastError : option error)
    (s : proxyServer) :
  replyLoop cmd tlsProtocol lastError s =
  match ReadString (originReader s) with
  | None => (Return ErrMakeTLS, set_originReader [] s)
  | Some (line, rest) =>
      if bool_decide (ToUpper (fst (getCommand cmd)) = str "AUTH") then
        if negb (bool_decide (first (getCode line) = str "234")) then
          if ProxyProtocol (conf s) && Contains line (str "500 PROXY")
          then replyLoop cmd tlsProtocol lastError (set_originReader rest s)
          else (Break (Some (ErrNoTLS (first (getCode line)))), set_originReader rest s)
        else (Break lastError, wrapTLS tlsProtocol (set_originReader rest s))
      else (Break lastError, set_originReader rest s)
  end.
Proof.
  funelim (replyLoop cmd tlsProtocol lastError s).
  - by rewrite Hread.
  - by rewrite e.
Qed.

Lemma multiLineLoop_length (code m : gostring) (from : Reader) (buff : gostring)
    (rest : Reader) :
  multiLineLoop code m from = BlockEnd buff rest → (length rest < length from)%nat.
Proof.
  remember (length from) as n eqn:Hn. revert code m from buff rest Hn.
  induction n as [n IH] using lt_wf_ind. intros code m from buff rest -> HE.
  rewrite multiLineLoop_eq in HE.
  destruct (ReadString from) as [[res rest']|] eqn:Hread; [|done].
  apply ReadString_length in Hread.
  repeat case_match; try discriminate.
  all: try (injection HE as <- <-; lia).
  all: pose proof (IH _ Hread _ _ _ _ _ eq_refl HE); lia.
Qed.

Lemma readerIteration_length (s : proxyServer) (from : Reader) :
  match readerIteration s from with
  | Dropped _ rest | Handed _ _ rest | Withheld _ _ rest =>
      (length rest < length from)%nat
  | _ => True
  end.
Proof.
  unfold readerIteration.
  destruct (ReadString from) as [[buff rest]|] eqn:Hread; [|done].
  apply ReadString_length in Hread.
  destruct (isProxy500 _ _); [done|].
  destruct (dataChannelStep _ _) as [[s' buff']|]; [|done].
  unfold multiLine. destruct (opensBlock buff').
  - destruct (multiLineLoop _ _ _) eqn:Hloop; try done.
    apply multiLineLoop_length in Hloop. destruct (passThrough s'); lia.
  - by destruct (passThrough s').
Qed.

(** The loop of the reading goroutine together with the writing half that
    serves it, run until a read fails, while no stop signal comes and no
    other goroutine calls in between: the value [start] returns, the
    proxy server, what is left to read and the client's writer. *)
Equations? readerLoop (s : proxyServer) (from : Reader) (to : Writer)
    : result * proxyServer * Reader * Writer by wf (length from) lt :=
readerLoop s from to with inspect (readerIteration s from) := {
  | exist _ (ReadFailed s') _ =>
      if stop s' then (Ok, s', [], to) else (Err ErrRead, pumpFail s', [], to)
  | exist _ (Dropped s' rest) Hit => readerLoop s' rest to
  | exist _ (BlockFailed s') _ => (Err ErrRead, pumpFail s', [], to)
  | exist _ (Handed b s' rest) Hit => readerLoop s' rest (writerHalf to b)
  | exist _ (Withheld b s' rest) Hit => readerLoop s' rest to
  | exist _ Panicked _ => (Panic, s, from, to) }.
Proof.
  all: pose proof (readerIteration_length s from) as Hlen;
    by rewrite Hit in Hlen.
Qed.

Definition start (s : proxyServer) (from : Reader) (to : Writer)
    : result * proxyServer * Reader * Writer :=
  if stop s || negb (passThrough s) then (Ok, s, from, to)
  else readerLoop s from to.

(** [responseProxy]: [start] on the origin's reader and the client's
    writer, which the proxy server shares with it. *)
Definition responseProxy (s : proxyServer) : result * proxyServer :=
  let '(r, s', from, to) := start s (originReader s) (clientWriter s) in
  (r, set_clientWriter to (set_originReader from s')).

(** ** The reply pump beside the other goroutines

    A configuration of the pump is the proxy server with the reader and
    the writer [start] was given; [pumpIteration] is one pass through the
    reading loop, with the write it hands over, taken in one piece. *)
Record pump := mkPump {
  srv : proxyServer;
  rd : Reader;
  wr : Writer
}.

Definition pumpIteration (p : pump) : option pump :=
  match readerIteration (srv p) (rd p) with
  | Dropped s rest => Some (mkPump s rest (wr p))
  | Handed b s rest => Some (mkPump s rest (writerHalf (wr p) b))
  | Withheld b s rest => Some (mkPump s rest (wr p))
  | _ => None
  end.

(** A pass taken in one piece, as [pumpIteration] and [start] below take
    it, is a run in which nothing else happens between the read and the
    gate.  In the source the two goroutines of [start] run beside the
    goroutine that handles the commands, which may call [suspend] and
    [unsuspend] and send on stopChan at any moment: between the read of
    line 378 and the test of line 471, and between that test and the
    write of line 485.  The steps below are the pump at that grain.

    Where the reading goroutine (lines 375 to 478) is: *)
Inductive goroutine :=
| GRead                       (* at the read of line 378 *)
| GGate (buff : gostring)     (* buff is complete: at the test of line 471 *)
| GHand (buff : gostring)     (* the test was true: in read <- buff, line 472 *)
| GDone                       (* out of its loop: in done <- struct, line 456 or 477 *)
| GEnd.                       (* returned *)

(** Where the goroutine that called [start] is: *)
Inductive selectLoop :=
| Selecting                             (* in the select of line 482 *)
| WaitDone (lastError : option error)   (* out of the loop: in <-done, line 514 *)
| Returned (r : result).                (* start has returned r *)

Record pumpState := mkState {
  reader : goroutine;
  selecting : selectLoop;
  pumpOf : pump
}.

(** [return lastError] *)
Definition returns (lastError : option error) : result :=
  match lastError with None => Ok | Some e => Err e end.

(** One step of the pump or of its surroundings.  A receive and the send
    it meets are one step.  [safeSetChanel(errchan, err)], which is not
    under src/, is taken as the send of err on errchan, met by the select
    loop. *)
Inductive pumpStep : pumpState → pumpState → Prop :=
| StepRead (l : selectLoop) (s : proxyServer) (from : Reader) (to : Writer)
      (b : gostring) (s' : proxyServer) (rest : Reader) :
    (* lines 377-469: a line, or a block, is read and made ready *)
    readerPass s from = ReadGate b s' rest →
    pumpStep (mkState GRead l (mkPump s from to))
             (mkState (GGate b) l (mkPump s' rest to))
| StepDropped (l : selectLoop) (s : proxyServer) (from : Reader) (to : Writer)
      (s' : proxyServer) (rest : Reader) :
    (* lines 406-408: continue *)
    readerPass s from = ReadDropped s' rest →
    pumpStep (mkState GRead l (mkPump s from to))
             (mkState GRead l (mkPump s' rest to))
| StepGate (l : selectLoop) (s : proxyServer) (from : Reader) (to : Writer)
      (b : gostring) :
    (* line 471: the one test of s.passThrough *)
    pumpStep (mkState (GGate b) l (mkPump s from to))
             (mkState (if passThrough s then GHand b else GRead) l
                      (mkPump s from to))
| StepHandOver (s : proxyServer) (from : Reader) (to : Writer) (b : gostring) :
    (* lines 472-473 and 483-498: the select loop takes b, writes and
       flushes it, and releases the reading goroutine *)
    pumpStep (mkState (GHand b) Selecting (mkPump s from to))
             (mkState GRead Selecting (mkPump s from (writerHalf to b)))
| StepReadError (s : proxyServer) (from : Reader) (to : Writer) (s' : proxyServer) :
    (* lines 379-383 and 499-503: the read fails with stop clear; the
       select loop takes the error and closes the connection *)
    readerPass s from = ReadError s' → stop s' = false →
    pumpStep (mkState GRead Selecting (mkPump s from to))
             (mkState GDone (WaitDone (Some ErrRead)) (mkPump (Close s') [] to))
| StepReadEnd (l : selectLoop) (s : proxyServer) (from : Reader) (to : Writer)
      (s' : proxyServer) :
    (* lines 379-383: the read fails with stop set; no error is sent *)
    readerPass s from = ReadError s' → stop s' = true →
    pumpStep (mkState GRead l (mkPump s from to))
             (mkState GDone l (mkPump s' [] to))
| StepBlockError (s : proxyServer) (from : Reader) (to : Writer) (s' : proxyServer) :
    (* lines 453-458 and 499-503 *)
    readerPass s from = ReadBlockError s' →
    pumpStep (mkState GRead Selecting (mkPump s from to))
             (mkState GDone (WaitDone (Some ErrRead)) (mkPump (Close s') [] to))
| StepPanic (l : selectLoop) (s : proxyServer) (from : Reader) (to : Writer) :
    readerPass s from = ReadPanic →
    pumpStep (mkState GRead l (mkPump s from to))
             (mkState GEnd (Returned Panic) (mkPump s from to))
| StepStop (g : goroutine) (s : proxyServer) (from : Reader) (to : Writer) :
    (* lines 504-511: a send on stopChan is taken; stop is set, the
       connection closed and the stop acknowledged on stopChanDone *)
    pumpStep (mkState g Selecting (mkPump s from to))
             (mkState g (WaitDone None)
                (mkPump (send StopChanDone (Close (set_stop true s))) from to))
| StepDone (lastError : option error) (s : proxyServer) (from : Reader)
      (to : Writer) :
    (* lines 514-520: the reading goroutine is done; the data handler is
       closed and start returns *)
    pumpStep (mkState GDone (WaitDone lastError) (mkPump s from to))
             (mkState GEnd (Returned (returns lastError))
                (mkPump (set_dataConnector (dataClose <$> dataConnector s) s)
                        from to))
| StepSuspend (g : goroutine) (l : selectLoop) (p : pump) :
    pumpStep (mkState g l p) (mkState g l (mkPump (suspend (srv p)) (rd p) (wr p)))
| StepUnsuspend (g : goroutine) (l : selectLoop) (p : pump) :
    pumpStep (mkState g l p) (mkState g l (mkPump (unsuspend (srv p)) (rd p) (wr p))).

(** ** The calls on a proxy server *)

Inductive call :=
| CallSendToOrigin (line : gostring)
| CallResponseProxy
| CallSuspend
| CallUnsuspend
| CallClose
| CallSetDataHandler (handler : dataHandler)
| CallSendProxyHeader (clientAddr originAddr : gostring)
| CallSendTLSCommand (tlsProtocol : Z) (previousTLSCommands : list gostring)
| CallSwitchOrigin (clientAddr originAddr : gostring) (tlsProtocol : Z)
    (previousTLSCommands : list gostring).

Definition run (net : network) (c : call) (s : proxyServer) : result * proxyServer :=
  match c with
  | CallSendToOrigin line => sendToOrigin s line
  | CallResponseProxy => responseProxy s
  | CallSuspend => (Ok, suspend s)
  | CallUnsuspend => (Ok, unsuspend s)
  | CallClose => (Ok, Close s)
  | CallSetDataHandler handler => (Ok, SetDataHandler handler s)
  | CallSendProxyHeader clientAddr originAddr =>
      sendProxyHeader net clientAddr originAddr s
  | CallSendTLSCommand tlsProtocol cmds => sendTLSCommand tlsProtocol cmds s
  | CallSwitchOrigin clientAddr originAddr tlsProtocol cmds =>
      switchOrigin net clientAddr originAddr tlsProtocol cmds s
  end.

(** A sequence of calls, one after the other. *)
Definition runAll (net : network) (cs : list call) (s : proxyServer) : proxyServer :=
  foldl (λ s c, (run net c s).2) s cs.

(** * Properties *)

(** ** Strings *)

Lemma Count_app (s t : gostring) (b : ascii) :
  Count (s ++ t) b = (Count s b + Count t b)%nat.
Proof. induction s as [|c s IH]; simpl; [done|]. rewrite IH. lia. Qed.

Lemma Count_Remove_same (s : gostring) (b : ascii) : Count (Remove s b) b = 0%nat.
Proof.
  induction s as [|c s IH]; simpl; [done|].
  case_bool_decide as Hc; [done|]. simpl. by rewrite bool_decide_eq_false_2.
Qed.

Lemma Count_Remove_other (s : gostring) (b c : ascii) :
  Count (Remove s b) c = (if bool_decide (b = c) then 0 else Count s c)%nat.
Proof.
  case_bool_decide as Hbc; [subst; apply Count_Remove_same|].
  induction s as [|d s IH]; simpl; [done|].
  case_bool_decide as Hd; simpl.
  - subst d. by rewrite (bool_decide_eq_false_2 (b = c)).
  - by rewrite IH.
Qed.

Lemma Remove_app (s t : gostring) (b : ascii) :
  Remove (s ++ t) b = Remove s b ++ Remove t b.
Proof.
  induction s as [|c s IH]; simpl; [done|]. case_bool_decide; by rewrite IH.
Qed.

Lemma Remove_absent (s : gostring) (b : ascii) :
  Count s b = 0%nat → Remove s b = s.
Proof.
  induction s as [|c s IH]; simpl; [done|].
  case_bool_decide; [lia|]. intros Hs. by rewrite IH.
Qed.

Lemma Remove_comm (s : gostring) (b c : ascii) :
  Remove (Remove s b) c = Remove (Remove s c) b.
Proof.
  induction s as [|d s IH]; simpl; [done|].
  repeat (case_bool_decide; simpl); by rewrite ?IH.
Qed.

Lemma Remove_idemp (s : gostring) (b : ascii) :
  Remove (Remove s b) b = Remove s b.
Proof. apply Remove_absent, Count_Remove_same. Qed.

Lemma HasSuffix_spec (s suffix : gostring) :
  HasSuffix s suffix = true ↔ ∃ body, s = body ++ suffix.
Proof.
  unfold HasSuffix. rewrite andb_true_iff, !bool_decide_eq_true. split.
  - intros [Hlen Hdrop]. exists (take (length s - length suffix) s).
    symmetry. etrans; [|apply (take_drop (length s - length suffix) s)].
    by rewrite Hdrop.
  - intros [body ->]. rewrite length_app. split; [lia|].
    replace (length body + length suffix - length suffix)%nat
      with (length body) by lia.
    by rewrite drop_app_length.
Qed.

Lemma HasPrefix_spec (s prefix : gostring) :
  HasPrefix s prefix = true ↔ ∃ rest, s = prefix ++ rest.
Proof.
  unfold HasPrefix. rewrite andb_true_iff, !bool_decide_eq_true. split.
  - intros [Hlen Htake]. exists (drop (length prefix) s).
    symmetry. etrans; [|apply (take_drop (length prefix) s)].
    by rewrite Htake.
  - intros [rest ->]. rewrite length_app. split; [lia|].
    by rewrite take_app_length.
Qed.

Lemma isAlpha_not_CR_LF (b : ascii) : isAlpha b = true → b ≠ CR ∧ b ≠ LF.
Proof. intros H; split; intros ->; discriminate H. Qed.

(** ** commandLineCheck *)

(** The stripping loop returns the part of the line from its first letter
    on, and fails exactly on the lines without a letter. *)
Lemma stripToAlpha_Some (line cmd : gostring) :
  stripToAlpha line = Some cmd →
  ∃ junk b rest, line = junk ++ cmd ∧ Forall (λ c, isAlpha c = false) junk ∧
                 cmd = b :: rest ∧ isAlpha b = true.
Proof.
  induction line as [|c line IH]; simpl; [done|].
  destruct (isAlpha c) eqn:Hc.
  - intros [= <-]. by exists [], c, line.
  - intros H. destruct (IH H) as (junk & b & rest & -> & Hjunk & -> & Hb).
    exists (c :: junk), b, rest. split_and!; auto.
Qed.

Lemma stripToAlpha_None (line : gostring) :
  stripToAlpha line = None ↔ Forall (λ c, isAlpha c = false) line.
Proof.
  induction line as [|c line IH]; simpl; [done|].
  destruct (isAlpha c) eqn:Hc.
  - split; [done|]. intros H. apply Forall_cons in H as [H _]. congruence.
  - rewrite IH. split; [by constructor|]. by intros [_ ?]%Forall_cons.
Qed.

Lemma stripToAlpha_Exists (line : gostring) :
  Exists (λ c, isAlpha c = true) line → is_Some (stripToAlpha line).
Proof.
  intros HE. destruct (stripToAlpha line) eqn:E; [done|].
  apply stripToAlpha_None in E. apply Exists_exists in HE as (c & Hin & Hc).
  rewrite Forall_forall in E. specialize (E c Hin). congruence.
Qed.

(** What [commandLineCheck] returns on a line that starts with a letter. *)
Lemma commandLineCheck_shape (line cmd out : gostring) :
  stripToAlpha line = Some cmd →
  commandLineCheck line = inr out →
  (∃ b, head out = Some b ∧ isAlpha b = true) ∧
  Count out CR = 1%nat ∧ Count out LF = 1%nat ∧
  out = Remove (Remove cmd LF) CR ++ CRLF.
Proof.
  intros Hstrip. unfold commandLineCheck. rewrite Hstrip.
  destruct (stripToAlpha_Some _ _ Hstrip) as (junk & b & rest & _ & _ & Hcmd & Hb).
  destruct (isAlpha_not_CR_LF _ Hb) as [HCR HLF].
  assert (head (Remove (Remove cmd LF) CR) = Some b) as Hhead.
  { rewrite Hcmd. simpl. rewrite (bool_decide_eq_false_2 (b = LF)) by done.
    simpl. by rewrite (bool_decide_eq_false_2 (b = CR)). }
  clear Hstrip.
  destruct (negb _ || _ || _) eqn:Hcheck; intros Hout;
    injection Hout as Hout; rewrite <- Hout; clear Hout.
  - split_and!.
    + exists b. split; [|done].
      destruct (Remove (Remove cmd LF) CR); [done|]. by simplify_eq/=.
    + rewrite Count_app, Count_Remove_same. done.
    + rewrite Count_app, Remove_comm, Count_Remove_same. done.
    + done.
  - rewrite !orb_false_iff, !negb_false_iff, !bool_decide_eq_true in Hcheck.
    destruct Hcheck as [[Hsuf HnCR] HnLF]. split_and!; auto.
    + exists b. by rewrite Hcmd.
    + apply HasSuffix_spec in Hsuf as [body ->].
      rewrite Count_app in HnCR, HnLF. simpl in HnCR, HnLF.
      rewrite !Remove_app, (Remove_absent body LF) by lia.
      rewrite (Remove_absent body CR) by lia. by rewrite <- app_assoc.
Qed.

(** C1. For every command line passed to sendToOrigin: if the line
    contains no ASCII letter, the call fails with the wrong-command-line
    error and the proxy server, its origin writer included, is unchanged,
    so nothing is written to origin.  Otherwise the line is cut into its
    leading bytes that are not letters and the command that follows; the
    line handed to the origin writer is that command with every CR and LF
    removed and CR LF appended, so it starts with a letter and contains
    exactly one CR and exactly one LF, its last two bytes, in this order;
    the call changes nothing but the origin writer, what it sends is that
    line, and it does send it when the writer and its socket work. *)
Theorem sendToOrigin_normalised (s : proxyServer) (line : gostring) :
  (Forall (λ c, isAlpha c = false) line →
   commandLineCheck line = inl ErrWrongCommandLine ∧
   sendToOrigin s line = (Err ErrWrongCommandLine, s))
  ∧
  (Exists (λ c, isAlpha c = true) line →
   ∃ junk cmd out,
     line = junk ++ cmd ∧ Forall (λ c, isAlpha c = false) junk ∧
     (∃ b, head cmd = Some b ∧ isAlpha b = true) ∧
     commandLineCheck line = inr out ∧
     (∃ b, head out = Some b ∧ isAlpha b = true) ∧
     Count out CR = 1%nat ∧ Count out LF = 1%nat ∧
     out = Remove (Remove cmd LF) CR ++ [CR; LF] ∧
     ∃ r w,
       sendToOrigin s line = (r, set_originWriter w s) ∧
       (wsent w = wsent (originWriter s) ∨
        wsent w = wsent (originWriter s) ++ [wbuf (originWriter s) ++ out]) ∧
       (werr (originWriter s) = false → wlife (originWriter s) ≠ Some 0%nat →
        r = Ok ∧ wbuf w = [] ∧
        wsent w = wsent (originWriter s) ++ [wbuf (originWriter s) ++ out])).
Proof.
  split.
  - intros Hnone. apply stripToAlpha_None in Hnone.
    unfold sendToOrigin, commandLineCheck. by rewrite Hnone.
  - intros Hsome. apply stripToAlpha_Exists in Hsome as [cmd Hstrip].
    destruct (stripToAlpha_Some _ _ Hstrip) as (junk & b & rest & Hline & Hjunk & Hcmd & Hb).
    assert (∃ out, commandLineCheck line = inr out) as [out Hout].
    { unfold commandLineCheck. rewrite Hstrip. destruct (_ || _); by eexists. }
    destruct (commandLineCheck_shape _ _ _ Hstrip Hout)
      as (Hhead & HCR & HLF & Hbody).
    exists junk, cmd, out. split_and!; auto.
    { exists b. by rewrite Hcmd. }
    assert (out ≠ []) as Hne.
    { destruct Hhead as (? & ? & _). by destruct out. }
    unfold sendToOrigin. rewrite Hout. unfold WriteString, Flush.
    destruct (originWriter s) as [buf sent life err]. simpl.
    destruct err; simpl.
    { eexists _, _. split; [done|]. simpl. split; [by left|done]. }
    rewrite bool_decide_eq_false_2 by (by destruct buf, out).
    case_bool_decide as Hlife; simpl.
    { eexists _, _. split; [done|]. simpl. split; [by left|done]. }
    eexists _, _. split; [done|]. simpl. split; [by right|done].
Qed.

(** ** getCode *)

Lemma TrimLeft_snoc (l cutset : gostring) (x : ascii) :
  x ∉ cutset → TrimLeft (l ++ [x]) cutset = TrimLeft l cutset ++ [x].
Proof.
  intros Hx. induction l as [|c l IH]; simpl.
  - by rewrite bool_decide_eq_false_2.
  - by case_bool_decide.
Qed.

Lemma TrimRight_cons (l cutset : gostring) (x : ascii) :
  x ∉ cutset → TrimRight (x :: l) cutset = x :: TrimRight l cutset.
Proof.
  intros Hx. unfold TrimRight.
  by rewrite reverse_cons, TrimLeft_snoc, reverse_app.
Qed.

Lemma TrimLeft_suffix (s cutset : gostring) : ∃ pre, s = pre ++ TrimLeft s cutset.
Proof.
  induction s as [|c s [pre IH]]; simpl; [by exists []|].
  case_bool_decide; [|by exists []]. exists (c :: pre). simpl. by rewrite <- IH.
Qed.

Lemma TrimRight_prefix (s cutset : gostring) : ∃ suf, s = TrimRight s cutset ++ suf.
Proof.
  unfold TrimRight. destruct (TrimLeft_suffix (reverse s) cutset) as [pre H].
  exists (reverse pre). rewrite <- reverse_app, <- H. by rewrite reverse_involutive.
Qed.

Lemma TrimRight_snoc (s cutset : gostring) (x : ascii) :
  x ∈ cutset → TrimRight (s ++ [x]) cutset = TrimRight s cutset.
Proof.
  intros Hx. unfold TrimRight. rewrite reverse_app. simpl.
  by rewrite bool_decide_eq_true_2.
Qed.

Lemma SplitN2_nonempty (s sep : gostring) : SplitN2 s sep ≠ [].
Proof. unfold SplitN2. by destruct (Index s sep). Qed.

(** [getCode(line)[0]] is in range: the slice is never empty. *)
Lemma getCode_first (line : gostring) : is_Some (getCode line !! 0%nat).
Proof.
  unfold getCode, SplitN2. destruct (line !! 3%nat); [|by eexists].
  destruct (Index _ _); by eexists.
Qed.

(** Of a line that starts with three bytes, none of them CR or LF, and
    then a fourth byte that is a 7-bit byte and is not among the three,
    [getCode] gives the three bytes as the code (also when the fourth byte
    is a CR or LF that [Trim] cuts with what follows it). *)
Lemma getCode_code (c1 c2 c3 sep : ascii) (text : gostring) :
  c1 ∉ CRLF → c2 ∉ CRLF → c3 ∉ CRLF →
  byteval sep < 128 → c1 ≠ sep → c2 ≠ sep → c3 ≠ sep →
  first (getCode (c1 :: c2 :: c3 :: sep :: text)) = [c1; c2; c3].
Proof.
  intros H1 H2 H3 H7 Hn1 Hn2 Hn3.
  unfold getCode. simpl lookup. unfold string_of_byte.
  rewrite (proj2 (Z.ltb_lt _ _) H7). simpl.
  unfold Trim. simpl TrimLeft. rewrite (bool_decide_eq_false_2 (c1 ∈ CRLF)) by done.
  rewrite !TrimRight_cons by done.
  assert (∀ c l, c ≠ sep → HasPrefix (c :: l) [sep] = false) as Hno.
  { intros c l Hc. destruct (HasPrefix (c :: l) [sep]) eqn:E; [|done].
    apply HasPrefix_spec in E as [rest E]. simpl in E. congruence. }
  destruct (TrimRight_prefix (sep :: text) CRLF) as [suf Hsuf].
  destruct (TrimRight (sep :: text) CRLF) as [|x r].
  - unfold SplitN2. simpl Index. by rewrite !Hno.
  - injection Hsuf as <- _.
    unfold SplitN2. simpl Index. rewrite !Hno by done.
    assert (HasPrefix (sep :: r) [sep] = true) as ->.
    { apply HasPrefix_spec. by eexists. }
    done.
Qed.

(** In particular a reply line, three digits and then a space or a dash,
    has its three digits as code. *)
Lemma getCode_reply (c1 c2 c3 sep : ascii) (text : gostring) :
  isDigit c1 = true → isDigit c2 = true → isDigit c3 = true →
  sep = SP ∨ sep = DASH →
  first (getCode (c1 :: c2 :: c3 :: sep :: text)) = [c1; c2; c3].
Proof.
  assert (∀ c, isDigit c = true → (c ∉ CRLF) ∧ c ≠ SP ∧ c ≠ DASH) as Hd.
  { intros c Hc. split_and!; [intros Hin|intros ->|intros ->]; try done.
    apply list_elem_of_In in Hin. simpl in Hin. by destruct Hin as [<-|[<-|[]]]. }
  intros [? [? ?]]%Hd [? [? ?]]%Hd [? [? ?]]%Hd Hsep.
  apply getCode_code; try done.
  all: by destruct Hsep as [-> | ->].
Qed.

(** ** Close *)

Lemma connClose_closed (c : Conn) : connClosed (connClose c) = true.
Proof. induction c as [c|cfg c IH]; [done|]. by simpl. Qed.

(** [Close] leaves the origin connection, when there is one, closed. *)
Lemma Close_closes (s : proxyServer) (c : Conn) :
  origin s = Some c → connClosed <$> origin (Close s) = Some true.
Proof. intros H. unfold Close. rewrite H. simpl. by rewrite connClose_closed. Qed.

(** ** isSwitched is only ever set *)

Lemma isSwitched_sendToOrigin (s : proxyServer) (line : gostring) :
  isSwitched (sendToOrigin s line).2 = isSwitched s.
Proof.
  unfold sendToOrigin. destruct (commandLineCheck line); [done|].
  destruct (WriteString _ _) as [[?|] w]; [done|].
  by destruct (Flush w) as [[?|] ?].
Qed.

Lemma isSwitched_sendProxyHeader (net : network) (clientAddr originAddr : gostring)
    (s : proxyServer) :
  isSwitched (sendProxyHeader net clientAddr originAddr s).2 = isSwitched s.
Proof. unfold sendProxyHeader. by repeat case_match. Qed.

Lemma isSwitched_replyLoop (cmd : gostring) (tlsProtocol : Z)
    (lastError : option error) (s : proxyServer) :
  isSwitched (replyLoop cmd tlsProtocol lastError s).2 = isSwitched s.
Proof.
  remember (length (originReader s)) as n eqn:Hn. revert s Hn.
  induction n as [n IH] using lt_wf_ind. intros s ->.
  rewrite replyLoop_eq.
  destruct (ReadString (originReader s)) as [[line rest]|] eqn:Hread; [|done].
  apply ReadString_length in Hread.
  repeat case_match; try done.
  by rewrite (IH _ Hread (set_originReader rest s)).
Qed.

Lemma isSwitched_replay (tlsProtocol : Z) (cmds : list gostring)
    (lastError : option error) (s : proxyServer) :
  isSwitched (replay tlsProtocol cmds lastError s).2 = isSwitched s.
Proof.
  revert lastError s. induction cmds as [|cmd cmds IH]; intros lastError s; simpl.
  - done.
  - destruct (WriteString _ _) as [[?|] w]; [done|].
    destruct (Flush w) as [[?|] w']; [done|].
    pose proof (isSwitched_replyLoop cmd tlsProtocol lastError
                  (set_originWriter w' s)) as Hloop.
    destruct (replyLoop _ _ _ _) as [[le|e] s']; simpl in Hloop; [|done].
    by rewrite IH.
Qed.

Lemma isSwitched_dataChannelStep (buff buff' : gostring) (s s' : proxyServer) :
  dataChannelStep buff s = Some (s', buff') → isSwitched s' = isSwitched s.
Proof.
  unfold dataChannelStep, on227, on229, on200PORT, dataResponse.
  intros H. repeat (case_match; simplify_option_eq); done.
Qed.

Lemma isSwitched_readerIteration (s : proxyServer) (from : Reader) :
  match readerIteration s from with
  | ReadFailed s' | Dropped s' _ | BlockFailed s'
  | Handed _ s' _ | Withheld _ s' _ => isSwitched s' = isSwitched s
  | Panicked => True
  end.
Proof.
  unfold readerIteration.
  destruct (ReadString from) as [[buff rest]|]; [|by destruct (stop _)].
  destruct (isProxy500 _ _); [done|].
  destruct (dataChannelStep _ _) as [[s' buff']|] eqn:Hstep; [|done].
  apply isSwitched_dataChannelStep in Hstep.
  destruct (multiLine buff' rest); try done.
  by destruct (passThrough s').
Qed.

Lemma isSwitched_pumpFail (s : proxyServer) : isSwitched (pumpFail s) = isSwitched s.
Proof. unfold pumpFail, Close. by destruct (origin s). Qed.

Lemma readerLoop_eq (s : proxyServer) (from : Reader) (to : Writer) :
  readerLoop s from to =
  match readerIteration s from with
  | ReadFailed s' =>
      if stop s' then (Ok, s', [], to) else (Err ErrRead, pumpFail s', [], to)
  | Dropped s' rest => readerLoop s' rest to
  | BlockFailed s' => (Err ErrRead, pumpFail s', [], to)
  | Handed b s' rest => readerLoop s' rest (writerHalf to b)
  | Withheld b s' rest => readerLoop s' rest to
  | Panicked => (Panic, s, from, to)
  end.
Proof.
  funelim (readerLoop s from to);
    match goal with H : readerIteration _ _ = _ |- _ => by rewrite H end.
Qed.

Lemma isSwitched_readerLoop (s : proxyServer) (from : Reader) (to : Writer) :
  isSwitched (readerLoop s from to).1.1.2 = isSwitched s.
Proof.
  remember (length from) as n eqn:Hn. revert s from to Hn.
  induction n as [n IH] using lt_wf_ind. intros s from to ->.
  pose proof (isSwitched_readerIteration s from) as Hsw.
  pose proof (readerIteration_length s from) as Hlen.
  rewrite readerLoop_eq.
  destruct (readerIteration s from) as [s'|s' rest|s'|b s' rest|b s' rest|];
    try done.
  - destruct (stop s'); cbn [fst snd]; [done|]. by rewrite isSwitched_pumpFail.
  - by rewrite (IH _ Hlen s' rest to).
  - cbn [fst snd]. by rewrite isSwitched_pumpFail.
  - by rewrite (IH _ Hlen s' rest _).
  - by rewrite (IH _ Hlen s' rest to).
Qed.

Lemma isSwitched_responseProxy (s : proxyServer) :
  isSwitched (responseProxy s).2 = isSwitched s.
Proof.
  unfold responseProxy, start.
  destruct (stop s || negb (passThrough s)); [done|].
  pose proof (isSwitched_readerLoop s (originReader s) (clientWriter s)) as H.
  by destruct (readerLoop _ _ _) as [[[r s'] from] to].
Qed.

(** A call to [switchOrigin] with an address leaves a switched server. *)
Lemma isSwitched_switchOrigin (net : network) (clientAddr originAddr : gostring)
    (tlsProtocol : Z) (cmds : list gostring) (s : proxyServer) :
  isSwitched (switchOrigin net clientAddr originAddr tlsProtocol cmds s).2 =
  if bool_decide (length originAddr = 0%nat) then isSwitched s else true.
Proof.
  unfold switchOrigin. case_bool_decide; [done|].
  destruct (isSwitched s) eqn:Hsw; [done|].
  set (s1 := pumpStop _).
  assert (isSwitched s1 = true) as Hs1.
  { unfold s1, pumpStop, Close, suspend. by repeat case_match. }
  clearbody s1.
  assert (isSwitched (switchSteps net clientAddr originAddr tlsProtocol cmds s1).2
          = true) as Hsteps.
  { unfold switchSteps. destruct (dial net originAddr) as [c|]; [|done].
    set (s2 := set_originWriter _ _).
    assert (isSwitched s2 = true) as Hs2 by done. clearbody s2.
    set (hdr := if ProxyProtocol (conf s2) then _ else _).
    assert (isSwitched hdr.2 = true) as Hhdr.
    { unfold hdr. destruct (ProxyProtocol _); [|done].
      by rewrite isSwitched_sendProxyHeader. }
    destruct hdr as [r s3]. simpl in Hhdr. destruct r; try done.
    destruct (ReadString _) as [[res rest]|]; [|done].
    simpl. destruct (origin s3) as [[tcpConn|]|]; try done.
    set (s4 := set_origin _ _).
    pose proof (isSwitched_replay tlsProtocol cmds None s4) as Hreplay.
    unfold sendTLSCommand.
    destruct (replay _ _ _ _) as [r s5]. simpl in Hreplay.
    destruct r; simpl; by rewrite Hreplay. }
  destruct (switchSteps _ _ _ _ _ _) as [[r switchResult] s2]. simpl in Hsteps.
  by repeat case_match.
Qed.

Lemma isSwitched_run (net : network) (c : call) (s : proxyServer) :
  isSwitched s = true → isSwitched (run net c s).2 = true.
Proof.
  intros Hs. destruct c; simpl; try done.
  - by rewrite isSwitched_sendToOrigin.
  - by rewrite isSwitched_responseProxy.
  - unfold Close. by destruct (origin s).
  - by rewrite isSwitched_sendProxyHeader.
  - unfold sendTLSCommand. by rewrite isSwitched_replay.
  - rewrite isSwitched_switchOrigin. by case_bool_decide.
Qed.

Lemma isSwitched_runAll (net : network) (cs : list call) (s : proxyServer) :
  isSwitched s = true → isSwitched (runAll net cs s) = true.
Proof.
  revert s. induction cs as [|c cs IH]; intros s Hs; simpl; [done|].
  apply IH. by apply isSwitched_run.
Qed.

(** ** switchOrigin *)

(** C10. A call to switchOrigin with an empty origin address returns the
    error "user id not found" and leaves the proxy server exactly as it
    was: isSwitched and passThrough keep their values (so isSwitched stays
    false on a server not yet switched), nothing is sent on any channel
    (no stop signal reaches the reply pump), and the origin connection is
    the same, open if it was open. *)
Theorem switchOrigin_empty_address (net : network) (clientAddr : gostring)
    (tlsProtocol : Z) (previousTLSCommands : list gostring) (s : proxyServer) :
  switchOrigin net clientAddr [] tlsProtocol previousTLSCommands s
    = (Err ErrUserNotFound, s)
  ∧ isSwitched (switchOrigin net clientAddr [] tlsProtocol previousTLSCommands s).2
    = isSwitched s
  ∧ passThrough (switchOrigin net clientAddr [] tlsProtocol previousTLSCommands s).2
    = passThrough s
  ∧ stop (switchOrigin net clientAddr [] tlsProtocol previousTLSCommands s).2
    = stop s
  ∧ signals (switchOrigin net clientAddr [] tlsProtocol previousTLSCommands s).2
    = signals s
  ∧ origin (switchOrigin net clientAddr [] tlsProtocol previousTLSCommands s).2
    = origin s.
Proof. done. Qed.

(** C4, amended. isSwitched is monotone: no call on a proxy server, and no
    sequence of calls, takes it from true back to false, and a call to
    switchOrigin with a non-empty address leaves it true whatever the
    outcome of the switch.  On a switched server, after any further calls,
    switchOrigin with a non-empty address returns "origin already
    switched" and with an empty address "user id not found"; in both cases
    the proxy server is left as it was, so no step of a switch is taken. *)
Theorem switched_at_most_once (net : network) :
  (∀ c s, isSwitched s = true → isSwitched (run net c s).2 = true)
  ∧ (∀ cs s, isSwitched s = true → isSwitched (runAll net cs s) = true)
  ∧ (∀ clientAddr originAddr tlsProtocol cmds s,
       originAddr ≠ [] →
       isSwitched (switchOrigin net clientAddr originAddr tlsProtocol cmds s).2
       = true)
  ∧ (∀ cs clientAddr originAddr tlsProtocol cmds s,
       isSwitched s = true →
       switchOrigin net clientAddr originAddr tlsProtocol cmds (runAll net cs s)
       = (Err (if bool_decide (originAddr = [])
               then ErrUserNotFound else ErrAlreadySwitched),
          runAll net cs s)).
Proof.
  split_and!.
  - apply isSwitched_run.
  - apply isSwitched_runAll.
  - intros clientAddr originAddr tlsProtocol cmds s Hne.
    rewrite isSwitched_switchOrigin. rewrite bool_decide_eq_false_2; [done|].
    by destruct originAddr.
  - intros cs clientAddr originAddr tlsProtocol cmds s Hs.
    pose proof (isSwitched_runAll net cs s Hs) as Hafter.
    unfold switchOrigin. destruct originAddr as [|a originAddr]; [done|].
    simpl. by rewrite Hafter.
Qed.

(** C6, amended. During an origin switch, after the new origin is dialled
    (and the PROXY header written if configured), exactly one line is read
    from the new origin before the TCP tuning and the TLS replay.  If that
    read fails the switch fails with "cannot connect to new origin server"
    and publishes false on waitSwitching.  If it succeeds, the line is
    accepted whatever it says: the switch goes on to tune the connection
    and replay the TLS commands on what follows the line, its outcome is
    the outcome of that replay, and with no command to replay it succeeds
    and publishes true. *)
Theorem switchOrigin_welcome_line (net : network) (clientAddr originAddr : gostring)
    (tlsProtocol : Z) (cmds : list gostring) (s : proxyServer) (c : tcpConn) :
  originAddr ≠ [] →
  isSwitched s = false →
  dial net originAddr = Some c →
  (ProxyProtocol (conf s) = true → headerGoes net clientAddr originAddr c) →
  match ReadString (incoming c) with
  | None =>
      (switchOrigin net clientAddr originAddr tlsProtocol cmds s).1
        = Err ErrCannotConnect
      ∧ last (signals (switchOrigin net clientAddr originAddr tlsProtocol cmds s).2)
        = Some (WaitSwitching false)
  | Some (res, rest) =>
      ∃ s' c',
        originReader s' = rest ∧ conf s' = conf s ∧
        origin s' = Some (TCP c') ∧ remoteAddr c' = remoteAddr c ∧
        keepAlive c' = true ∧ linger c' = Some 0 ∧
        keepAlivePeriod c' = KeepaliveTime (conf s) ∧
        (switchOrigin net clientAddr originAddr tlsProtocol cmds s).1
          = (sendTLSCommand tlsProtocol cmds s').1 ∧
        (cmds = [] →
         (switchOrigin net clientAddr originAddr tlsProtocol cmds s).1 = Ok ∧
         originReader (switchOrigin net clientAddr originAddr tlsProtocol cmds s).2
           = rest ∧
         last (signals (switchOrigin net clientAddr originAddr tlsProtocol cmds s).2)
           = Some (WaitSwitching true))
  end.
Proof.
  intros Hne Hsw Hdial Hhdr.
  unfold switchOrigin. rewrite bool_decide_eq_false_2 by (by destruct originAddr).
  rewrite Hsw.
  set (s1 := pumpStop _).
  assert (conf s1 = conf s) as Hconf.
  { unfold s1, pumpStop, Close, suspend. by repeat case_match. }
  clearbody s1. unfold switchSteps. rewrite Hdial.
  set (s2 := set_originWriter _ _).
  assert (originReader s2 = incoming c ∧ conf s2 = conf s ∧
          origin s2 = Some (TCP c)) as (Hrd2 & Hconf2 & Hor2) by done.
  clearbody s2.
  set (hdr := if ProxyProtocol (conf s2) then _ else _).
  assert (∃ s3 c3, hdr = (Ok, s3) ∧ originReader s3 = incoming c ∧
            conf s3 = conf s ∧ origin s3 = Some (TCP c3) ∧
            remoteAddr c3 = remoteAddr c)
    as (s3 & c3 & -> & Hrd3 & Hconf3 & Hor3 & Hrem3).
  { unfold hdr. rewrite Hconf2. destruct (ProxyProtocol (conf s)) eqn:Hpp.
    - destruct (Hhdr eq_refl) as ([sp Hsp] & [dp Hdp] & (ip & ips & Hip) & Href & Hcl).
      unfold sendProxyHeader. rewrite Hsp, Hdp, Hip, Hor2. simpl.
      rewrite (bool_decide_eq_false_2 _ Href), Hcl. simpl. by eexists _, _.
    - by eexists _, _. }
  rewrite Hrd3.
  destruct (ReadString (incoming c)) as [[res rest]|] eqn:Hread.
  - simpl. rewrite Hor3.
    set (s4 := set_origin _ _).
    exists s4, (tune (KeepaliveTime (conf (set_originReader rest s3))) c3).
    split_and!; try done.
    + by rewrite <- Hconf3.
    + destruct (sendTLSCommand tlsProtocol cmds s4) as [[]?]; by repeat case_match.
    + intros ->. simpl. repeat case_match; simpl; by rewrite ?last_snoc.
  - simpl. repeat case_match; simpl; by rewrite ?last_snoc.
Qed.

(** ** sendTLSCommand *)

(** A recorded refusal survives the replies to a later command: the loop
    breaks with a refusal recorded, or returns the read error. *)
Lemma replyLoop_keeps_refusal (cmd : gostring) (tlsProtocol : Z) (code : gostring)
    (s : proxyServer) :
  (∃ code' s', replyLoop cmd tlsProtocol (Some (ErrNoTLS code)) s
               = (Break (Some (ErrNoTLS code')), s'))
  ∨ (∃ s', replyLoop cmd tlsProtocol (Some (ErrNoTLS code)) s
           = (Return ErrMakeTLS, s')).
Proof.
  remember (length (originReader s)) as n eqn:Hn.
  revert s Hn. induction n as [n IH] using lt_wf_ind. intros s ->.
  rewrite replyLoop_eq.
  destruct (ReadString (originReader s)) as [[line rest]|] eqn:Hread;
    [|right; by eexists].
  apply ReadString_length in Hread.
  repeat case_match; try (left; by eexists _, _).
  by apply (IH _ Hread (set_originReader rest s)).
Qed.

(** Once an AUTH command was refused, the replay never succeeds: it ends
    with an error, the one recorded or the one of a later write or read. *)
Lemma replay_after_refusal (tlsProtocol : Z) (cmds : list gostring) (code : gostring)
    (s : proxyServer) :
  (∃ code', (replay tlsProtocol cmds (Some (ErrNoTLS code)) s).1
            = Err (ErrNoTLS code'))
  ∨ (replay tlsProtocol cmds (Some (ErrNoTLS code)) s).1 = Err ErrSendAUTH
  ∨ (replay tlsProtocol cmds (Some (ErrNoTLS code)) s).1 = Err ErrWrite
  ∨ (replay tlsProtocol cmds (Some (ErrNoTLS code)) s).1 = Err ErrMakeTLS.
Proof.
  revert code s. induction cmds as [|cmd cmds IH]; intros code s; simpl.
  { left. by eexists. }
  destruct (WriteString _ _) as [[e|] w] eqn:Hw.
  { by right; left. }
  destruct (Flush w) as [[e|] w'] eqn:Hf.
  { right; right; left. unfold Flush in Hf. repeat case_match; simpl; congruence. }
  destruct (replyLoop_keeps_refusal cmd tlsProtocol code (set_originWriter w' s))
    as [(code' & s' & ->)|(s' & ->)]; [apply IH|].
  by right; right; right.
Qed.

(** C5, amended. [replay tlsProtocol (cmd :: cmds) lastError s] is the loop
    of sendTLSCommand from the command [cmd] on.  For a replayed AUTH
    command that is written to origin and answered by the line [line]:
    if the code of the line is 234, the origin connection is wrapped in a
    TLS client whose configuration has MinVersion and MaxVersion equal to
    tlsProtocol and InsecureSkipVerify set, and the replay goes on; if the
    code is another one and the line is not an ignorable 500 PROXY line,
    an origin-no-tls error with that code is recorded, the connection is
    left as it is, the replay goes on with the remaining commands and
    never succeeds: sendTLSCommand returns an origin-no-tls error, or the
    error of a later write or read, and returns the recorded one when AUTH
    was the last command; an ignorable line (proxy_protocol on, the line
    contains 500 PROXY, its code is not 234) is skipped and the next line
    is read.  A line made of three digits, a space and a text has the
    three digits as its code. *)
Theorem sendTLSCommand_AUTH_reply (tlsProtocol : Z) (cmd : gostring)
    (cmds : list gostring) (lastError : option error) (s : proxyServer)
    (w0 w1 : Writer) (line : gostring) (rest : Reader) :
  ToUpper (getCommand cmd).1 = str "AUTH" →
  WriteString (originWriter s) cmd = (None, w0) →
  Flush w0 = (None, w1) →
  ReadString (originReader s) = Some (line, rest) →
  (first (getCode line) = str "234" →
   replay tlsProtocol (cmd :: cmds) lastError s
     = replay tlsProtocol cmds lastError
         (wrapTLS tlsProtocol (set_originReader rest (set_originWriter w1 s)))
   ∧ origin (wrapTLS tlsProtocol (set_originReader rest (set_originWriter w1 s)))
     = TLSClient {| InsecureSkipVerify := true;
                    MinVersion := tlsProtocol;
                    MaxVersion := tlsProtocol |} <$> origin s)
  ∧ (first (getCode line) ≠ str "234" → isProxy500 s line = false →
     replay tlsProtocol (cmd :: cmds) lastError s
       = replay tlsProtocol cmds (Some (ErrNoTLS (first (getCode line))))
           (set_originReader rest (set_originWriter w1 s))
     ∧ origin (set_originReader rest (set_originWriter w1 s)) = origin s
     ∧ ((∃ code, (replay tlsProtocol (cmd :: cmds) lastError s).1
                 = Err (ErrNoTLS code))
        ∨ (replay tlsProtocol (cmd :: cmds) lastError s).1 = Err ErrSendAUTH
        ∨ (replay tlsProtocol (cmd :: cmds) lastError s).1 = Err ErrWrite
        ∨ (replay tlsProtocol (cmd :: cmds) lastError s).1 = Err ErrMakeTLS)
     ∧ (cmds = [] →
        (replay tlsProtocol (cmd :: cmds) lastError s).1
        = Err (ErrNoTLS (first (getCode line)))))
  ∧ (first (getCode line) ≠ str "234" → isProxy500 s line = true →
     replyLoop cmd tlsProtocol lastError (set_originWriter w1 s)
     = replyLoop cmd tlsProtocol lastError
         (set_originReader rest (set_originWriter w1 s)))
  ∧ (∀ c1 c2 c3 text,
       isDigit c1 = true → isDigit c2 = true → isDigit c3 = true →
       line = c1 :: c2 :: c3 :: SP :: text →
       first (getCode line) = [c1; c2; c3]).
Proof.
  intros Hauth Hw Hf Hread.
  assert (replyLoop cmd tlsProtocol lastError (set_originWriter w1 s) =
          if negb (bool_decide (first (getCode line) = str "234")) then
            if isProxy500 s line
            then replyLoop cmd tlsProtocol lastError
                   (set_originReader rest (set_originWriter w1 s))
            else (Break (Some (ErrNoTLS (first (getCode line)))),
                  set_originReader rest (set_originWriter w1 s))
          else (Break lastError,
                wrapTLS tlsProtocol (set_originReader rest (set_originWriter w1 s))))
    as Hloop.
  { rewrite replyLoop_eq. simpl. rewrite Hread.
    by rewrite (bool_decide_eq_true_2 _ Hauth). }
  assert (replay tlsProtocol (cmd :: cmds) lastError s =
          match replyLoop cmd tlsProtocol lastError (set_originWriter w1 s) with
          | (Return e, s') => (Err e, s')
          | (Break lastError, s') => replay tlsProtocol cmds lastError s'
          end) as Hreplay.
  { simpl. by rewrite Hw, Hf. }
  split_and!.
  - intros Hcode. rewrite Hreplay, Hloop.
    by rewrite (bool_decide_eq_true_2 _ Hcode).
  - intros Hcode Hno. rewrite Hreplay, Hloop.
    rewrite (bool_decide_eq_false_2 _ Hcode), Hno. simpl negb. cbv iota beta.
    split_and!; [done|done|apply replay_after_refusal|by intros ->].
  - intros Hcode Hyes. rewrite Hloop.
    by rewrite (bool_decide_eq_false_2 _ Hcode), Hyes.
  - intros c1 c2 c3 text H1 H2 H3 ->. apply getCode_reply; auto.
Qed.

(** ** The reply pump *)

(** A pass through the reading loop hands a buffer over only with
    passThrough set, and with passThrough clear it never does. *)
Lemma readerIteration_gate (s : proxyServer) (from : Reader) :
  match readerIteration s from with
  | Handed _ s' _ => passThrough s = true ∧ passThrough s' = true
  | Withheld _ s' _ => passThrough s = false ∧ passThrough s' = false
  | _ => True
  end.
Proof.
  unfold readerIteration.
  destruct (ReadString from) as [[buff rest]|]; [|done].
  destruct (isProxy500 _ _); [done|].
  destruct (dataChannelStep _ _) as [[s' buff']|] eqn:Hstep; [|done].
  assert (passThrough s' = passThrough s) as Hpt.
  { revert Hstep. unfold dataChannelStep, on227, on229, on200PORT, dataResponse.
    intros H. repeat (case_match; simplify_option_eq); done. }
  destruct (multiLine buff' rest); try done.
  destruct (passThrough s') eqn:Hs'; by rewrite <- Hpt.
Qed.

(** A pass through the reading loop on a stream that still holds a line
    consumes it: the pass does not end on a failed first read. *)
Lemma readerIteration_reads (s : proxyServer) (from : Reader) (line : gostring)
    (rest : Reader) :
  ReadString from = Some (line, rest) →
  match readerIteration s from with
  | ReadFailed _ => False
  | _ => True
  end.
Proof.
  intros Hread. unfold readerIteration. rewrite Hread.
  by repeat case_match.
Qed.

(** The data channel step does not look at passThrough. *)
Lemma dataChannelStep_passThrough (b : bool) (buff : gostring) (s : proxyServer) :
  dataChannelStep buff (set_passThrough b s)
  = prod_map (set_passThrough b) id <$> dataChannelStep buff s.
Proof.
  unfold dataChannelStep, on227, on229, on200PORT, dataResponse.
  destruct (HasPrefix buff (str "227 ")), (HasPrefix buff (str "229 ")),
    (HasPrefix buff (str "200 PORT command successful")).
  all: destruct s as [cw o r w pt st sw wm cf [d|] fl sg]; cbn.
  all: destruct (DataChanProxy cf && sw); [|done]; cbn; try done.
  all: try destruct fl; cbn; try done.
  all: repeat (case_bool_decide; cbn; try done).
  all: by destruct (listener d).
Qed.

(** Clearing passThrough changes nothing in a pass through the reading
    loop but its end: the buffer that would be handed over is withheld. *)
Lemma readerIteration_suspended (s : proxyServer) (from : Reader) (b : gostring)
    (s' : proxyServer) (rest : Reader) :
  readerIteration (unsuspend s) from = Handed b s' rest →
  readerIteration (suspend s) from = Withheld b (suspend s') rest.
Proof.
  unfold readerIteration, suspend, unsuspend.
  destruct (ReadString from) as [[buff r]|]; [|done].
  change (welcome (set_isDataCommandResponse false (set_passThrough true s)) buff)
    with (welcome s buff).
  change (welcome (set_isDataCommandResponse false (set_passThrough false s)) buff)
    with (welcome s buff).
  change (isProxy500 (set_isDataCommandResponse false (set_passThrough true s)))
    with (isProxy500 s).
  change (isProxy500 (set_isDataCommandResponse false (set_passThrough false s)))
    with (isProxy500 s).
  destruct (isProxy500 s _); [done|].
  change (set_isDataCommandResponse false (set_passThrough true s))
    with (set_passThrough true (set_isDataCommandResponse false s)).
  change (set_isDataCommandResponse false (set_passThrough false s))
    with (set_passThrough false (set_isDataCommandResponse false s)).
  rewrite !dataChannelStep_passThrough.
  destruct (dataChannelStep _ _) as [[s1 buff1]|]; [|done]. simpl.
  destruct (multiLine buff1 r); try done.
  by intros [= <- <- <-].
Qed.

(** A pass through the reading loop taken in one piece is the pass up
    to the gate and the test of the gate at once. *)
Lemma readerIteration_pass (s : proxyServer) (from : Reader) :
  readerIteration s from = gate (readerPass s from).
Proof.
  unfold readerIteration, readerPass.
  destruct (ReadString from) as [[buff rest]|]; [|done].
  destruct (isProxy500 _ _); [done|].
  destruct (dataChannelStep _ _) as [[s' buff']|]; [|done].
  by destruct (multiLine buff' rest).
Qed.

(** The pass up to the gate does not look at passThrough. *)
Lemma readerPass_passThrough (b : bool) (s : proxyServer) (from : Reader) :
  readerPass (set_passThrough b s) from
  = onReading (set_passThrough b) (readerPass s from).
Proof.
  unfold readerPass.
  destruct (ReadString from) as [[buff r]|].
  - change (welcome (set_isDataCommandResponse false (set_passThrough b s)) buff)
      with (welcome s buff).
    change (welcome (set_isDataCommandResponse false s) buff) with (welcome s buff).
    change (isProxy500 (set_isDataCommandResponse false (set_passThrough b s)))
      with (isProxy500 s).
    change (isProxy500 (set_isDataCommandResponse false s)) with (isProxy500 s).
    destruct (isProxy500 s _); [done|].
    change (set_isDataCommandResponse false (set_passThrough b s))
      with (set_passThrough b (set_isDataCommandResponse false s)).
    rewrite dataChannelStep_passThrough.
    destruct (dataChannelStep _ _) as [[s1 buff1]|]; [|done]. simpl.
    by destruct (multiLine buff1 r).
  - change (stop (set_isDataCommandResponse false (set_passThrough b s)))
      with (stop (set_isDataCommandResponse false s)).
    by destruct (stop _).
Qed.

(** C2, amended. The passThrough flag gates the reply pump at one point.
    The reading goroutine reads a line, or a whole block, without looking
    at the flag, and then tests it once (line 471).  If the flag is clear
    at that moment the buffer stays in the goroutine and is gone with the
    next read: no step writes it to the client.  If it is set the buffer
    is handed to the writing half, and this is the only way in which a
    buffer gets there; the writing half writes it without a test of its
    own, and no other step changes the client's writer.  So what counts
    is the flag at the gate, not the flag when the line was read or when
    it is written.  A pass in which no suspend or unsuspend falls between
    the read and the write is the pass taken in one piece: taken with the
    flag clear it leaves the client's writer as it is, and a pass that
    changes the writer was taken with the flag set and hands its buffer
    over.  A pump started while passThrough is false returns at once
    without reading or writing. *)
Theorem passThrough_gates_pump :
  (∀ st st', pumpStep st st' → wr (pumpOf st') ≠ wr (pumpOf st) →
     ∃ b, reader st = GHand b ∧ reader st' = GRead
          ∧ wr (pumpOf st') = writerHalf (wr (pumpOf st)) b)
  ∧ (∀ st st' b, pumpStep st st' → reader st' = GHand b →
       reader st = GHand b
       ∨ (reader st = GGate b ∧ passThrough (srv (pumpOf st)) = true
          ∧ pumpOf st' = pumpOf st))
  ∧ (∀ st st' b, pumpStep st st' → reader st = GGate b →
       passThrough (srv (pumpOf st)) = false →
       wr (pumpOf st') = wr (pumpOf st)
       ∧ (reader st' = GGate b ∨ (reader st' = GRead ∧ pumpOf st' = pumpOf st)))
  ∧ (∀ b s from,
       readerPass (set_passThrough b s) from
       = onReading (set_passThrough b) (readerPass s from))
  ∧ (∀ s from, readerIteration s from = gate (readerPass s from))
  ∧ (∀ p p', pumpIteration p = Some p' → passThrough (srv p) = false → wr p' = wr p)
  ∧ (∀ s from line rest,
       passThrough s = false → ReadString from = Some (line, rest) →
       match readerIteration s from with
       | Handed _ _ _ | ReadFailed _ => False
       | Withheld _ s' rest' =>
           passThrough s' = false ∧ (length rest' < length from)%nat
       | _ => True
       end)
  ∧ (∀ p p', pumpIteration p = Some p' → wr p' ≠ wr p →
       passThrough (srv p) = true ∧
       ∃ b s rest, readerIteration (srv p) (rd p) = Handed b s rest ∧
                   p' = mkPump s rest (writerHalf (wr p) b))
  ∧ (∀ s from b s' rest,
       readerIteration (unsuspend s) from = Handed b s' rest →
       readerIteration (suspend s) from = Withheld b (suspend s') rest)
  ∧ (∀ s from to, passThrough s = false → start s from to = (Ok, s, from, to)).
Proof.
  split_and!.
  - intros st st' Hstep Hwr. destruct Hstep; try done. by exists b.
  - intros st st' b0 Hstep Hhand.
    destruct Hstep; simpl in *; try done; try (by left).
    destruct (passThrough s) eqn:Hpt; [|done]. injection Hhand as ->.
    right. by split_and!.
  - intros st st' b0 Hstep Hgate Hpt.
    destruct Hstep; simpl in *; try done.
    + injection Hgate as ->. rewrite Hpt. split; [done|]. by right.
    + split; [done|]. by left.
    + split; [done|]. by left.
    + split; [done|]. by left.
  - apply readerPass_passThrough.
  - apply readerIteration_pass.
  - intros p p' Hit Hpt. unfold pumpIteration in Hit.
    pose proof (readerIteration_gate (srv p) (rd p)) as Hgate.
    destruct (readerIteration _ _); try done; injection Hit as <-; try done.
    destruct Hgate. congruence.
  - intros s from line rest Hpt Hread.
    pose proof (readerIteration_gate s from) as Hgate.
    pose proof (readerIteration_reads s from _ _ Hread) as Hreads.
    pose proof (readerIteration_length s from) as Hlen.
    destruct (readerIteration s from); try done; destruct Hgate;
      [congruence|by split].
  - intros p p' Hit Hwr. unfold pumpIteration in Hit.
    pose proof (readerIteration_gate (srv p) (rd p)) as Hgate.
    destruct (readerIteration _ _) eqn:Hiter; try done;
      injection Hit as <-; try done.
    split; [by destruct Hgate|]. by eexists _, _, _.
  - apply readerIteration_suspended.
  - intros s from to Hpt. unfold start. rewrite Hpt.
    by rewrite orb_true_r.
Qed.

(** ** Lines and multi-line blocks *)

Lemma ReadString_line (l : gostring) (r : Reader) :
  isLine l → ReadString (l ++ r) = Some (l, r).
Proof.
  intros (body & -> & Hbody). induction body as [|c body IH]; simpl.
  - done.
  - apply not_elem_of_cons in Hbody as [Hc Hbody].
    rewrite bool_decide_eq_false_2 by done. by rewrite (IH Hbody).
Qed.

Lemma ReadString_isLine (r : Reader) (l : gostring) (rest : Reader) :
  ReadString r = Some (l, rest) → isLine l ∧ r = l ++ rest.
Proof.
  revert l rest. induction r as [|c r IH]; intros l rest H; simpl in H; [done|].
  case_bool_decide as Hc.
  - injection H as <- <-. subst c. split; [|done]. exists []. split; [done|].
    apply not_elem_of_nil.
  - destruct (ReadString r) as [[l' rest']|]; simpl in H; [|done].
    injection H as <- <-. destruct (IH _ _ eq_refl) as [(body & -> & Hbody) ->].
    split; [|done]. exists (c :: body). split; [done|].
    by apply not_elem_of_cons.
Qed.

(** The line end is not part of what [Trim] keeps of a line. *)
Lemma Trim_line (l : gostring) : isLine l → LF ∉ Trim l CRLF.
Proof.
  intros (body & -> & Hbody). unfold Trim.
  destruct (TrimLeft_suffix (body ++ [LF]) CRLF) as [pre Hpre].
  destruct (TrimLeft (body ++ [LF]) CRLF) as [|c t _] using rev_ind.
  { apply not_elem_of_nil. }
  rewrite app_assoc in Hpre. apply app_inj_tail in Hpre as [-> Hc].
  rewrite <- Hc.
  rewrite TrimRight_snoc by (apply list_elem_of_In; simpl; auto).
  destruct (TrimRight_prefix t CRLF) as [suf Hsuf].
  intros Hin. apply Hbody. rewrite Hsuf, !elem_of_app. auto.
Qed.

(** The code of a line of four bytes or more holds no LF. *)
Lemma getCode_line (l : gostring) :
  isLine l → is_Some (l !! 3%nat) → LF ∉ first (getCode l).
Proof.
  intros Hl [b Hb]. pose proof (Trim_line l Hl) as Htrim.
  unfold getCode. rewrite Hb.
  unfold SplitN2. destruct (Index _ _) as [i|]; simpl; [|done].
  intros Hin. apply Htrim. unfold first in Hin. simpl in Hin.
  by apply subseteq_take in Hin.
Qed.

(** A line too short to have a fourth byte does not carry the code. *)
Lemma short_line_code (code l : gostring) :
  LF ∉ code → isLine l → l !! 3%nat = None → first (getCode l) ≠ code.
Proof.
  intros Hcode (body & -> & _) Hshort. unfold getCode. rewrite Hshort.
  unfold first. simpl. intros <-. apply Hcode, elem_of_app. right. by left.
Qed.

(** The loop reads on to the first terminator and returns the lines read,
    in order, behind what it was given. *)
Lemma multiLineLoop_block (code m : gostring) (ls : list gostring)
    (last : gostring) (rest : Reader) :
  LF ∉ code →
  Forall isLine ls → Forall (λ l, ¬ isTerminator code l) ls →
  isLine last → isTerminator code last →
  multiLineLoop code m (concat ls ++ last ++ rest)
  = BlockEnd (m ++ concat ls ++ last) rest.
Proof.
  intros Hcode Hls Hnot Hlast [Hc Hsp]. revert m.
  induction ls as [|l ls IH]; intros m.
  - simpl. rewrite multiLineLoop_eq, (ReadString_line _ _ Hlast).
    by rewrite (bool_decide_eq_true_2 _ Hc), Hsp, bool_decide_eq_true_2.
  - apply Forall_cons in Hls as [Hl Hls]. apply Forall_cons in Hnot as [Hnl Hnot].
    simpl. rewrite <- !app_assoc.
    rewrite multiLineLoop_eq, (ReadString_line _ _ Hl).
    rewrite (app_assoc m l). rewrite <- (IH Hls Hnot (m ++ l)).
    case_bool_decide as Hlc; [|done].
    destruct (l !! 3%nat) as [b|] eqn:Hb.
    + case_bool_decide as Hbsp; [|done]. subst b. by destruct Hnl.
    + by destruct (short_line_code code l Hcode Hl Hb).
Qed.

(** It never indexes past the end of a line. *)
Lemma multiLineLoop_no_panic (code m : gostring) (from : Reader) :
  LF ∉ code → multiLineLoop code m from ≠ BlockPanic.
Proof.
  intros Hcode. remember (length from) as n eqn:Hn. revert m from Hn.
  induction n as [n IH] using lt_wf_ind. intros m from ->.
  rewrite multiLineLoop_eq.
  destruct (ReadString from) as [[res rest]|] eqn:Hread; [|done].
  destruct (ReadString_isLine _ _ _ Hread) as [Hres _].
  apply ReadString_length in Hread.
  case_bool_decide as Hc; [|by apply (IH _ Hread)].
  destruct (res !! 3%nat) as [b|] eqn:Hb.
  - case_bool_decide; [done|]. by apply (IH _ Hread).
  - by destruct (short_line_code code res Hcode Hres Hb).
Qed.

(** What it returns is a block: the lines up to the first terminator. *)
Lemma multiLineLoop_inv (code m : gostring) (from : Reader) (buff : gostring)
    (rest : Reader) :
  multiLineLoop code m from = BlockEnd buff rest →
  ∃ ls last,
    from = concat ls ++ last ++ rest ∧ buff = m ++ concat ls ++ last ∧
    Forall isLine ls ∧ Forall (λ l, ¬ isTerminator code l) ls ∧
    isLine last ∧ isTerminator code last.
Proof.
  remember (length from) as n eqn:Hn. revert m from Hn.
  induction n as [n IH] using lt_wf_ind. intros m from -> Hloop.
  rewrite multiLineLoop_eq in Hloop.
  destruct (ReadString from) as [[res rest']|] eqn:Hread; [|done].
  destruct (ReadString_isLine _ _ _ Hread) as [Hres ->].
  apply ReadString_length in Hread.
  assert (¬ isTerminator code res →
          multiLineLoop code (m ++ res) rest' = BlockEnd buff rest →
          ∃ ls last,
            res ++ rest' = concat ls ++ last ++ rest ∧
            buff = m ++ concat ls ++ last ∧
            Forall isLine ls ∧ Forall (λ l, ¬ isTerminator code l) ls ∧
            isLine last ∧ isTerminator code last) as Hrec.
  { intros Hnt Hl.
    destruct (IH _ Hread (m ++ res) rest' eq_refl Hl)
      as (ls & last & -> & -> & Hls & Hnot & Hlast & Hterm).
    exists (res :: ls), last. simpl. rewrite <- !app_assoc.
    split_and!; auto. }
  case_bool_decide as Hc.
  - destruct (res !! 3%nat) as [b|] eqn:Hb; [|done].
    case_bool_decide as Hbsp.
    + injection Hloop as <- <-. subst b. exists [], res. by split_and!.
    + apply Hrec; [|done]. intros [_ Hsp]. congruence.
  - apply Hrec; [|done]. by intros [? _].
Qed.

Lemma HasPrefix_lookup (buff prefix : gostring) (i : nat) (c : ascii) :
  HasPrefix buff prefix = true → prefix !! i = Some c → buff !! i = Some c.
Proof.
  intros [rest ->]%HasPrefix_spec Hi. by apply lookup_app_l_Some.
Qed.

(** A buffer whose fourth byte is a dash is no reply to a data command:
    the data channel step leaves it and the proxy server alone. *)
Lemma dataChannelStep_dash (buff : gostring) (s : proxyServer) :
  buff !! 3%nat = Some DASH → isDataCommandResponse s = false →
  dataChannelStep buff s = Some (s, buff).
Proof.
  intros Hdash Hflag.
  assert (∀ p, p !! 3%nat = Some SP → HasPrefix buff p = false) as Hno.
  { intros p Hp. destruct (HasPrefix buff p) eqn:E; [|done].
    pose proof (HasPrefix_lookup _ _ _ _ E Hp) as Hsp.
    rewrite Hdash in Hsp. by injection Hsp. }
  unfold dataChannelStep, on227, on229, on200PORT, dataResponse.
  rewrite !Hno by done. simpl. rewrite Hflag. by destruct (_ && _).
Qed.

(** With the data channel not proxied, or before the switch, the step
    does nothing. *)
Lemma dataChannelStep_off (buff : gostring) (s : proxyServer) :
  DataChanProxy (conf s) && isSwitched s = false →
  dataChannelStep buff s = Some (s, buff).
Proof. intros H. unfold dataChannelStep. by rewrite H. Qed.

Lemma opensBlock_dash (buff : gostring) :
  opensBlock buff = true ↔ buff !! 3%nat = Some DASH.
Proof.
  unfold opensBlock. rewrite andb_true_iff, !bool_decide_eq_true. split.
  - by intros [_ ?].
  - intros H. split; [|done]. apply lookup_lt_Some in H. lia.
Qed.

(** The writing half sends a buffer as one chunk when the client's writer
    and socket work. *)
Lemma writerHalf_one_chunk (to : Writer) (b : gostring) :
  werr to = false → wbuf to = [] → wlife to ≠ Some 0%nat → b ≠ [] →
  wsent (writerHalf to b) = wsent to ++ [b].
Proof.
  destruct to as [buf sent life err]. simpl. intros -> -> Hlife Hb.
  unfold writerHalf, WriteString, Flush. simpl.
  rewrite (bool_decide_eq_false_2 (b = [])) by done.
  by rewrite (bool_decide_eq_false_2 _ Hlife).
Qed.

(** C3, amended. An origin reply line of four bytes or more whose fourth
    byte is a dash, and which is neither replaced by the welcome message
    nor dropped as a 500 PROXY line, opens a multi-line block: the pump
    keeps reading lines, concatenating them in order behind the opener,
    up to the first line whose code is the opener's code and whose fourth
    byte is a space.  The whole block is one buffer: with passThrough set
    it is handed to the writing half, which sends it to the client as one
    chunk; a buffer the pass hands over or withholds is always such a
    block, and the loop never indexes past the end of a line.  For an
    opener made of three digits and a dash, a line made of the same three
    digits and a space closes the block. *)
Theorem multi_line_block (s : proxyServer) (line : gostring) :
  isLine line → line !! 3%nat = Some DASH →
  welcome s line = line → isProxy500 s line = false →
  (∀ ls last rest,
     Forall isLine ls →
     Forall (λ l, ¬ isTerminator (first (getCode line)) l) ls →
     isLine last → isTerminator (first (getCode line)) last →
     readerIteration s (line ++ concat ls ++ last ++ rest)
     = (if passThrough s then Handed else Withheld)
         (line ++ concat ls ++ last) (set_isDataCommandResponse false s) rest
     ∧ (passThrough s = true → ∀ to,
          pumpIteration (mkPump s (line ++ concat ls ++ last ++ rest) to)
          = Some (mkPump (set_isDataCommandResponse false s) rest
                         (writerHalf to (line ++ concat ls ++ last))))
     ∧ (∀ to, werr to = false → wbuf to = [] → wlife to ≠ Some 0%nat →
          wsent (writerHalf to (line ++ concat ls ++ last))
          = wsent to ++ [line ++ concat ls ++ last]))
  ∧ (∀ from buff s' rest,
       readerIteration s (line ++ from) = Handed buff s' rest
       ∨ readerIteration s (line ++ from) = Withheld buff s' rest →
       ∃ ls last,
         from = concat ls ++ last ++ rest ∧ buff = line ++ concat ls ++ last ∧
         Forall isLine ls ∧
         Forall (λ l, ¬ isTerminator (first (getCode line)) l) ls ∧
         isLine last ∧ isTerminator (first (getCode line)) last)
  ∧ (∀ from, readerIteration s (line ++ from) ≠ Panicked)
  ∧ (∀ c1 c2 c3 text text',
       isDigit c1 = true → isDigit c2 = true → isDigit c3 = true →
       line = c1 :: c2 :: c3 :: DASH :: text →
       isTerminator (first (getCode line)) (c1 :: c2 :: c3 :: SP :: text')).
Proof.
  intros Hline Hdash Hwel H500.
  assert (LF ∉ first (getCode line)) as Hcode by (by apply getCode_line).
  assert (∀ from, readerIteration s (line ++ from) =
            match multiLineLoop (first (getCode line)) line from with
            | BlockError =>
                BlockFailed (send (ErrChan ErrRead) (set_isDataCommandResponse false s))
            | BlockPanic => Panicked
            | BlockEnd buff rest =>
                (if passThrough s then Handed else Withheld)
                  buff (set_isDataCommandResponse false s) rest
            end) as Hiter.
  { intros from. unfold readerIteration. rewrite (ReadString_line _ _ Hline).
    change (welcome (set_isDataCommandResponse false s) line) with (welcome s line).
    rewrite Hwel.
    change (isProxy500 (set_isDataCommandResponse false s) line)
      with (isProxy500 s line).
    rewrite H500, dataChannelStep_dash by done.
    unfold multiLine. rewrite (proj2 (opensBlock_dash line) Hdash).
    destruct (multiLineLoop _ _ _); try done. simpl. by destruct (passThrough s). }
  split_and!.
  - intros ls last rest Hls Hnot Hlast Hterm.
    assert (readerIteration s (line ++ concat ls ++ last ++ rest)
            = (if passThrough s then Handed else Withheld)
                (line ++ concat ls ++ last) (set_isDataCommandResponse false s) rest)
      as Hblock.
    { by rewrite Hiter, (multiLineLoop_block _ _ _ _ _ Hcode Hls Hnot Hlast Hterm). }
    split_and!; [done| |].
    + intros Hpt to. unfold pumpIteration. simpl. by rewrite Hblock, Hpt.
    + intros to Herr Hbuf Hlife. apply writerHalf_one_chunk; try done.
      destruct Hline as (body & -> & _). by destruct body.
  - intros from buff s' rest Hres. rewrite Hiter in Hres.
    destruct (multiLineLoop _ _ _) as [b r| |] eqn:Hloop;
      [|by destruct Hres|by destruct Hres].
    apply multiLineLoop_inv in Hloop as (ls & last & -> & -> & ?).
    exists ls, last.
    destruct (passThrough s); destruct Hres as [Hres|Hres]; try done;
      injection Hres as <- <- <-; done.
  - intros from. rewrite Hiter.
    pose proof (multiLineLoop_no_panic _ line from Hcode) as Hnp.
    destruct (multiLineLoop _ _ _); try done. by destruct (passThrough s).
  - intros c1 c2 c3 text text' H1 H2 H3 ->. split; [|done].
    rewrite !getCode_reply; auto.
Qed.

(** The welcome message as [newProxyServer] builds it opens no block. *)
Lemma multiLine_welcome (msg : gostring) (from : Reader) :
  multiLine (str "220 " ++ msg ++ CRLF) from
  = BlockEnd (str "220 " ++ msg ++ CRLF) from.
Proof. done. Qed.

(** The pass on a line whose code is 220, on a server not switched: it
    goes on with the welcome message. *)
Lemma readerIteration_welcome (s : proxyServer) (from : Reader) (line : gostring)
    (rest : Reader) :
  isSwitched s = false →
  welcomeMsg s = str "220 " ++ WelcomeMsg (conf s) ++ CRLF →
  ReadString from = Some (line, rest) →
  first (getCode line) = str "220" →
  readerIteration s from
  = (if isProxy500 s (welcomeMsg s)
     then Dropped (set_isDataCommandResponse false s) rest
     else (if passThrough s then Handed else Withheld)
            (str "220 " ++ WelcomeMsg (conf s) ++ CRLF)
            (set_isDataCommandResponse false s) rest).
Proof.
  intros Hsw Hmsg Hread Hcode.
  assert (welcome s line = welcomeMsg s) as Hwel.
  { unfold welcome. by rewrite (bool_decide_eq_true_2 _ Hcode), Hsw. }
  unfold readerIteration. rewrite Hread.
  change (welcome (set_isDataCommandResponse false s) line) with (welcome s line).
  rewrite Hwel.
  change (isProxy500 (set_isDataCommandResponse false s) (welcomeMsg s))
    with (isProxy500 s (welcomeMsg s)).
  destruct (isProxy500 s (welcomeMsg s)); [done|].
  rewrite dataChannelStep_off by (simpl; rewrite Hsw; apply andb_false_r).
  rewrite Hmsg, multiLine_welcome. simpl. by destruct (passThrough s).
Qed.

(** C7. On a connection not yet switched, a reply line read from the
    origin that begins with 220 (the code 220 and then the space or the
    dash of a reply line), the first reply or a later one, has its text
    replaced by the configured welcome message: its code is 220, the pass
    through the reading loop goes on with the line "220 <welcome_msg>\r\n"
    and not with the origin's own line, and with passThrough set hands
    that line to the writing half, which writes it to the client as one
    chunk (unless proxy_protocol is on and the welcome message itself
    holds 500 PROXY, in which case it is dropped as any such line).
    newProxyServer sets the welcome message to that text, on a server not
    switched. *)
Theorem welcome_replaces_220 (s : proxyServer) (from : Reader) (line : gostring)
    (rest : Reader) (sep : ascii) (text : gostring) :
  isSwitched s = false →
  welcomeMsg s = str "220 " ++ WelcomeMsg (conf s) ++ CRLF →
  ReadString from = Some (line, rest) →
  line = str "220" ++ sep :: text → sep = SP ∨ sep = DASH →
  first (getCode line) = str "220"
  ∧ readerIteration s from
    = (if isProxy500 s (welcomeMsg s)
       then Dropped (set_isDataCommandResponse false s) rest
       else (if passThrough s then Handed else Withheld)
              (str "220 " ++ WelcomeMsg (conf s) ++ CRLF)
              (set_isDataCommandResponse false s) rest)
  ∧ (passThrough s = true → isProxy500 s (welcomeMsg s) = false → ∀ to,
       pumpIteration (mkPump s from to)
       = Some (mkPump (set_isDataCommandResponse false s) rest
                 (writerHalf to (str "220 " ++ WelcomeMsg (conf s) ++ CRLF)))
       ∧ (werr to = false → wbuf to = [] → wlife to ≠ Some 0%nat →
          wsent (writerHalf to (str "220 " ++ WelcomeMsg (conf s) ++ CRLF))
          = wsent to ++ [str "220 " ++ WelcomeMsg (conf s) ++ CRLF]))
  ∧ (∀ net clientW originAddr cfg s',
       newProxyServer net clientW originAddr cfg = inr s' →
       welcomeMsg s' = str "220 " ++ WelcomeMsg cfg ++ CRLF ∧
       conf s' = cfg ∧ isSwitched s' = false).
Proof.
  intros Hsw Hmsg Hread Hline Hsep.
  assert (first (getCode line) = str "220") as Hcode.
  { rewrite Hline. by apply (getCode_reply "2" "2" "0"). }
  pose proof (readerIteration_welcome s from line rest Hsw Hmsg Hread Hcode) as Hiter.
  split_and!.
  - done.
  - done.
  - intros Hpt H500 to. split.
    + unfold pumpIteration. simpl. by rewrite Hiter, H500, Hpt.
    + intros Herr Hbuf Hlife. by apply writerHalf_one_chunk.
  - intros net clientW originAddr cfg s'. unfold newProxyServer.
    destruct (dial net originAddr); [|done]. by intros [= <-].
Qed.

(** Nothing is written to the client during the replay of the TLS
    commands. *)
Lemma clientWriter_replyLoop (cmd : gostring) (tlsProtocol : Z)
    (lastError : option error) (s : proxyServer) :
  clientWriter (replyLoop cmd tlsProtocol lastError s).2 = clientWriter s.
Proof.
  remember (length (originReader s)) as n eqn:Hn. revert s Hn.
  induction n as [n IH] using lt_wf_ind. intros s ->.
  rewrite replyLoop_eq.
  destruct (ReadString (originReader s)) as [[line rest]|] eqn:Hread; [|done].
  apply ReadString_length in Hread.
  repeat case_match; try done.
  by rewrite (IH _ Hread (set_originReader rest s)).
Qed.

Lemma clientWriter_replay (tlsProtocol : Z) (cmds : list gostring)
    (lastError : option error) (s : proxyServer) :
  clientWriter (replay tlsProtocol cmds lastError s).2 = clientWriter s.
Proof.
  revert lastError s. induction cmds as [|cmd cmds IH]; intros lastError s; simpl.
  - done.
  - destruct (WriteString _ _) as [[?|] w]; [done|].
    destruct (Flush w) as [[?|] w']; [done|].
    pose proof (clientWriter_replyLoop cmd tlsProtocol lastError
                  (set_originWriter w' s)) as Hloop.
    destruct (replyLoop _ _ _ _) as [[le|e] s']; simpl in Hloop; [|done].
    by rewrite IH.
Qed.

(** C8, amended. With proxy_protocol on, a line that holds 500 PROXY is
    dropped by the reply pump when it is the line a pass through the
    reading loop starts with and is not replaced by the welcome message:
    nothing is handed to the writing half, the client's writer is left as
    it is and the loop goes on with the next line.  During the replay of
    the TLS commands it is skipped, and the next line read, when it
    answers an AUTH command and its code is not 234.  With proxy_protocol
    off the pump never drops a line, and such an answer to AUTH is a
    refusal.  The replay itself writes nothing to the client. *)
Theorem proxy500_dropped (s : proxyServer) (from : Reader) (line : gostring)
    (rest : Reader) :
  ReadString from = Some (line, rest) →
  Contains line (str "500 PROXY") = true →
  (ProxyProtocol (conf s) = true → welcome s line = line →
   readerIteration s from = Dropped (set_isDataCommandResponse false s) rest
   ∧ ∀ to, pumpIteration (mkPump s from to)
           = Some (mkPump (set_isDataCommandResponse false s) rest to))
  ∧ (ProxyProtocol (conf s) = false →
     ∀ s' rest', readerIteration s from ≠ Dropped s' rest')
  ∧ (∀ cmd tlsProtocol lastError,
       originReader s = from →
       ToUpper (getCommand cmd).1 = str "AUTH" →
       first (getCode line) ≠ str "234" →
       (ProxyProtocol (conf s) = true →
        replyLoop cmd tlsProtocol lastError s
        = replyLoop cmd tlsProtocol lastError (set_originReader rest s))
       ∧ (ProxyProtocol (conf s) = false →
          replyLoop cmd tlsProtocol lastError s
          = (Break (Some (ErrNoTLS (first (getCode line)))),
             set_originReader rest s)))
  ∧ (∀ tlsProtocol cmds,
       clientWriter (sendTLSCommand tlsProtocol cmds s).2 = clientWriter s).
Proof.
  intros Hread H500. split_and!.
  - intros Hpp Hwel.
    assert (readerIteration s from
            = Dropped (set_isDataCommandResponse false s) rest) as Hiter.
    { unfold readerIteration. rewrite Hread.
      change (welcome (set_isDataCommandResponse false s) line)
        with (welcome s line). rewrite Hwel.
      change (isProxy500 (set_isDataCommandResponse false s) line)
        with (isProxy500 s line).
      unfold isProxy500. by rewrite Hpp, H500. }
    split; [done|]. intros to. unfold pumpIteration. simpl. by rewrite Hiter.
  - intros Hpp s' rest'. unfold readerIteration. rewrite Hread.
    set (buff := welcome _ line).
    change (isProxy500 (set_isDataCommandResponse false s) buff)
      with (isProxy500 s buff).
    unfold isProxy500. rewrite Hpp. cbn [andb].
    by repeat case_match.
  - intros cmd tlsProtocol lastError <- Hauth Hcode.
    rewrite replyLoop_eq, Hread, (bool_decide_eq_true_2 _ Hauth).
    rewrite (bool_decide_eq_false_2 _ Hcode), H500. simpl negb. cbv iota.
    split; by intros ->.
  - intros tlsProtocol cmds. apply clientWriter_replay.
Qed.

(** ** The PASV reply *)

Lemma ReplaceAll_gone (s : gostring) (old new : ascii) :
  old ≠ new → old ∉ ReplaceAll s old new.
Proof.
  intros Hne. unfold ReplaceAll. induction s as [|c s IH]; simpl.
  - apply not_elem_of_nil.
  - apply not_elem_of_cons. split; [|done]. by case_bool_decide.
Qed.

(** A line that begins with "227 " begins with neither of the other two
    prefixes the data channel step looks for. *)
Lemma prefix_227_only (line : gostring) :
  HasPrefix line (str "227 ") = true →
  HasPrefix line (str "229 ") = false ∧
  HasPrefix line (str "200 PORT command successful") = false.
Proof.
  intros [rest ->]%HasPrefix_spec. split.
  - done.
  - destruct (HasPrefix _ (str "200 PORT command successful")) eqn:E; [|done].
    apply HasPrefix_spec in E as [rest' E]. discriminate E.
Qed.

(** C9. With the data channel proxied, on a switched connection whose
    data handler records the mode PASV and a listener on port listenPort,
    a reply line from origin that begins with "227 " is rewritten before
    it reaches the gate: unless the line is dropped as a 500 PROXY line,
    the buffer the pass hands over (passThrough set) or withholds is
    "227 Entering Passive Mode (<ip>,<p1>,<p2>).\r\n", where <ip> is
    masquerade_ip with its dots turned into commas, p1 is listenPort
    divided by 256 and p2 the remainder, in decimal; so p1 * 256 + p2 is
    listenPort, and for a port below 65536 both are octets.  The data
    handler is programmed with the endpoint parsed from the origin's line
    and its transfer is started. *)
Theorem pasv_reply_rewritten (s : proxyServer) (from : Reader) (line : gostring)
    (rest : Reader) (d : dataHandler) (listenPort : Z) :
  DataChanProxy (conf s) = true → isSwitched s = true →
  dataConnector s = Some d → mode d = str "PASV" → listener d = Some listenPort →
  ReadString from = Some (line, rest) →
  HasPrefix line (str "227 ") = true →
  let p1 := Z.quot listenPort 256 in
  let p2 := Z.rem listenPort 256 in
  let reply := str "227 Entering Passive Mode ("
                 ++ ReplaceAll (MasqueradeIP (conf s)) "." ","
                 ++ str "," ++ Itoa p1 ++ str "," ++ Itoa p2
                 ++ str ")." ++ [CR; LF] in
  (∃ s',
     readerIteration s from
     = (if isProxy500 s line
        then Dropped (set_isDataCommandResponse false s) rest
        else (if passThrough s then Handed else Withheld) reply s' rest)
     ∧ dataConnector s' = Some (startTransfer (setEndpoint (parsePASV line) d))
     ∧ (isProxy500 s line = false → passThrough s = true → ∀ to,
          pumpIteration (mkPump s from to)
          = Some (mkPump s' rest (writerHalf to reply))))
  ∧ p1 * 256 + p2 = listenPort
  ∧ (0 ≤ listenPort < 65536 →
     0 ≤ p1 < 256 ∧ 0 ≤ p2 < 256 ∧
     p1 = listenPort / 256 ∧ p2 = listenPort mod 256)
  ∧ "."%char ∉ ReplaceAll (MasqueradeIP (conf s)) "." ",".
Proof.
  intros Hdcp Hsw Hdc Hmode Hlis Hread H227 p1 p2 reply.
  destruct (prefix_227_only _ H227) as [H229 H200].
  set (s1 := set_dataConnector (Some (startTransfer (setEndpoint (parsePASV line) d)))
               (set_dataConnector (Some (setEndpoint (parsePASV line) d))
                  (set_isDataCommandResponse true
                     (set_isDataCommandResponse false s)))).
  assert (dataChannelStep line (set_isDataCommandResponse false s)
          = Some (s1, reply)) as Hstep.
  { unfold dataChannelStep, on227, on229, on200PORT. simpl conf. simpl isSwitched.
    rewrite Hdcp, Hsw, H227, H229, H200. simpl dataConnector. rewrite Hdc.
    simpl. unfold dataResponse. simpl. rewrite Hmode, Hlis. done. }
  assert (readerIteration s from
          = (if isProxy500 s line
             then Dropped (set_isDataCommandResponse false s) rest
             else (if passThrough s then Handed else Withheld) reply s1 rest))
    as Hiter.
  { unfold readerIteration. rewrite Hread.
    assert (welcome (set_isDataCommandResponse false s) line = line) as ->.
    { unfold welcome. simpl. rewrite Hsw. by rewrite andb_false_r. }
    change (isProxy500 (set_isDataCommandResponse false s) line)
      with (isProxy500 s line).
    destruct (isProxy500 s line); [done|]. rewrite Hstep.
    assert (multiLine reply rest = BlockEnd reply rest) as -> by done.
    change (passThrough s1) with (passThrough s). by destruct (passThrough s). }
  split_and!.
  - exists s1. split_and!; [done|done|].
    intros H500 Hpt to. unfold pumpIteration. simpl.
    by rewrite Hiter, H500, Hpt.
  - unfold p1, p2. pose proof (Z.quot_rem' listenPort 256). lia.
  - intros Hport. unfold p1, p2.
    rewrite Z.quot_div_nonneg, Z.rem_mod_nonneg by lia.
    pose proof (Z.mod_pos_bound listenPort 256).
    pose proof (Z.div_lt_upper_bound listenPort 256 256).
    pose proof (Z.div_pos listenPort 256). lia.
  - by apply ReplaceAll_gone.
Qed.

(** * Further properties *)

(** ** strings.Index and the split of getCode *)

Lemma Index_cons (c : ascii) (s sep : gostring) :
  Index (c :: s) sep
  = if HasPrefix (c :: s) sep then Some 0%nat else S <$> Index s sep.
Proof. done. Qed.

Lemma Index_Some (s sep : gostring) (i : nat) :
  Index s sep = Some i →
  s = take i s ++ sep ++ drop (i + length sep) s ∧
  ∀ a b, s = a ++ sep ++ b → (i ≤ length a)%nat.
Proof.
  revert i. induction s as [|c s IH]; intros i.
  - simpl. destruct (HasPrefix [] sep) eqn:Hp; [|done]. intros [= <-].
    apply HasPrefix_spec in Hp as [rest Hp]. split; [|intros; lia].
    destruct sep; [|done]. by destruct rest.
  - rewrite Index_cons. destruct (HasPrefix (c :: s) sep) eqn:Hp.
    + intros [= <-]. split; [|intros; lia].
      apply HasPrefix_spec in Hp as [rest Hp]. rewrite Hp.
      rewrite take_0, Nat.add_0_l, drop_app_length. done.
    + destruct (Index s sep) as [j|] eqn:Hj; [|done]. intros [= <-].
      destruct (IH j eq_refl) as [Hs Hmin]. split.
      * rewrite firstn_cons. change (S j + length sep)%nat with (S (j + length sep)).
        rewrite skipn_cons. simpl. by rewrite <- Hs.
      * intros a b Hab. destruct a as [|x a].
        -- assert (HasPrefix (c :: s) sep = true) as Hc; [|congruence].
           apply HasPrefix_spec. by exists b.
        -- injection Hab as _ Hab. specialize (Hmin _ _ Hab). simpl. lia.
Qed.

Lemma Index_None (s sep : gostring) :
  Index s sep = None → ∀ a b, s ≠ a ++ sep ++ b.
Proof.
  induction s as [|c s IH].
  - simpl. destruct (HasPrefix [] sep) eqn:Hp; [done|]. intros _ a b Hab.
    assert (HasPrefix [] sep = true) as Hc; [|congruence].
    apply HasPrefix_spec. exists b. destruct a; [done|discriminate].
  - rewrite Index_cons. destruct (HasPrefix (c :: s) sep) eqn:Hp; [done|].
    destruct (Index s sep) eqn:Hj; [done|]. intros _ a b Hab.
    destruct a as [|x a].
    + assert (HasPrefix (c :: s) sep = true) as Hc; [|congruence].
      apply HasPrefix_spec. by exists b.
    + injection Hab as _ Hab. by eapply IH.
Qed.

(** X1. getCode splits the line, without the CRs and LFs at its two ends,
    at the first occurrence of the text its fourth byte converts to: of a
    line of four bytes or more it returns either that trimmed line alone,
    when the separator does not occur in it, or two parts, which joined by
    the separator give the trimmed line back, the first part ending where
    the separator first occurs.  A line of fewer than four bytes is
    returned alone and as it is, line end included. *)
Theorem getCode_split_join (line : gostring) :
  match line !! 3%nat with
  | None => getCode line = [line]
  | Some b =>
      (getCode line = [Trim line CRLF]
       ∧ ∀ a c, Trim line CRLF ≠ a ++ string_of_byte b ++ c)
      ∨ (∃ code rest,
           getCode line = [code; rest]
           ∧ Trim line CRLF = code ++ string_of_byte b ++ rest
           ∧ ∀ a c, Trim line CRLF = a ++ string_of_byte b ++ c →
                    (length code ≤ length a)%nat)
  end.
Proof.
  unfold getCode. destruct (line !! 3%nat) as [b|]; [|done].
  unfold SplitN2. destruct (Index _ _) as [i|] eqn:Hi.
  - right. destruct (Index_Some _ _ _ Hi) as [Hsplit Hmin].
    eexists _, _. split; [done|]. split; [done|].
    intros a c Hac. specialize (Hmin _ _ Hac).
    rewrite length_take. lia.
  - left. split; [done|]. by apply Index_None.
Qed.

(** ** commandLineCheck once more *)

(** X2. commandLineCheck is idempotent, and the lines it returns as they
    are, are exactly the well-formed ones: those that start with a letter,
    end with CR LF and contain one CR and one LF. *)
Theorem commandLineCheck_idempotent :
  (∀ line out, commandLineCheck line = inr out → commandLineCheck out = inr out)
  ∧ (∀ line,
       commandLineCheck line = inr line ↔
       (∃ b, head line = Some b ∧ isAlpha b = true) ∧ HasSuffix line CRLF = true ∧
       Count line CR = 1%nat ∧ Count line LF = 1%nat).
Proof.
  assert (∀ line,
            (∃ b, head line = Some b ∧ isAlpha b = true) → HasSuffix line CRLF = true →
            Count line CR = 1%nat → Count line LF = 1%nat →
            commandLineCheck line = inr line) as Hfix.
  { intros line (b & Hhead & Hb) Hsuf HCR HLF. unfold commandLineCheck.
    destruct line as [|c line]; [done|]. injection Hhead as ->.
    simpl stripToAlpha. rewrite Hb, Hsuf.
    by rewrite !bool_decide_eq_true_2. }
  assert (∀ line out, commandLineCheck line = inr out →
            (∃ b, head out = Some b ∧ isAlpha b = true) ∧ HasSuffix out CRLF = true ∧
            Count out CR = 1%nat ∧ Count out LF = 1%nat) as Hshape.
  { intros line out Hout.
    destruct (stripToAlpha line) as [cmd|] eqn:Hstrip;
      [|unfold commandLineCheck in Hout; by rewrite Hstrip in Hout].
    destruct (commandLineCheck_shape _ _ _ Hstrip Hout) as (Hh & HCR & HLF & ->).
    split_and!; try done. apply HasSuffix_spec. by eexists. }
  split.
  - intros line out Hout.
    destruct (Hshape _ _ Hout) as (? & ? & ? & ?). by apply Hfix.
  - intros line. split; [apply Hshape|].
    intros (? & ? & ? & ?). by apply Hfix.
Qed.

(** X3. A failure of the origin writer sticks: once sendToOrigin has
    returned a write error, every later call fails too, with the same
    error (or with the wrong-command-line error for a line without a
    letter), and leaves the proxy server as it is: nothing more is sent on
    that connection. *)
Theorem sendToOrigin_failure_sticks (s s' : proxyServer) (line line' : gostring) :
  sendToOrigin s line = (Err ErrWrite, s') →
  werr (originWriter s') = true
  ∧ wsent (originWriter s') = wsent (originWriter s)
  ∧ (sendToOrigin s' line' = (Err ErrWrite, s')
     ∨ sendToOrigin s' line' = (Err ErrWrongCommandLine, s')).
Proof.
  intros Hsend.
  assert (werr (originWriter s') = true
          ∧ wsent (originWriter s') = wsent (originWriter s)) as [Herr Hsent].
  { revert Hsend. unfold sendToOrigin.
    destruct (commandLineCheck line) as [e|out] eqn:Hc.
    { unfold commandLineCheck in Hc.
      destruct (stripToAlpha line); [by destruct (_ || _)|].
      injection Hc as <-. discriminate. }
    unfold WriteString, Flush. destruct s as [cw o r [buf sent life err] ? ? ? ? ? ? ? ?].
    cbn [originWriter werr wbuf wlife wsent]. destruct err.
    { by intros [= <-]. }
    cbn [werr wbuf wlife wsent]. case_bool_decide; [done|].
    case_bool_decide; [|done]. by intros [= <-]. }
  split_and!; [done|done|].
  unfold sendToOrigin. destruct (commandLineCheck line') as [e|out] eqn:Hc.
  - right. unfold commandLineCheck in Hc.
    destruct (stripToAlpha line'); [by destruct (_ || _)|]. by injection Hc as <-.
  - left. unfold WriteString. rewrite Herr. by destruct s'.
Qed.

(** ** What the calls on the origin leave alone *)





(** ** switchOrigin: the exchange with the reply pump *)

Lemma besideOrigin_stopped (s : proxyServer) :
  besideOrigin
    (pumpStop
       (send StopChan
          (if passThrough (set_isSwitched true s)
           then suspend (set_isSwitched true s) else set_isSwitched true s)))
  = (clientWriter s, false, true, true, welcomeMsg s, conf s,
     dataClose <$> dataConnector s, isDataCommandResponse s,
     signals s ++ [StopChan; StopChanDone]).
Proof.
  destruct s as [cw [o|] r w [] st sw wm cf dc dcr sg];
    unfold besideOrigin, pumpStop, Close, suspend; cbn;
    by rewrite <- ?app_assoc.
Qed.


(** X5. When the new origin cannot be dialled, switchOrigin returns the
    error of the dial and publishes false; the server is left with no
    origin connection (Close then does nothing) and stays switched, so
    that every later call with an address is refused as already
    switched. *)
Theorem switchOrigin_dial_failure (net : network) (clientAddr originAddr : gostring)
    (tlsProtocol : Z) (cmds : list gostring) (s : proxyServer) :
  originAddr ≠ [] → isSwitched s = false → dial net originAddr = None →
  ∃ s',
    switchOrigin net clientAddr originAddr tlsProtocol cmds s = (Err ErrDial, s')
    ∧ origin s' = None ∧ isSwitched s' = true ∧ Close s' = s'
    ∧ signals s' = signals s ++ [StopChan; StopChanDone; WaitSwitching false]
    ∧ ∀ clientAddr' originAddr' tlsProtocol' cmds',
        originAddr' ≠ [] →
        switchOrigin net clientAddr' originAddr' tlsProtocol' cmds' s'
        = (Err ErrAlreadySwitched, s').
Proof.
  intros Haddr Hsw Hdial.
  assert (∀ a : gostring, a ≠ [] → bool_decide (length a = 0%nat) = false) as Hlen.
  { intros a Ha. apply bool_decide_eq_false_2. by destruct a. }
  unfold switchOrigin at 1. rewrite (Hlen _ Haddr), Hsw.
  unfold switchSteps. rewrite Hdial.
  eexists. split; [done|].
  destruct s as [cw o r w pt st sw wm cf dc dcr sg]. cbn in Hsw. subst sw.
  destruct pt, o; unfold pumpStop, Close, suspend, unsuspend; cbn;
    rewrite <- ?app_assoc; split_and!; try done.
  all: intros ca oa tp cs Hoa; unfold switchOrigin; by rewrite (Hlen _ Hoa).
Qed.

(** ** sendTLSCommand on commands other than AUTH *)

Lemma write_flush_works (w : Writer) (cmd : gostring) :
  werr w = false → wbuf w = [] → wlife w = None → cmd ≠ [] →
  WriteString w cmd
  = (None, {| wbuf := cmd; wsent := wsent w; wlife := None; werr := false |})
  ∧ Flush {| wbuf := cmd; wsent := wsent w; wlife := None; werr := false |}
    = (None, {| wbuf := []; wsent := wsent w ++ [cmd]; wlife := None;
                werr := false |}).
Proof.
  destruct w as [buf sent life err]. simpl. intros -> -> -> Hne.
  unfold WriteString, Flush. simpl.
  by rewrite (bool_decide_eq_false_2 (cmd = [])) by done.
Qed.

Lemma replay_plain (tlsProtocol : Z) (cmds : list gostring) (lastError : option error)
    (s : proxyServer) (lines : list gostring) (rest : Reader) :
  Forall (λ cmd, ToUpper (getCommand cmd).1 ≠ str "AUTH") cmds →
  Forall (λ cmd, cmd ≠ []) cmds →
  werr (originWriter s) = false → wbuf (originWriter s) = [] →
  wlife (originWriter s) = None →
  Forall isLine lines → originReader s = concat lines ++ rest →
  (length lines = length cmds →
   ∃ s', replay tlsProtocol cmds lastError s
         = (match lastError with None => Ok | Some e => Err e end, s')
         ∧ originReader s' = rest
         ∧ originWriter s'
           = {| wbuf := []; wsent := wsent (originWriter s) ++ cmds;
                wlife := None; werr := false |}
         ∧ origin s' = origin s ∧ besideOrigin s' = besideOrigin s)
  ∧ ((length lines < length cmds)%nat → ReadString rest = None →
     ∃ s', replay tlsProtocol cmds lastError s = (Err ErrMakeTLS, s')
           ∧ wsent (originWriter s')
             = wsent (originWriter s) ++ take (S (length lines)) cmds
           ∧ origin s' = origin s ∧ besideOrigin s' = besideOrigin s).
Proof.
  revert s lines. induction cmds as [|cmd cmds IH];
    intros s lines Hplain Hne Herr Hbuf Hlife Hlines Hreader.
  - split; [|simpl; lia]. intros Hlen. destruct lines; [|done].
    simpl in Hreader. exists s. simpl. split_and!; try done.
    rewrite app_nil_r. destruct s as [? ? ? [? ? ? ?] ? ? ? ? ? ? ? ?].
    simpl in *. by subst.
  - apply Forall_cons in Hplain as [Hcmd Hplain].
    apply Forall_cons in Hne as [Hcne Hne].
    cbn [replay].
    destruct (write_flush_works _ cmd Herr Hbuf Hlife Hcne) as [-> ->].
    set (w1 := {| wbuf := []; wsent := wsent (originWriter s) ++ [cmd];
                  wlife := None; werr := false |}).
    rewrite replyLoop_eq. cbn [set_originWriter originReader].
    rewrite Hreader. destruct lines as [|l lines].
    + split; [done|]. intros _ Hrest. simpl concat. simpl app at 1.
      rewrite Hrest. eexists. split; [done|]. by split_and!.
    + apply Forall_cons in Hlines as [Hl Hlines].
      simpl concat. rewrite <- app_assoc. rewrite (ReadString_line _ _ Hl).
      rewrite bool_decide_eq_false_2 by done.
      destruct (IH (set_originReader (concat lines ++ rest) (set_originWriter w1 s))
                  lines Hplain Hne eq_refl eq_refl eq_refl Hlines eq_refl)
        as [IH1 IH2].
      split.
      * intros Hlen. destruct IH1 as (s' & Hrun & Hrd & Hwr & Ho & Hb);
          [simpl in Hlen; lia|].
        exists s'. split_and!; try done.
        rewrite Hwr. cbn. by rewrite <- app_assoc.
      * intros Hlen Hrest. destruct IH2 as (s' & Hrun & Hwr & Ho & Hb);
          [simpl in Hlen; lia|done|].
        exists s'. split_and!; try done.
        rewrite Hwr. cbn. by rewrite <- app_assoc.
Qed.

(** X6. When none of the recorded commands is AUTH (and none is the empty
    string), on an origin writer that works: sendTLSCommand writes the
    commands to the origin as they are, one chunk each and in order, and
    takes exactly one line from the origin for each, whatever the line
    says; it returns nil and leaves what follows those lines to be read.
    The connection is not wrapped and nothing else changes. *)
Theorem sendTLSCommand_plain_commands (tlsProtocol : Z) (cmds : list gostring)
    (s : proxyServer) (lines : list gostring) (rest : Reader) :
  Forall (λ cmd, ToUpper (getCommand cmd).1 ≠ str "AUTH") cmds →
  Forall (λ cmd, cmd ≠ []) cmds →
  werr (originWriter s) = false → wbuf (originWriter s) = [] →
  wlife (originWriter s) = None →
  Forall isLine lines → length lines = length cmds →
  originReader s = concat lines ++ rest →
  ∃ s', sendTLSCommand tlsProtocol cmds s = (Ok, s')
        ∧ originReader s' = rest
        ∧ wsent (originWriter s') = wsent (originWriter s) ++ cmds
        ∧ wbuf (originWriter s') = []
        ∧ origin s' = origin s ∧ besideOrigin s' = besideOrigin s.
Proof.
  intros Hplain Hne Herr Hbuf Hlife Hlines Hlen Hreader.
  destruct (replay_plain tlsProtocol cmds None s lines rest) as [H _]; try done.
  destruct (H Hlen) as (s' & Hrun & Hrd & Hwr & Ho & Hb).
  exists s'. unfold sendTLSCommand. rewrite Hwr. by split_and!.
Qed.

(** X7. When the origin sends fewer lines than there are commands to
    replay and then nothing more, sendTLSCommand fails with the error
    failed to make TLS connection: it has written the commands that were
    answered and the first one that was not, and none after that. *)
Theorem sendTLSCommand_stream_ends (tlsProtocol : Z) (cmds : list gostring)
    (s : proxyServer) (lines : list gostring) (rest : Reader) :
  Forall (λ cmd, ToUpper (getCommand cmd).1 ≠ str "AUTH") cmds →
  Forall (λ cmd, cmd ≠ []) cmds →
  werr (originWriter s) = false → wbuf (originWriter s) = [] →
  wlife (originWriter s) = None →
  Forall isLine lines → (length lines < length cmds)%nat →
  originReader s = concat lines ++ rest → ReadString rest = None →
  ∃ s', sendTLSCommand tlsProtocol cmds s = (Err ErrMakeTLS, s')
        ∧ wsent (originWriter s')
          = wsent (originWriter s) ++ take (S (length lines)) cmds
        ∧ origin s' = origin s ∧ besideOrigin s' = besideOrigin s.
Proof.
  intros Hplain Hne Herr Hbuf Hlife Hlines Hlen Hreader Hrest.
  destruct (replay_plain tlsProtocol cmds None s lines rest) as [_ H]; try done.
  destruct (H Hlen Hrest) as (s' & Hrun & Hwr & Ho & Hb).
  exists s'. unfold sendTLSCommand. by split_and!.
Qed.

(** ** sendProxyHeader *)

Lemma splitColon_plain (s : gostring) : COLON ∉ s → splitColon s = [s].
Proof.
  induction s as [|c s IH]; [done|]. intros Hc.
  apply not_elem_of_cons in Hc as [Hc Hs]. simpl.
  rewrite bool_decide_eq_false_2 by (intros ->; by apply Hc).
  by rewrite IH.
Qed.

Lemma splitColon_app (a b : gostring) :
  COLON ∉ a → splitColon (a ++ COLON :: b) = a :: splitColon b.
Proof.
  induction a as [|c a IH]; intros Hc.
  - simpl. by rewrite ?bool_decide_eq_true_2.
  - apply not_elem_of_cons in Hc as [Hc Ha]. simpl.
    rewrite bool_decide_eq_false_2 by (intros ->; by apply Hc).
    by rewrite IH.
Qed.

(** X8. sendProxyHeader panics, before it looks the origin up or writes
    anything, when the address of the client or that of the origin has no
    colon: the port is taken as the second part of the address split at
    its colons, and then there is none. *)
Theorem sendProxyHeader_no_port (net : network) (clientAddr originAddr : gostring)
    (s : proxyServer) :
  COLON ∉ clientAddr ∨ COLON ∉ originAddr →
  sendProxyHeader net clientAddr originAddr s = (Panic, s).
Proof.
  intros [Hc|Hc]; unfold sendProxyHeader; rewrite (splitColon_plain _ Hc).
  - done.
  - simpl. by destruct (splitColon clientAddr !! 1%nat).
Qed.

(** X9. On addresses host:port, sendProxyHeader writes on the origin
    connection a header whose source is the host and port of the client's
    address and whose destination is the first address the origin's host
    resolves to, with the port of the origin's address; it changes nothing
    but that connection (and the count of writes its socket takes).  When
    the host does not resolve it returns the error of the lookup and
    writes nothing. *)
Theorem sendProxyHeader_header (net : network) (chost cport ohost oport : gostring)
    (s : proxyServer) (c : tcpConn) :
  COLON ∉ chost → COLON ∉ cport → COLON ∉ ohost → COLON ∉ oport →
  origin s = Some (TCP c) → writes c ≠ Some 0%nat → closed c = false →
  match lookupIP net ohost with
  | None =>
      sendProxyHeader net (chost ++ COLON :: cport) (ohost ++ COLON :: oport) s
      = (Err ErrLookup, s)
  | Some [] =>
      sendProxyHeader net (chost ++ COLON :: cport) (ohost ++ COLON :: oport) s
      = (Panic, s)
  | Some (ip :: _) =>
      ∃ s' c',
        sendProxyHeader net (chost ++ COLON :: cport) (ohost ++ COLON :: oport) s
        = (Ok, s')
        ∧ origin s' = Some (TCP c')
        ∧ header c' = Some (mkHeader chost cport ip oport)
        ∧ remoteAddr c' = remoteAddr c ∧ incoming c' = incoming c
        ∧ closed c' = false
        ∧ originReader s' = originReader s
        ∧ wsent (originWriter s') = wsent (originWriter s)
        ∧ besideOrigin s' = besideOrigin s
  end.
Proof.
  intros Hch Hcp Hoh Hop Ho Hw Hcl. unfold sendProxyHeader.
  rewrite !splitColon_app, !splitColon_plain by done.
  change (first [ohost; oport]) with ohost.
  change (first [chost; cport]) with chost.
  cbn [lookup list_lookup].
  destruct (lookupIP net ohost) as [[|ip ips]|]; [done| |done].
  cbn [lookup list_lookup]. rewrite Ho. cbn [writeHeader].
  rewrite bool_decide_eq_false_2, Hcl by done. cbn [orb].
  eexists _, _. split; [done|]. by split_and!.
Qed.

(** ** The reply pump, run to its end *)

(** A pass on a line that is neither replaced nor dropped, with the data
    channel left alone: the line, or the block it opens, is what the pass
    ends with. *)
Lemma readerIteration_untouched (s : proxyServer) (from : Reader) (line : gostring)
    (rest : Reader) :
  ReadString from = Some (line, rest) →
  welcome s line = line → isProxy500 s line = false →
  DataChanProxy (conf s) && isSwitched s = false →
  readerIteration s from
  = match multiLine line rest with
    | BlockError =>
        BlockFailed (send (ErrChan ErrRead) (set_isDataCommandResponse false s))
    | BlockPanic => Panicked
    | BlockEnd buff rest' =>
        (if passThrough s then Handed else Withheld)
          buff (set_isDataCommandResponse false s) rest'
    end.
Proof.
  intros Hread Hwel H500 Hoff. unfold readerIteration. rewrite Hread.
  change (welcome (set_isDataCommandResponse false s) line) with (welcome s line).
  rewrite Hwel.
  change (isProxy500 (set_isDataCommandResponse false s) line)
    with (isProxy500 s line).
  rewrite H500, dataChannelStep_off by done.
  destruct (multiLine line rest); try done. simpl. by destruct (passThrough s).
Qed.

Lemma writerHalf_works (to : Writer) (b : gostring) :
  werr to = false → wbuf to = [] → wlife to = None → b ≠ [] →
  writerHalf to b
  = {| wbuf := []; wsent := wsent to ++ [b]; wlife := None; werr := false |}.
Proof.
  destruct to as [buf sent life err]. simpl. intros -> -> -> Hb.
  unfold writerHalf, WriteString, Flush. simpl.
  by rewrite (bool_decide_eq_false_2 (b = [])) by done.
Qed.

Lemma isLine_nonempty (l : gostring) : isLine l → l ≠ [].
Proof. intros (body & -> & _). by destruct body. Qed.

(** The loop fails when the stream ends before a terminator. *)
Lemma multiLineLoop_unterminated (code m : gostring) (ls : list gostring)
    (tail : Reader) :
  LF ∉ code →
  Forall isLine ls → Forall (λ l, ¬ isTerminator code l) ls →
  ReadString tail = None →
  multiLineLoop code m (concat ls ++ tail) = BlockError.
Proof.
  intros Hcode Hls Hnot Htail. revert m.
  induction ls as [|l ls IH]; intros m.
  - simpl. by rewrite multiLineLoop_eq, Htail.
  - apply Forall_cons in Hls as [Hl Hls]. apply Forall_cons in Hnot as [Hnl Hnot].
    simpl. rewrite <- !app_assoc.
    rewrite multiLineLoop_eq, (ReadString_line _ _ Hl).
    rewrite <- (IH Hls Hnot (m ++ l)).
    case_bool_decide as Hlc; [|done].
    destruct (l !! 3%nat) as [b|] eqn:Hb.
    + case_bool_decide as Hbsp; [|done]. subst b. by destruct Hnl.
    + by destruct (short_line_code code l Hcode Hl Hb).
Qed.

(** X10. After the switch, with neither the data channel proxied nor the
    PROXY protocol on, the pump is transparent: run without interference
    on a client writer that works, it sends the client a prefix of the
    bytes the origin sent, unchanged and in order, each chunk being one
    line or one whole multi-line block; it stops with the error of the
    read where the origin's bytes end in an unfinished line or in a block
    that is never closed, and those last bytes are not sent. *)
Theorem pump_forwards_origin_bytes (s : proxyServer) (from : Reader) (to : Writer) :
  isSwitched s = true → DataChanProxy (conf s) = false →
  ProxyProtocol (conf s) = false →
  passThrough s = true → stop s = false →
  werr to = false → wbuf to = [] → wlife to = None →
  ∃ chunks tail s' to',
    readerLoop s from to = (Err ErrRead, s', [], to')
    ∧ from = concat chunks ++ tail
    ∧ wsent to' = wsent to ++ chunks ∧ wbuf to' = []
    ∧ Forall (λ chunk, ∃ ls, ls ≠ [] ∧ Forall isLine ls ∧ chunk = concat ls) chunks
    ∧ (ReadString tail = None
       ∨ ∃ line rest,
           ReadString tail = Some (line, rest) ∧ opensBlock line = true
           ∧ multiLineLoop (first (getCode line)) line rest = BlockError).
Proof.
  remember (length from) as n eqn:Hn. revert s from to Hn.
  induction n as [n IH] using lt_wf_ind.
  intros s from to -> Hsw Hdcp Hpp Hpt Hstop Herr Hbuf Hlife.
  rewrite readerLoop_eq.
  destruct (ReadString from) as [[line rest]|] eqn:Hread.
  2: { unfold readerIteration. rewrite Hread.
       change (stop (set_isDataCommandResponse false s)) with (stop s).
       rewrite Hstop.
       change (stop (send (ErrChan ErrRead) (set_isDataCommandResponse false s)))
         with (stop s).
       rewrite Hstop. exists [], from. eexists _, _.
       split; [done|]. rewrite app_nil_r. split_and!; try done. by left. }
  destruct (ReadString_isLine _ _ _ Hread) as [Hline Hfrom].
  pose proof (ReadString_length _ _ _ Hread) as Hlen.
  rewrite (readerIteration_untouched s from line rest Hread).
  2: { unfold welcome. by rewrite Hsw, andb_false_r. }
  2: { unfold isProxy500. by rewrite Hpp. }
  2: { by rewrite Hdcp. }
  assert (∀ buff rest' ls,
            (length rest' < length from)%nat → from = buff ++ rest' →
            ls ≠ [] → Forall isLine ls → buff = concat ls → buff ≠ [] →
            ∃ chunks tail s' to',
              readerLoop (set_isDataCommandResponse false s) rest'
                (writerHalf to buff) = (Err ErrRead, s', [], to')
              ∧ from = concat chunks ++ tail
              ∧ wsent to' = wsent to ++ chunks ∧ wbuf to' = []
              ∧ Forall (λ chunk, ∃ ls, ls ≠ [] ∧ Forall isLine ls ∧ chunk = concat ls)
                  chunks
              ∧ (ReadString tail = None
                 ∨ ∃ line rest,
                     ReadString tail = Some (line, rest) ∧ opensBlock line = true
                     ∧ multiLineLoop (first (getCode line)) line rest = BlockError))
    as Hstep.
  { intros buff rest' ls Hlt Hcat Hls Hlines Hbuff Hne.
    rewrite (writerHalf_works to buff) by done.
    destruct (IH _ Hlt (set_isDataCommandResponse false s) rest'
                {| wbuf := []; wsent := wsent to ++ [buff]; wlife := None;
                   werr := false |} eq_refl)
      as (chunks & tail & s' & to' & Hrun & Hrest & Hsent & Hb & Hch & Htail);
      try done.
    exists (buff :: chunks), tail, s', to'. split; [done|].
    split_and!; try done.
    - simpl. by rewrite <- app_assoc, <- Hrest.
    - rewrite Hsent. simpl. by rewrite <- app_assoc.
    - constructor; [|done]. by exists ls. }
  unfold multiLine. destruct (opensBlock line) eqn:Hopen.
  - destruct (multiLineLoop _ _ _) as [buff rest'| |] eqn:Hloop.
    + rewrite Hpt.
      pose proof (multiLineLoop_length _ _ _ _ _ Hloop) as Hlen'.
      destruct (multiLineLoop_inv _ _ _ _ _ Hloop)
        as (ls & last & Hrest & Hbuff & Hls & _ & Hlast & _).
      apply (Hstep buff rest' (line :: ls ++ [last])).
      * lia.
      * rewrite Hfrom, Hrest, Hbuff. by rewrite <- !app_assoc.
      * done.
      * constructor; [done|]. apply Forall_app. split; [done|]. by constructor.
      * rewrite Hbuff. simpl. rewrite concat_app. simpl. by rewrite app_nil_r.
      * rewrite Hbuff. intros Hnil. apply app_eq_nil in Hnil as [Hnil _].
        by apply (isLine_nonempty line).
    + exists [], from. eexists _, _. split; [done|]. rewrite app_nil_r.
      split_and!; try done. right. by exists line, rest.
    + exfalso. apply (multiLineLoop_no_panic (first (getCode line)) line rest); [|done].
      apply getCode_line; [done|].
      apply opensBlock_dash in Hopen. by eexists.
  - rewrite Hpt. apply (Hstep line rest [line]).
    + done.
    + done.
    + done.
    + by constructor.
    + simpl. by rewrite app_nil_r.
    + by apply isLine_nonempty.
Qed.

Lemma readerLoop_writer (s : proxyServer) (from : Reader) (to to' : Writer) :
  (readerLoop s from to).1 = (readerLoop s from to').1.
Proof.
  remember (length from) as n eqn:Hn. revert s from to to' Hn.
  induction n as [n IH] using lt_wf_ind. intros s from to to' ->.
  pose proof (readerIteration_length s from) as Hlen.
  rewrite !(readerLoop_eq s from).
  destruct (readerIteration s from) as [s1|s1 rest|s1|b s1 rest|b s1 rest|];
    try done.
  - by destruct (stop s1).
  - by apply (IH _ Hlen).
  - by apply (IH _ Hlen).
  - by apply (IH _ Hlen).
Qed.

(** X11. The client's writer has no part in what the pump does with the
    origin: whatever writer start is given, broken or not, it reads the
    same lines, leaves the proxy server in the same state and returns the
    same value.  A write to the client that fails is logged and no more. *)
Theorem pump_ignores_client_writer (s : proxyServer) (from : Reader)
    (to to' : Writer) :
  (start s from to).1 = (start s from to').1.
Proof.
  unfold start. destruct (stop s || negb (passThrough s)); [done|].
  apply readerLoop_writer.
Qed.

Lemma readerIteration_failed (s : proxyServer) (from : Reader) :
  match readerIteration s from with
  | ReadFailed s1 => stop s1 = true ∨ ∃ s0, s1 = send (ErrChan ErrRead) s0
  | BlockFailed s1 => ∃ s0, s1 = send (ErrChan ErrRead) s0
  | _ => True
  end.
Proof.
  unfold readerIteration.
  destruct (ReadString from) as [[buff rest]|].
  - destruct (isProxy500 _ _); [done|].
    destruct (dataChannelStep _ _) as [[s' buff']|]; [|done].
    destruct (multiLine buff' rest); try done; [|by eexists].
    by destruct (passThrough s').
  - destruct (stop (set_isDataCommandResponse false s)) eqn:Hstop.
    + by left.
    + right. by eexists.
Qed.

Lemma readerLoop_error (s : proxyServer) (from : Reader) (to : Writer) (e : error)
    (s' : proxyServer) (from' : Reader) (to' : Writer) :
  readerLoop s from to = (Err e, s', from', to') →
  e = ErrRead ∧ ∃ s0, s' = pumpFail (send (ErrChan ErrRead) s0).
Proof.
  remember (length from) as n eqn:Hn. revert s from to Hn.
  induction n as [n IH] using lt_wf_ind. intros s from to ->.
  pose proof (readerIteration_length s from) as Hlen.
  pose proof (readerIteration_failed s from) as Hfail.
  rewrite readerLoop_eq.
  destruct (readerIteration s from) as [s1|s1 rest|s1|b s1 rest|b s1 rest|];
    try done.
  - destruct (stop s1) eqn:Hstop; [done|]. intros [= <- <- <- <-].
    destruct Hfail as [?|[s0 ->]]; [congruence|]. split; [done|]. by exists s0.
  - by apply (IH _ Hlen).
  - intros [= <- <- <- <-]. destruct Hfail as [s0 ->]. split; [done|]. by exists s0.
  - by apply (IH _ Hlen).
  - by apply (IH _ Hlen).
Qed.

(** X12. When start returns an error, it is the error of a read on the
    origin, which then was the last thing sent on the error channel; the
    origin connection has been closed, and so has the data handler, when
    there is one. *)
Theorem start_error_closes (s : proxyServer) (from : Reader) (to : Writer)
    (e : error) (s' : proxyServer) (from' : Reader) (to' : Writer) :
  start s from to = (Err e, s', from', to') →
  e = ErrRead
  ∧ last (signals s') = Some (ErrChan ErrRead)
  ∧ (∀ c, origin s' = Some c → connClosed c = true)
  ∧ (∀ d, dataConnector s' = Some d → dataClosed d = true).
Proof.
  unfold start. destruct (stop s || negb (passThrough s)); [done|].
  intros [-> [s0 ->]]%readerLoop_error. split; [done|].
  destruct s0 as [cw o r w pt st sw wm cf dc dcr sg].
  unfold pumpFail, Close.
  destruct o as [c0|], dc as [d0|]; cbn; rewrite ?last_snoc;
    split_and!; try done; intros ? [= <-]; try done; apply connClose_closed.
Qed.

(** X13. A multi-line block that the origin never closes is lost: when the
    stream ends after the line that opens the block and lines none of
    which closes it, the pass fails with the error of the read, and start
    returns that error without having written any of those lines to the
    client. *)
Theorem unterminated_block_lost (s : proxyServer) (line : gostring)
    (ls : list gostring) (tail : Reader) (to : Writer) :
  isLine line → line !! 3%nat = Some DASH →
  welcome s line = line → isProxy500 s line = false →
  Forall isLine ls → Forall (λ l, ¬ isTerminator (first (getCode line)) l) ls →
  ReadString tail = None →
  readerIteration s (line ++ concat ls ++ tail)
  = BlockFailed (send (ErrChan ErrRead) (set_isDataCommandResponse false s))
  ∧ readerLoop s (line ++ concat ls ++ tail) to
    = (Err ErrRead,
       pumpFail (send (ErrChan ErrRead) (set_isDataCommandResponse false s)),
       [], to).
Proof.
  intros Hline Hdash Hwel H500 Hls Hnot Htail.
  assert (readerIteration s (line ++ concat ls ++ tail)
          = BlockFailed (send (ErrChan ErrRead) (set_isDataCommandResponse false s)))
    as Hiter.
  { unfold readerIteration. rewrite (ReadString_line _ _ Hline).
    change (welcome (set_isDataCommandResponse false s) line) with (welcome s line).
    rewrite Hwel.
    change (isProxy500 (set_isDataCommandResponse false s) line)
      with (isProxy500 s line).
    rewrite H500, dataChannelStep_dash by done.
    unfold multiLine. rewrite (proj2 (opensBlock_dash line) Hdash).
    rewrite multiLineLoop_unterminated; try done.
    by apply getCode_line. }
  split; [done|]. by rewrite readerLoop_eq, Hiter.
Qed.

(** ** The replies to data commands *)

(** On a reply to a data command the three tests leave the flag set and
    the data handler in place, with at most its origin endpoint changed. *)
Lemma dataChannelStep_dataReply (line : gostring) (s : proxyServer) (d : dataHandler) :
  DataChanProxy (conf s) = true → isSwitched s = true →
  dataConnector s = Some d → isDataReply line = true →
  ∃ s1 d',
    dataChannelStep line s = dataResponse line s1
    ∧ isDataCommandResponse s1 = true ∧ dataConnector s1 = Some d'
    ∧ conf s1 = conf s ∧ passThrough s1 = passThrough s
    ∧ mode d' = mode d ∧ listener d' = listener d ∧ transfers d' = transfers d.
Proof.
  intros Hdcp Hsw Hdc Htrig. unfold dataChannelStep. rewrite Hdcp, Hsw.
  cbn [andb]. unfold on227, on229, on200PORT. unfold isDataReply in Htrig.
  destruct (HasPrefix line (str "227 ")), (HasPrefix line (str "229 ")),
    (HasPrefix line (str "200 PORT command successful")); try done;
    rewrite ?Hdc; cbn -[dataResponse]; rewrite ?Hdc; cbn -[dataResponse];
    eexists _, _; (split; [reflexivity|]); by split_and!.
Qed.

Lemma no_block_after_space (p t : gostring) :
  p !! 3%nat = Some SP → opensBlock (p ++ t) = false.
Proof.
  intros Hp. destruct (opensBlock (p ++ t)) eqn:E; [|done].
  apply opensBlock_dash in E.
  rewrite (lookup_app_l_Some _ _ _ _ Hp) in E. by injection E.
Qed.

Lemma isDataReply_space (line : gostring) :
  isDataReply line = true → line !! 3%nat = Some SP.
Proof.
  unfold isDataReply. rewrite !orb_true_iff. intros [[H|H]|H];
    by apply (HasPrefix_lookup _ _ _ _ H).
Qed.

(** X14. With the data channel proxied, after the switch, the reply the
    client gets to its data command is chosen by the mode of the client's
    own command, not by the origin's reply: whichever of the three
    replies the origin sends (227, 229 or 200 PORT command successful), a
    client that sent PORT or EPRT is told that this command was
    successful, a client that sent EPSV gets the 229 reply with the port of
    the proxy's listener, and with any other mode than these and PASV the
    origin's line goes on as it is.  In each case one data transfer is
    started on the data handler. *)
Theorem data_reply_by_mode (s : proxyServer) (from : Reader) (line : gostring)
    (rest : Reader) (d : dataHandler) :
  DataChanProxy (conf s) = true → isSwitched s = true →
  dataConnector s = Some d →
  ReadString from = Some (line, rest) → isProxy500 s line = false →
  isDataReply line = true →
  (mode d = str "PORT" ∨ mode d = str "EPRT" →
   ∃ s', readerIteration s from
         = (if passThrough s then Handed else Withheld)
             (str "200 " ++ mode d ++ str " command successful" ++ [CR; LF]) s' rest
         ∧ transfers <$> dataConnector s' = Some (S (transfers d)))
  ∧ (∀ port, mode d = str "EPSV" → listener d = Some port →
     ∃ s', readerIteration s from
           = (if passThrough s then Handed else Withheld)
               (str "229 Entering Extended Passive Mode (|||" ++ Itoa port
                  ++ str "|)." ++ [CR; LF]) s' rest
           ∧ transfers <$> dataConnector s' = Some (S (transfers d)))
  ∧ (mode d ≠ str "PORT" → mode d ≠ str "EPRT" → mode d ≠ str "PASV" →
     mode d ≠ str "EPSV" →
     ∃ s', readerIteration s from
           = (if passThrough s then Handed else Withheld) line s' rest
           ∧ transfers <$> dataConnector s' = Some (S (transfers d))).
Proof.
  intros Hdcp Hsw Hdc Hread H500 Htrig.
  destruct (dataChannelStep_dataReply line (set_isDataCommandResponse false s) d)
    as (s1 & d' & Hstep & Hflag & Hdc1 & Hconf & Hpt & Hm & Hl & Ht); try done.
  assert (∀ reply,
            dataResponse line s1
            = Some (set_dataConnector (Some (startTransfer d')) s1, reply) →
            opensBlock reply = false →
            ∃ s', readerIteration s from
                  = (if passThrough s then Handed else Withheld) reply s' rest
                  ∧ transfers <$> dataConnector s' = Some (S (transfers d)))
    as Hiter.
  { intros reply Hresp Hopen.
    exists (set_dataConnector (Some (startTransfer d')) s1).
    split; [|cbn; by rewrite Ht].
    unfold readerIteration. rewrite Hread.
    assert (welcome (set_isDataCommandResponse false s) line = line) as ->.
    { unfold welcome. simpl. rewrite Hsw. by rewrite andb_false_r. }
    change (isProxy500 (set_isDataCommandResponse false s) line)
      with (isProxy500 s line).
    rewrite H500, Hstep, Hresp. unfold multiLine. rewrite Hopen.
    change (passThrough (set_dataConnector (Some (startTransfer d')) s1))
      with (passThrough s1).
    rewrite Hpt. change (passThrough (set_isDataCommandResponse false s))
      with (passThrough s). by destruct (passThrough s). }
  split_and!.
  - intros Hmode. apply Hiter.
    + unfold dataResponse. rewrite Hflag, Hdc1. cbn [mbind option_bind].
      rewrite Hm. by destruct Hmode as [-> | ->].
    + by apply (no_block_after_space (str "200 ")).
  - intros port Hmode Hport. apply Hiter.
    + unfold dataResponse. rewrite Hflag, Hdc1. cbn [mbind option_bind].
      rewrite Hm, Hl, Hmode, Hport. done.
    + by apply (no_block_after_space (str "229 ")).
  - intros H1 H2 H3 H4. apply Hiter.
    + unfold dataResponse. rewrite Hflag, Hdc1. cbn [mbind option_bind].
      rewrite Hm. by rewrite !bool_decide_eq_false_2 by done.
    + apply isDataReply_space in Htrig.
      destruct (opensBlock line) eqn:E; [|done].
      apply opensBlock_dash in E. rewrite Htrig in E. by injection E.
Qed.

(** X15. With the data channel proxied, after the switch, a reply to a
    data command that arrives while the proxy server has no data handler
    makes the reading goroutine panic (it calls and reads the handler
    without a test): neither that line nor any later one reaches the
    client. *)
Theorem data_reply_without_handler (s : proxyServer) (from : Reader)
    (line : gostring) (rest : Reader) (to : Writer) :
  DataChanProxy (conf s) = true → isSwitched s = true →
  dataConnector s = None →
  ReadString from = Some (line, rest) → isProxy500 s line = false →
  isDataReply line = true →
  readerIteration s from = Panicked
  ∧ readerLoop s from to = (Panic, s, from, to).
Proof.
  intros Hdcp Hsw Hdc Hread H500 Htrig.
  assert (readerIteration s from = Panicked) as Hiter.
  { unfold readerIteration. rewrite Hread.
    assert (welcome (set_isDataCommandResponse false s) line = line) as ->.
    { unfold welcome. simpl. rewrite Hsw. by rewrite andb_false_r. }
    change (isProxy500 (set_isDataCommandResponse false s) line)
      with (isProxy500 s line).
    rewrite H500. unfold dataChannelStep.
    change (conf (set_isDataCommandResponse false s)) with (conf s).
    change (isSwitched (set_isDataCommandResponse false s)) with (isSwitched s).
    rewrite Hdcp, Hsw. cbn [andb].
    unfold on227, on229, on200PORT, dataResponse. unfold isDataReply in Htrig.
    destruct (HasPrefix line (str "227 ")), (HasPrefix line (str "229 ")),
      (HasPrefix line (str "200 PORT command successful")); try done;
      cbn; rewrite ?Hdc; cbn; rewrite ?Hdc; done. }
  split; [done|]. by rewrite readerLoop_eq, Hiter.
Qed.

(** ** The replay of AUTH and of the commands that follow it *)

(** X16. The usual replay: an AUTH command answered with code 234 and then
    commands that are not AUTH, one reply line each.  sendTLSCommand
    returns nil; the origin connection is wrapped in TLS once, with the
    client's protocol version as lowest and highest version and without
    verification of the certificate; every command has been written, in
    order, and what the origin sent after the replies is left to read. *)
Theorem sendTLSCommand_AUTH_then_plain (tlsProtocol : Z) (auth : gostring)
    (cmds : list gostring) (s : proxyServer) (line : gostring)
    (lines : list gostring) (rest : Reader) :
  ToUpper (getCommand auth).1 = str "AUTH" → auth ≠ [] →
  Forall (λ cmd, ToUpper (getCommand cmd).1 ≠ str "AUTH") cmds →
  Forall (λ cmd, cmd ≠ []) cmds →
  werr (originWriter s) = false → wbuf (originWriter s) = [] →
  wlife (originWriter s) = None →
  isLine line → first (getCode line) = str "234" →
  Forall isLine lines → length lines = length cmds →
  originReader s = line ++ concat lines ++ rest →
  ∃ s', sendTLSCommand tlsProtocol (auth :: cmds) s = (Ok, s')
        ∧ origin s'
          = TLSClient {| InsecureSkipVerify := true;
                         MinVersion := tlsProtocol;
                         MaxVersion := tlsProtocol |} <$> origin s
        ∧ originReader s' = rest
        ∧ wsent (originWriter s') = wsent (originWriter s) ++ auth :: cmds
        ∧ besideOrigin s' = besideOrigin s.
Proof.
  intros Hauth Hane Hplain Hne Herr Hbuf Hlife Hline Hcode Hlines Hlen Hreader.
  unfold sendTLSCommand. cbn [replay].
  destruct (write_flush_works _ auth Herr Hbuf Hlife Hane) as [-> ->].
  rewrite replyLoop_eq. cbn [set_originWriter originReader].
  rewrite Hreader, (ReadString_line _ _ Hline).
  rewrite (bool_decide_eq_true_2 _ Hauth), (bool_decide_eq_true_2 _ Hcode).
  cbn [negb].
  set (s1 := wrapTLS _ _).
  destruct (replay_plain tlsProtocol cmds None s1 lines rest) as [H _]; try done.
  destruct (H Hlen) as (s' & Hrun & Hrd & Hwr & Ho & Hb).
  exists s'. rewrite Hrun, Hwr, Ho, Hb. split_and!; try done.
  cbn. by rewrite <- app_assoc.
Qed.

(** ** What the pump hands over *)

Lemma ends_LF_cons (c : ascii) (t : gostring) :
  (∃ body, t = body ++ [LF]) → ∃ body, c :: t = body ++ [LF].
Proof. intros [body ->]. by exists (c :: body). Qed.

Lemma ends_LF_app (a t : gostring) :
  (∃ body, t = body ++ [LF]) → ∃ body, a ++ t = body ++ [LF].
Proof. intros [body ->]. exists (a ++ body). by rewrite app_assoc. Qed.

Lemma dataChannelStep_line (buff buff' : gostring) (s s' : proxyServer) :
  dataChannelStep buff s = Some (s', buff') →
  (∃ body, buff = body ++ [LF]) →
  (∃ body, buff' = body ++ [LF]) ∧ welcomeMsg s' = welcomeMsg s.
Proof.
  unfold dataChannelStep, on227, on229, on200PORT, dataResponse.
  unfold portReply, pasvReply, epsvReply.
  intros H Hbuff.
  repeat (case_match; simplify_option_eq); split; try done.
  all: repeat first [by exists [] | apply ends_LF_app | apply ends_LF_cons].
Qed.

(** X17. Whatever the pump hands to the writing half for the client ends
    with a line end, as long as the welcome message does (the one
    newProxyServer builds ends with CR LF): a reply line of the origin, a
    whole multi-line block, the welcome message or the reply made up for
    a data command, never part of a line.  The pass leaves the welcome
    message as it is. *)
Theorem pump_hands_whole_lines (s : proxyServer) (from : Reader) (b : gostring)
    (s' : proxyServer) (rest : Reader) :
  (∃ body, welcomeMsg s = body ++ [LF]) →
  readerIteration s from = Handed b s' rest →
  (∃ body, b = body ++ [LF]) ∧ welcomeMsg s' = welcomeMsg s.
Proof.
  intros Hwelcome. unfold readerIteration.
  destruct (ReadString from) as [[buff rest0]|] eqn:Hread; [|done].
  destruct (ReadString_isLine _ _ _ Hread) as [(body0 & Hbuff & _) _].
  assert (∃ body, welcome (set_isDataCommandResponse false s) buff = body ++ [LF])
    as Hwel.
  { unfold welcome. destruct (_ && _); [done|]. by exists body0. }
  destruct (isProxy500 _ _); [done|].
  destruct (dataChannelStep _ _) as [[s1 buff1]|] eqn:Hstep; [|done].
  destruct (dataChannelStep_line _ _ _ _ Hstep Hwel) as [[body1 Hb1] Hw1].
  unfold multiLine. destruct (opensBlock buff1).
  - destruct (multiLineLoop _ _ _) as [buff2 rest2| |] eqn:Hloop; try done.
    destruct (multiLineLoop_inv _ _ _ _ _ Hloop)
      as (ls & last & _ & -> & _ & _ & (bodyl & -> & _) & _).
    destruct (passThrough s1); [|done]. intros [= <- <- <-]. split; [|done].
    exists (buff1 ++ concat ls ++ bodyl). by rewrite <- !app_assoc.
  - destruct (passThrough s1); [|done]. intros [= <- <- <-]. split; [|done].
    by exists body1.
Qed.

(** ** What the pump leaves alone *)

Lemma dataChannelStep_frame (buff buff' : gostring) (s s' : proxyServer) :
  dataChannelStep buff s = Some (s', buff') →
  originWriter s' = originWriter s ∧ origin s' = origin s
  ∧ passThrough s' = passThrough s ∧ stop s' = stop s
  ∧ welcomeMsg s' = welcomeMsg s ∧ conf s' = conf s
  ∧ clientWriter s' = clientWriter s ∧ signals s' = signals s.
Proof.
  unfold dataChannelStep, on227, on229, on200PORT, dataResponse.
  intros H. repeat (case_match; simplify_option_eq); by split_and!.
Qed.

Lemma readerIteration_frame (s : proxyServer) (from : Reader) :
  match readerIteration s from with
  | ReadFailed s' | Dropped s' _ | BlockFailed s'
  | Handed _ s' _ | Withheld _ s' _ =>
      originWriter s' = originWriter s ∧ origin s' = origin s
      ∧ passThrough s' = passThrough s ∧ stop s' = stop s
      ∧ welcomeMsg s' = welcomeMsg s ∧ conf s' = conf s
      ∧ clientWriter s' = clientWriter s
  | Panicked => True
  end.
Proof.
  unfold readerIteration.
  destruct (ReadString from) as [[buff rest]|];
    [|destruct (stop _) eqn:Hstop; by split_and!].
  destruct (isProxy500 _ _); [by split_and!|].
  destruct (dataChannelStep _ _) as [[s' buff']|] eqn:Hstep; [|done].
  apply dataChannelStep_frame in Hstep as (? & ? & ? & ? & ? & ? & ? & ?).
  destruct (multiLine buff' rest); try done.
  destruct (passThrough s') eqn:Hpt; cbn in *; split_and!; congruence.
Qed.

Lemma readerLoop_frame (s : proxyServer) (from : Reader) (to : Writer) :
  originWriter (readerLoop s from to).1.1.2 = originWriter s
  ∧ passThrough (readerLoop s from to).1.1.2 = passThrough s
  ∧ stop (readerLoop s from to).1.1.2 = stop s
  ∧ welcomeMsg (readerLoop s from to).1.1.2 = welcomeMsg s
  ∧ conf (readerLoop s from to).1.1.2 = conf s
  ∧ clientWriter (readerLoop s from to).1.1.2 = clientWriter s.
Proof.
  assert (∀ s0, originWriter (pumpFail s0) = originWriter s0
                ∧ passThrough (pumpFail s0) = passThrough s0
                ∧ stop (pumpFail s0) = stop s0
                ∧ welcomeMsg (pumpFail s0) = welcomeMsg s0
                ∧ conf (pumpFail s0) = conf s0
                ∧ clientWriter (pumpFail s0) = clientWriter s0) as Hfail.
  { intros s0. unfold pumpFail, Close. by destruct (origin s0). }
  remember (length from) as n eqn:Hn. revert s from to Hn.
  induction n as [n IH] using lt_wf_ind. intros s from to ->.
  pose proof (readerIteration_frame s from) as Hframe.
  pose proof (readerIteration_length s from) as Hlen.
  rewrite readerLoop_eq.
  destruct (readerIteration s from) as [s1|s1 rest|s1|b s1 rest|b s1 rest|];
    try done.
  all: destruct Hframe as (H1 & _ & H2 & H3 & H4 & H5 & H6).
  - destruct (stop s1) eqn:Hs; cbn [fst snd].
    + split_and!; congruence.
    + destruct (Hfail s1) as (? & ? & ? & ? & ? & ?). split_and!; congruence.
  - destruct (IH _ Hlen s1 rest to eq_refl) as (? & ? & ? & ? & ? & ?).
    split_and!; congruence.
  - cbn [fst snd]. destruct (Hfail s1) as (? & ? & ? & ? & ? & ?).
    split_and!; congruence.
  - destruct (IH _ Hlen s1 rest (writerHalf to b) eq_refl) as (? & ? & ? & ? & ? & ?).
    split_and!; congruence.
  - destruct (IH _ Hlen s1 rest to eq_refl) as (? & ? & ? & ? & ? & ?).
    split_and!; congruence.
Qed.

Lemma readerPass_frame (s : proxyServer) (from : Reader) :
  match readerPass s from with
  | ReadError s' | ReadDropped s' _ | ReadBlockError s' | ReadGate _ s' _ =>
      originWriter s' = originWriter s ∧ passThrough s' = passThrough s
      ∧ stop s' = stop s ∧ welcomeMsg s' = welcomeMsg s ∧ conf s' = conf s
      ∧ isSwitched s' = isSwitched s
  | ReadPanic => True
  end.
Proof.
  pose proof (readerIteration_frame s from) as Hframe.
  pose proof (isSwitched_readerIteration s from) as Hsw.
  rewrite readerIteration_pass in Hframe, Hsw.
  destruct (readerPass s from) as [s'|s' rest|s'|b s' rest|]; simpl in *; try done.
  4: destruct (passThrough s') eqn:Hpt.
  all: destruct Hframe as (? & _ & ? & ? & ? & ? & _); split_and!; congruence.
Qed.

(** [start], when nothing stops or suspends the pump, is a run of the
    steps of the pump from its beginning to its return. *)
Lemma readerLoop_run (s : proxyServer) (from : Reader) (to : Writer) :
  stop s = false →
  rtc pumpStep
    (mkState GRead Selecting (mkPump s from to))
    (mkState GEnd (Returned (readerLoop s from to).1.1.1)
       (mkPump (readerLoop s from to).1.1.2 (readerLoop s from to).1.2
               (readerLoop s from to).2)).
Proof.
  remember (length from) as n eqn:Hn. revert s from to Hn.
  induction n as [n IH] using lt_wf_ind. intros s from to -> Hstop.
  pose proof (readerIteration_length s from) as Hlen.
  pose proof (readerPass_frame s from) as Hframe.
  rewrite !(readerLoop_eq s from to). rewrite readerIteration_pass in Hlen |- *.
  destruct (readerPass s from) as [s1|s1 rest|s1|b s1 rest|] eqn:Hpass;
    cbn [gate] in *.
  - destruct Hframe as (_ & _ & Hs1 & _). rewrite Hstop in Hs1. rewrite Hs1.
    cbn [fst snd]. eapply rtc_l; [by apply (StepReadError _ _ _ _ Hpass)|].
    eapply rtc_l; [apply StepDone|]. apply rtc_refl.
  - destruct Hframe as (_ & _ & Hs1 & _). rewrite Hstop in Hs1.
    eapply rtc_l; [by apply (StepDropped _ _ _ _ _ _ Hpass)|].
    by apply (IH _ Hlen).
  - cbn [fst snd]. eapply rtc_l; [by apply (StepBlockError _ _ _ _ Hpass)|].
    eapply rtc_l; [apply StepDone|]. apply rtc_refl.
  - destruct Hframe as (_ & _ & Hs1 & _). rewrite Hstop in Hs1.
    eapply rtc_l; [by apply (StepRead _ _ _ _ _ _ _ Hpass)|].
    eapply rtc_l; [apply StepGate|].
    destruct (passThrough s1).
    + eapply rtc_l; [apply StepHandOver|]. by apply (IH _ Hlen).
    + by apply (IH _ Hlen).
  - cbn [fst snd]. eapply rtc_l; [by apply (StepPanic _ _ _ _ Hpass)|].
    apply rtc_refl.
Qed.

(** X20. The reply pump only reads from the origin.  No step of the
    pump, be it the read, the gate, the write to the client, the end on a
    read error or the end on a stop, writes to the origin (the origin's
    writer is as it was) or changes isSwitched, the welcome message or the
    configuration; passThrough changes only in a call of suspend or
    unsuspend by the other goroutine, and stop only where the pump takes a
    stop signal, which sets it.  [start] run alone, which is such a run of
    steps, leaves all of them but stop as they were. *)
Theorem pump_leaves_origin_writer :
  (∀ st st', pumpStep st st' →
     originWriter (srv (pumpOf st')) = originWriter (srv (pumpOf st))
     ∧ isSwitched (srv (pumpOf st')) = isSwitched (srv (pumpOf st))
     ∧ welcomeMsg (srv (pumpOf st')) = welcomeMsg (srv (pumpOf st))
     ∧ conf (srv (pumpOf st')) = conf (srv (pumpOf st))
     ∧ (passThrough (srv (pumpOf st')) = passThrough (srv (pumpOf st))
        ∨ pumpOf st' = mkPump (suspend (srv (pumpOf st))) (rd (pumpOf st))
                         (wr (pumpOf st))
        ∨ pumpOf st' = mkPump (unsuspend (srv (pumpOf st))) (rd (pumpOf st))
                         (wr (pumpOf st)))
     ∧ (stop (srv (pumpOf st')) = stop (srv (pumpOf st))
        ∨ (selecting st = Selecting ∧ selecting st' = WaitDone None
           ∧ stop (srv (pumpOf st')) = true)))
  ∧ (∀ s from to,
       stop s = false → passThrough s = true →
       rtc pumpStep
         (mkState GRead Selecting (mkPump s from to))
         (mkState GEnd (Returned (start s from to).1.1.1)
            (mkPump (start s from to).1.1.2 (start s from to).1.2
                    (start s from to).2)))
  ∧ (∀ s from to,
       originWriter (start s from to).1.1.2 = originWriter s
       ∧ passThrough (start s from to).1.1.2 = passThrough s
       ∧ isSwitched (start s from to).1.1.2 = isSwitched s
       ∧ welcomeMsg (start s from to).1.1.2 = welcomeMsg s
       ∧ conf (start s from to).1.1.2 = conf s).
Proof.
  assert (∀ s0, originWriter (Close s0) = originWriter s0
                ∧ passThrough (Close s0) = passThrough s0
                ∧ stop (Close s0) = stop s0
                ∧ welcomeMsg (Close s0) = welcomeMsg s0
                ∧ conf (Close s0) = conf s0
                ∧ isSwitched (Close s0) = isSwitched s0) as HClose.
  { intros s0. unfold Close. by destruct (origin s0). }
  split_and!.
  - intros st st' Hstep.
    destruct Hstep as [l s from to b s' rest Hpass|l s from to s' rest Hpass
                      |l s from to b|s from to b|s from to s' Hpass Hstop
                      |l s from to s' Hpass Hstop|s from to s' Hpass
                      |l s from to Hpass|g s from to|le s from to|g l p|g l p];
      cbn [pumpOf srv rd wr selecting].
    all: try (pose proof (readerPass_frame s from) as Hframe;
              rewrite Hpass in Hframe; destruct Hframe as (? & ? & ? & ? & ? & ?)).
    all: try (destruct (HClose s') as (? & ? & ? & ? & ? & ?)).
    all: try (destruct (HClose (set_stop true s)) as (? & ? & ? & ? & ? & ?)).
    all: split_and!; cbn in *; try congruence; try (left; congruence).
    all: try (right; left; reflexivity); try (right; right; reflexivity).
    right. by split_and!.
  - intros s from to Hstop Hpt. unfold start. rewrite Hstop, Hpt. cbn [orb negb].
    by apply readerLoop_run.
  - intros s from to. unfold start.
    destruct (stop s || negb (passThrough s)); [done|].
    destruct (readerLoop_frame s from to) as (? & ? & ? & ? & ? & _).
    split_and!; try done. apply isSwitched_readerLoop.
Qed.


End Proxy.

(** * The properties on concrete runs *)

(** The proxy server of the runs is the one [newProxyServer] builds. *)
Example sampleServer_new (cfg : config) (stream : Reader) :
  newProxyServer
    (mkNet (λ addr, Some (sampleConn addr stream None)) (λ host, Some [host]))
    (NewWriter None) (str "10.0.0.1:21") cfg
  = inr (sampleServer cfg stream).
Proof. reflexivity. Qed.

(** C1 on the example of the source: "\xff\xf4\xffABOR\r\n" is sent as
    "ABOR\r\n", stray line ends are removed, and a line without a letter
    is refused with nothing written. *)
Example sendToOrigin_ABOR :
  commandLineCheck ([ascii_of_nat 255; ascii_of_nat 244; ascii_of_nat 255] ++ ln "ABOR")
    = inr (ln "ABOR")
  ∧ commandLineCheck (str "12 RETR a" ++ [LF] ++ str "b" ++ [CR] ++ CRLF ++ CRLF)
    = inr (ln "RETR ab")
  ∧ sendToOrigin (sampleServer (sampleConfig false false) []) (ln "123 456")
    = (Err ErrWrongCommandLine, sampleServer (sampleConfig false false) [])
  ∧ wsent (originWriter
             (sendToOrigin (sampleServer (sampleConfig false false) [])
                (str "  PWD")).2)
    = [ln "PWD"].
Proof. by vm_compute. Qed.

(** C3, as stated, fails: before the switch a line "220-..." opens no
    block.  It is replaced by the welcome message and handed over alone,
    the line that follows is left to the next pass, and the client gets
    two buffers for the two lines. *)
Lemma multi_line_block_counterexample :
  ln "220-Hello" !! 3%nat = Some DASH
  ∧ readerIteration noEndpoint noEndpoint
      (sampleServer (sampleConfig false false) [])
      (ln "220-Hello" ++ ln "220 Ready")
    = Handed (ln "220 pftp ready")
        (sampleServer (sampleConfig false false) []) (ln "220 Ready")
  ∧ wsent (readerLoop noEndpoint noEndpoint
             (sampleServer (sampleConfig false false) [])
             (ln "220-Hello" ++ ln "220 Ready") (NewWriter None)).2
    = [ln "220 pftp ready"; ln "220 pftp ready"].
Proof. by vm_compute. Qed.

Lemma multi_line_block_witness :
  readerIteration noEndpoint noEndpoint
    (sampleServer (sampleConfig true false) [])
    (ln "230-Hello" ++ ln " more" ++ ln "230-still" ++ ln "230 Done" ++ ln "226 next")
  = Handed (ln "230-Hello" ++ ln " more" ++ ln "230-still" ++ ln "230 Done")
      (sampleServer (sampleConfig true false) []) (ln "226 next").
Proof.
  assert (∀ t, LF ∉ str t → CR ∉ str t → isLine (ln t)) as Hln.
  { intros t Ht Hc. exists (str t ++ [CR]). split.
    - unfold ln, CRLF. by rewrite <- app_assoc.
    - intros [Hin|Hin]%elem_of_app; [done|].
      apply list_elem_of_In in Hin. simpl in Hin. by destruct Hin. }
  assert (∀ t : string, (forallb (λ c, negb (bool_decide (c = LF))
                                       && negb (bool_decide (c = CR))) (str t)) = true
                        → isLine (ln t)) as Hline.
  { intros t Ht. rewrite forallb_forall in Ht.
    apply Hln; intros Hin%list_elem_of_In; specialize (Ht _ Hin);
      by rewrite bool_decide_eq_true_2 in Ht by done; rewrite ?andb_false_r in Ht. }
  destruct (multi_line_block noEndpoint noEndpoint
              (sampleServer (sampleConfig true false) []) (ln "230-Hello"))
    as [Hblock _]; [by apply Hline|reflexivity|reflexivity|reflexivity|].
  destruct (Hblock [ln " more"; ln "230-still"] (ln "230 Done") (ln "226 next"))
    as [Hiter _].
  - repeat constructor; by apply Hline.
  - repeat constructor; intros [Hc Hsp]; discriminate Hsp.
  - by apply Hline.
  - split; reflexivity.
  - exact Hiter.
Defined.

(** C4, as stated, fails: on a switched server a later call with an empty
    address does not return "origin already switched". *)
Lemma switched_at_most_once_counterexample :
  isSwitched
    (switchOrigin getCommandModel (sampleNet (ln "220 new origin") None)
       (str "192.0.2.1:5555") (str "10.0.0.7:21") 771 []
       (sampleServer (sampleConfig false false) [])).2 = true
  ∧ (switchOrigin getCommandModel (sampleNet (ln "220 new origin") None)
       (str "192.0.2.1:5555") [] 771 []
       (switchOrigin getCommandModel (sampleNet (ln "220 new origin") None)
          (str "192.0.2.1:5555") (str "10.0.0.7:21") 771 []
          (sampleServer (sampleConfig false false) [])).2).1
    = Err ErrUserNotFound.
Proof. by vm_compute. Qed.

(** C5, as stated, fails: after a refused AUTH the remaining commands are
    still replayed, and when the read or the write for one of them fails
    sendTLSCommand returns that error, not the origin-no-tls error. *)
Lemma sendTLSCommand_counterexample :
  (sendTLSCommand getCommandModel 771 [ln "AUTH TLS"; ln "PBSZ 0"]
     (sampleServer (sampleConfig false false) (ln "500 AUTH not understood"))).1
  = Err ErrMakeTLS
  ∧ (sendTLSCommand getCommandModel 771 [ln "AUTH TLS"; ln "PBSZ 0"]
       (set_originWriter (NewWriter (Some 1%nat))
          (sampleServer (sampleConfig false false)
             (ln "500 AUTH not understood" ++ ln "200 PBSZ=0")))).1
    = Err ErrWrite
  ∧ wsent (originWriter
       (sendTLSCommand getCommandModel 771 [ln "AUTH TLS"; ln "PBSZ 0"]
          (sampleServer (sampleConfig false false)
             (ln "500 AUTH not understood"))).2)
    = [ln "AUTH TLS"; ln "PBSZ 0"].
Proof. by vm_compute. Qed.

Lemma sendTLSCommand_AUTH_reply_witness :
  sendTLSCommand getCommandModel 771 [ln "AUTH TLS"]
    (sampleServer (sampleConfig false false) (ln "234 AUTH TLS successful"))
  = replay getCommandModel 771 [] None
      (wrapTLS 771
         (set_originReader []
            (set_originWriter
               {| wbuf := []; wsent := [ln "AUTH TLS"]; wlife := None; werr := false |}
               (sampleServer (sampleConfig false false)
                  (ln "234 AUTH TLS successful")))))
  ∧ origin
      (wrapTLS 771
         (set_originReader []
            (set_originWriter
               {| wbuf := []; wsent := [ln "AUTH TLS"]; wlife := None; werr := false |}
               (sampleServer (sampleConfig false false)
                  (ln "234 AUTH TLS successful")))))
    = Some (TLSClient {| InsecureSkipVerify := true;
                         MinVersion := 771; MaxVersion := 771 |}
              (TCP (tune 30 (sampleConn (str "10.0.0.1:21")
                               (ln "234 AUTH TLS successful") None)))).
Proof.
  destruct (sendTLSCommand_AUTH_reply getCommandModel 771 (ln "AUTH TLS") [] None
              (sampleServer (sampleConfig false false) (ln "234 AUTH TLS successful"))
              {| wbuf := ln "AUTH TLS"; wsent := []; wlife := None; werr := false |}
              {| wbuf := []; wsent := [ln "AUTH TLS"]; wlife := None; werr := false |}
              (ln "234 AUTH TLS successful") [])
    as [H234 _]; [reflexivity|reflexivity|reflexivity|reflexivity|].
  apply H234. reflexivity.
Defined.

(** C6, as stated, fails: the line read from the new origin is not
    checked.  A 421 reply is accepted as the welcome line: the switch
    succeeds and publishes true. *)
Lemma switchOrigin_welcome_counterexample :
  (switchOrigin getCommandModel
     (sampleNet (ln "421 Service not available, closing control connection") None)
     (str "192.0.2.1:5555") (str "10.0.0.7:21") 771 []
     (sampleServer (sampleConfig true false) [])).1 = Ok
  ∧ signals
      (switchOrigin getCommandModel
         (sampleNet (ln "421 Service not available, closing control connection") None)
         (str "192.0.2.1:5555") (str "10.0.0.7:21") 771 []
         (sampleServer (sampleConfig true false) [])).2
    = [StopChan; StopChanDone; WaitSwitching true].
Proof. by vm_compute. Qed.

Lemma switchOrigin_welcome_line_witness :
  ∃ s' c',
    originReader s' = ln "331 next" ∧
    origin s' = Some (TCP c') ∧
    keepAlive c' = true ∧ linger c' = Some 0 ∧ keepAlivePeriod c' = 30 ∧
    (switchOrigin getCommandModel
       (sampleNet (ln "220 new origin" ++ ln "331 next") None)
       (str "192.0.2.1:5555") (str "10.0.0.7:21") 771 [ln "AUTH TLS"]
       (sampleServer (sampleConfig true false) [])).1
    = (sendTLSCommand getCommandModel 771 [ln "AUTH TLS"] s').1.
Proof.
  pose proof (switchOrigin_welcome_line getCommandModel
                (sampleNet (ln "220 new origin" ++ ln "331 next") None)
                (str "192.0.2.1:5555") (str "10.0.0.7:21") 771 [ln "AUTH TLS"]
                (sampleServer (sampleConfig true false) [])
                (sampleConn (str "10.0.0.7:21")
                   (ln "220 new origin" ++ ln "331 next") None)) as H.
  destruct H as (s' & c' & H1 & _ & H2 & _ & H3 & H4 & H5 & H6 & _).
  - discriminate.
  - reflexivity.
  - reflexivity.
  - intros _. unfold headerGoes. split_and!.
    + by eexists.
    + by eexists.
    + by eexists _, _.
    + discriminate.
    + reflexivity.
  - exists s', c'. split_and!; assumption.
Defined.

(** C2, as stated, fails.  A line read while passThrough is false is
    forwarded when unsuspend comes before the goroutine reaches the gate:
    the pump is suspended, reads 230 Logged in, the other goroutine calls
    unsuspend, the gate is passed and the line is written to the client.
    And a buffer is written while passThrough is false when suspend comes
    after the gate: the line has passed the gate, the other goroutine calls
    suspend, and the writing half writes the line all the same. *)
Lemma passThrough_gates_pump_counterexample :
  passThrough (suspend (sampleServer (sampleConfig false false) [])) = false
  ∧ pumpStep noEndpoint noEndpoint
      (mkState GRead Selecting
         (mkPump (suspend (sampleServer (sampleConfig false false) []))
            (ln "230 Logged in") (NewWriter None)))
      (mkState (GGate (ln "230 Logged in")) Selecting
         (mkPump (suspend (sampleServer (sampleConfig false false) []))
            [] (NewWriter None)))
  ∧ pumpStep noEndpoint noEndpoint
      (mkState (GGate (ln "230 Logged in")) Selecting
         (mkPump (suspend (sampleServer (sampleConfig false false) []))
            [] (NewWriter None)))
      (mkState (GGate (ln "230 Logged in")) Selecting
         (mkPump (sampleServer (sampleConfig false false) []) [] (NewWriter None)))
  ∧ pumpStep noEndpoint noEndpoint
      (mkState (GGate (ln "230 Logged in")) Selecting
         (mkPump (sampleServer (sampleConfig false false) []) [] (NewWriter None)))
      (mkState (GHand (ln "230 Logged in")) Selecting
         (mkPump (sampleServer (sampleConfig false false) []) [] (NewWriter None)))
  ∧ pumpStep noEndpoint noEndpoint
      (mkState (GHand (ln "230 Logged in")) Selecting
         (mkPump (sampleServer (sampleConfig false false) []) [] (NewWriter None)))
      (mkState GRead Selecting
         (mkPump (sampleServer (sampleConfig false false) []) []
            {| wbuf := []; wsent := [ln "230 Logged in"]; wlife := None;
               werr := false |}))
  ∧ pumpStep noEndpoint noEndpoint
      (mkState (GHand (ln "230 Logged in")) Selecting
         (mkPump (sampleServer (sampleConfig false false) []) [] (NewWriter None)))
      (mkState (GHand (ln "230 Logged in")) Selecting
         (mkPump (suspend (sampleServer (sampleConfig false false) []))
            [] (NewWriter None)))
  ∧ pumpStep noEndpoint noEndpoint
      (mkState (GHand (ln "230 Logged in")) Selecting
         (mkPump (suspend (sampleServer (sampleConfig false false) []))
            [] (NewWriter None)))
      (mkState GRead Selecting
         (mkPump (suspend (sampleServer (sampleConfig false false) [])) []
            {| wbuf := []; wsent := [ln "230 Logged in"]; wlife := None;
               werr := false |})).
Proof.
  split_and!.
  - reflexivity.
  - exact (StepRead noEndpoint noEndpoint Selecting
             (suspend (sampleServer (sampleConfig false false) []))
             (ln "230 Logged in") (NewWriter None) (ln "230 Logged in")
             (suspend (sampleServer (sampleConfig false false) [])) [] eq_refl).
  - exact (StepUnsuspend noEndpoint noEndpoint (GGate (ln "230 Logged in")) Selecting
             (mkPump (suspend (sampleServer (sampleConfig false false) []))
                [] (NewWriter None))).
  - exact (StepGate noEndpoint noEndpoint Selecting
             (sampleServer (sampleConfig false false) []) [] (NewWriter None)
             (ln "230 Logged in")).
  - exact (StepHandOver noEndpoint noEndpoint
             (sampleServer (sampleConfig false false) []) [] (NewWriter None)
             (ln "230 Logged in")).
  - exact (StepSuspend noEndpoint noEndpoint (GHand (ln "230 Logged in")) Selecting
             (mkPump (sampleServer (sampleConfig false false) []) [] (NewWriter None))).
  - exact (StepHandOver noEndpoint noEndpoint
             (suspend (sampleServer (sampleConfig false false) [])) [] (NewWriter None)
             (ln "230 Logged in")).
Qed.

(** The pass taken in one piece, on a run: the pump is suspended between
    two replies; the first is written to the client, the second is read
    and withheld. *)
Example passThrough_gates_run :
  pumpIteration noEndpoint noEndpoint
    (mkPump (sampleServer (sampleConfig false false) [])
       (ln "331 Password required" ++ ln "230 Logged in") (NewWriter None))
  = Some (mkPump (sampleServer (sampleConfig false false) [])
            (ln "230 Logged in")
            {| wbuf := []; wsent := [ln "331 Password required"];
               wlife := None; werr := false |})
  ∧ pumpIteration noEndpoint noEndpoint
      (mkPump (suspend (sampleServer (sampleConfig false false) []))
         (ln "230 Logged in")
         {| wbuf := []; wsent := [ln "331 Password required"];
            wlife := None; werr := false |})
    = Some (mkPump (suspend (sampleServer (sampleConfig false false) [])) []
              {| wbuf := []; wsent := [ln "331 Password required"];
                 wlife := None; werr := false |})
  ∧ readerIteration noEndpoint noEndpoint
      (suspend (sampleServer (sampleConfig false false) [])) (ln "230 Logged in")
    = Withheld (ln "230 Logged in")
        (suspend (sampleServer (sampleConfig false false) [])) [].
Proof. by vm_compute. Qed.

(** C7 on a run: the greeting of the origin is answered by the welcome
    message of the proxy. *)
Lemma welcome_replaces_220_witness :
  first (getCode (ln "220 ProFTPD Server ready")) = str "220"
  ∧ readerIteration noEndpoint noEndpoint
      (sampleServer (sampleConfig true false) [])
      (ln "220 ProFTPD Server ready" ++ ln "331 next")
    = Handed (ln "220 pftp ready")
        (sampleServer (sampleConfig true false) []) (ln "331 next").
Proof.
  destruct (welcome_replaces_220 noEndpoint noEndpoint
              (sampleServer (sampleConfig true false) [])
              (ln "220 ProFTPD Server ready" ++ ln "331 next")
              (ln "220 ProFTPD Server ready") (ln "331 next")
              SP (ln "ProFTPD Server ready"))
    as (Hcode & Hiter & _);
    [reflexivity|reflexivity|reflexivity|reflexivity|by left|].
  split; [exact Hcode|exact Hiter].
Defined.

(** C8, as stated, fails: with proxy_protocol on, a line that holds
    500 PROXY inside a multi-line block goes to the client with the block,
    and during the replay of the TLS commands such a line read for a
    command other than AUTH is taken as the reply to that command, so that
    reading stops there and the true reply is left in the reader. *)
Lemma proxy500_counterexample :
  ProxyProtocol (conf (sampleServer (sampleConfig true false) [])) = true
  ∧ Contains (ln " see 500 PROXY note") (str "500 PROXY") = true
  ∧ readerIteration noEndpoint noEndpoint
      (sampleServer (sampleConfig true false) [])
      (ln "230-Hello" ++ ln " see 500 PROXY note" ++ ln "230 Done")
    = Handed (ln "230-Hello" ++ ln " see 500 PROXY note" ++ ln "230 Done")
        (sampleServer (sampleConfig true false) []) []
  ∧ sendTLSCommand getCommandModel 771 [ln "PBSZ 0"]
      (sampleServer (sampleConfig true false)
         (ln "500 PROXY not understood" ++ ln "200 PBSZ=0"))
    = (Ok,
       set_originWriter
         {| wbuf := []; wsent := [ln "PBSZ 0"]; wlife := None; werr := false |}
         (set_originReader (ln "200 PBSZ=0")
            (sampleServer (sampleConfig true false)
               (ln "500 PROXY not understood" ++ ln "200 PBSZ=0")))).
Proof. by vm_compute. Qed.

Lemma proxy500_dropped_witness :
  readerIteration noEndpoint noEndpoint
    (sampleServer (sampleConfig true false) [])
    (ln "500 PROXY not understood" ++ ln "220 ready")
  = Dropped (sampleServer (sampleConfig true false) []) (ln "220 ready")
  ∧ ∀ to,
      pumpIteration noEndpoint noEndpoint
        (mkPump (sampleServer (sampleConfig true false) [])
           (ln "500 PROXY not understood" ++ ln "220 ready") to)
      = Some (mkPump (sampleServer (sampleConfig true false) [])
                (ln "220 ready") to).
Proof.
  destruct (proxy500_dropped getCommandModel noEndpoint noEndpoint
              (sampleServer (sampleConfig true false) [])
              (ln "500 PROXY not understood" ++ ln "220 ready")
              (ln "500 PROXY not understood") (ln "220 ready"))
    as [Hdrop _]; [reflexivity|reflexivity|].
  apply Hdrop; reflexivity.
Defined.

Lemma pasv_reply_rewritten_witness :
  ∃ s',
    readerIteration noEndpoint noEndpoint (pasvServer 49999)
      (ln "227 Entering Passive Mode (10,0,0,7,195,80)")
    = Handed (ln "227 Entering Passive Mode (198,51,100,9,195,79).") s' []
    ∧ dataConnector s'
      = Some (mkData (str "PASV") (Some 49999) None true 1 false).
Proof.
  destruct (pasv_reply_rewritten noEndpoint noEndpoint (pasvServer 49999)
              (ln "227 Entering Passive Mode (10,0,0,7,195,80)")
              (ln "227 Entering Passive Mode (10,0,0,7,195,80)") []
              (mkData (str "PASV") (Some 49999) None true 0 false) 49999)
    as [(s' & Hiter & Hdc & _) _];
    [reflexivity|reflexivity|reflexivity|reflexivity|reflexivity|reflexivity
    |reflexivity|].
  exists s'. split; [exact Hiter|exact Hdc].
Defined.

(** * Events *)

Lemma sendAll_no_receiver (eventC : EventChan) (events : list Event) :
  receivers eventC = 0%nat →
  sendAll eventC events
  = (replicate (min (capacity eventC - length (buffered eventC)) (length events)) None
       ++ replicate (length events - (capacity eventC - length (buffered eventC)))
            (Some (str "no receivers")),
     {| capacity := capacity eventC;
        buffered := buffered eventC
                      ++ take (capacity eventC - length (buffered eventC)) events;
        receivers := 0; handed := handed eventC |}).
Proof.
  revert eventC. induction events as [|e events IH]; intros [cap buf rcv hd] Hrcv;
    simpl in Hrcv; subst rcv.
  - simpl. by rewrite Nat.min_0_r, take_nil, !app_nil_r.
  - cbn [sendAll]. unfold Send. cbn [receivers buffered capacity handed].
    case_bool_decide as Hroom.
    + rewrite IH by done. cbn [capacity buffered handed]. rewrite length_app.
      cbn [length]. destruct (cap - length buf)%nat as [|room] eqn:Hr; [lia|].
      replace (cap - (length buf + 1))%nat with room by lia.
      cbn. by rewrite <- app_assoc.
    + rewrite IH by done. cbn [capacity buffered handed].
      replace (cap - length buf)%nat with 0%nat by lia.
      cbn. by rewrite Nat.sub_0_r.
Qed.

Lemma tryReceiveN_buffered (n : nat) (eventC : EventChan) :
  tryReceiveN n eventC
  = (take n (buffered eventC),
     {| capacity := capacity eventC; buffered := drop n (buffered eventC);
        receivers := receivers eventC; handed := handed eventC |}).
Proof.
  revert eventC. induction n as [|n IH]; intros [cap buf rcv hd].
  - done.
  - cbn [tryReceiveN]. unfold tryReceive. cbn [buffered].
    destruct buf as [|e buf]; [done|]. by rewrite IH.
Qed.

(** X18. An event channel keeps what its buffer holds and refuses the
    rest without blocking: of the events sent one after the other to a
    new channel of capacity n, while nothing receives, Send accepts the
    first n and returns the error no receivers for every later one; the
    channel then holds the accepted events, which non-blocking receives
    get back in the order they were sent, leaving the channel empty. *)
Theorem Send_keeps_first (n : nat) (events : list Event) :
  NewEventChan (Z.of_nat n)
  = Some {| capacity := n; buffered := []; receivers := 0; handed := [] |}
  ∧ sendAll {| capacity := n; buffered := []; receivers := 0; handed := [] |} events
    = (replicate (min n (length events)) None
         ++ replicate (length events - n) (Some (str "no receivers")),
       {| capacity := n; buffered := take n events; receivers := 0; handed := [] |})
  ∧ tryReceiveN (length events)
      {| capacity := n; buffered := take n events; receivers := 0; handed := [] |}
    = (take n events,
       {| capacity := n; buffered := []; receivers := 0; handed := [] |}).
Proof.
  split_and!.
  - unfold NewEventChan. rewrite (proj2 (Z.ltb_ge _ _)) by lia.
    by rewrite Nat2Z.id.
  - rewrite sendAll_no_receiver by done. cbn [capacity buffered handed length].
    by rewrite Nat.sub_0_r.
  - rewrite tryReceiveN_buffered. cbn [capacity buffered handed receivers].
    rewrite take_ge, drop_ge; [done| |]; rewrite length_take; lia.
Qed.

(** X19. Send delivers or drops, and never blocks.  It returns nil
    exactly when a receiver waits or the buffer has room: the event then
    goes to the receiver, or behind the events buffered before.  Otherwise
    it returns the error no receivers and the channel is as it was: the
    event is lost.  So on a channel without buffer an event is delivered
    exactly when a receiver waits, one waiting receiver takes one event,
    and on a new channel with a buffer an event sent is the event
    received.  A negative size makes NewEventChan panic. *)
Theorem Send_delivers_or_drops :
  (∀ eventC event,
     match Send eventC event with
     | (None, eventC') =>
         ((0 < receivers eventC)%nat
          ∨ (length (buffered eventC) < capacity eventC)%nat)
         ∧ (handed eventC' = handed eventC ++ [event]
            ∧ buffered eventC' = buffered eventC
            ∧ S (receivers eventC') = receivers eventC
            ∨ buffered eventC' = buffered eventC ++ [event]
              ∧ handed eventC' = handed eventC
              ∧ receivers eventC' = receivers eventC)
         ∧ capacity eventC' = capacity eventC
     | (Some err, eventC') =>
         receivers eventC = 0%nat
         ∧ (capacity eventC ≤ length (buffered eventC))%nat
         ∧ err = str "no receivers" ∧ eventC' = eventC
         ∧ Contains err (str "no receiver") = true
     end)
  ∧ (∀ eventC event,
       capacity eventC = 0%nat →
       ((Send eventC event).1 = None ↔ (0 < receivers eventC)%nat))
  ∧ (∀ eventC e1 e2,
       buffered eventC = [] → receivers eventC = 0%nat → capacity eventC = 0%nat →
       (Send (receive eventC) e1).1 = None
       ∧ handed (Send (receive eventC) e1).2 = handed eventC ++ [e1]
       ∧ (Send (Send (receive eventC) e1).2 e2).1 = Some (str "no receivers"))
  ∧ (∀ bufSize event eventC,
       0 < bufSize → NewEventChan bufSize = Some eventC →
       (Send eventC event).1 = None
       ∧ tryReceive (Send eventC event).2 = (Some event, eventC))
  ∧ (∀ bufSize, bufSize < 0 → NewEventChan bufSize = None).
Proof.
  split_and!.
  - intros [cap buf rcv hd] event. unfold Send. cbn [receivers buffered capacity handed].
    destruct rcv as [|rcv].
    + case_bool_decide as Hroom; cbn [receivers buffered capacity handed].
      * split_and!; [by right| |done]. right. by split_and!.
      * split_and!; try done. lia.
    + cbn [receivers buffered capacity handed]. split_and!; [left; lia| |done].
      left. by split_and!.
  - intros [cap buf rcv hd] event. cbn [capacity]. intros ->.
    unfold Send. cbn [receivers buffered capacity handed].
    destruct rcv as [|rcv]; cbn [fst].
    + rewrite bool_decide_eq_false_2 by lia. cbn [fst]. split; [done|lia].
    + split; [lia|done].
  - intros [cap buf rcv hd] e1 e2. cbn [receivers buffered capacity handed].
    by intros -> -> ->.
  - intros bufSize event eventC Hpos. unfold NewEventChan.
    rewrite (proj2 (Z.ltb_ge _ _)) by lia. intros [= <-].
    unfold Send. cbn [receivers buffered capacity handed length].
    rewrite bool_decide_eq_true_2 by lia. done.
  - intros bufSize Hneg. unfold NewEventChan.
    by rewrite (proj2 (Z.ltb_lt _ _)).
Qed.


(** * The further properties on concrete runs *)

(** A line of text without CR or LF, with its CR LF, is a line. *)
Lemma isLine_ln (t : string) :
  forallb (λ c, negb (bool_decide (c = LF)) && negb (bool_decide (c = CR))) (str t)
  = true →
  isLine (ln t).
Proof.
  intros Ht. rewrite forallb_forall in Ht.
  exists (str t ++ [CR]). split.
  - unfold ln, CRLF. by rewrite <- app_assoc.
  - intros [Hin|Hin]%elem_of_app.
    + apply list_elem_of_In in Hin. specialize (Ht _ Hin).
      by rewrite bool_decide_eq_true_2 in Ht.
    + apply list_elem_of_In in Hin. simpl in Hin. by destruct Hin.
Qed.

(** A byte that a text does not hold. *)
Lemma not_in_text (b : ascii) (t : gostring) :
  forallb (λ c, negb (bool_decide (c = b))) t = true → b ∉ t.
Proof.
  intros Ht Hin. rewrite forallb_forall in Ht.
  apply list_elem_of_In in Hin. specialize (Ht _ Hin).
  by rewrite bool_decide_eq_true_2 in Ht.
Qed.

(** X3 on a run: the socket of the origin takes no write; PWD fails, and
    so does the command after it. *)
Lemma sendToOrigin_failure_sticks_witness :
  werr (originWriter
          (sendToOrigin
             (set_originWriter (NewWriter (Some 0%nat))
                (sampleServer (sampleConfig false false) []))
             (ln "PWD")).2) = true
  ∧ wsent (originWriter
             (sendToOrigin
                (set_originWriter (NewWriter (Some 0%nat))
                   (sampleServer (sampleConfig false false) []))
                (ln "PWD")).2)
    = wsent (originWriter
               (set_originWriter (NewWriter (Some 0%nat))
                  (sampleServer (sampleConfig false false) [])))
  ∧ (sendToOrigin
       (sendToOrigin
          (set_originWriter (NewWriter (Some 0%nat))
             (sampleServer (sampleConfig false false) []))
          (ln "PWD")).2 (ln "CWD /")
     = (Err ErrWrite,
        (sendToOrigin
           (set_originWriter (NewWriter (Some 0%nat))
              (sampleServer (sampleConfig false false) []))
           (ln "PWD")).2)
     ∨ sendToOrigin
         (sendToOrigin
            (set_originWriter (NewWriter (Some 0%nat))
               (sampleServer (sampleConfig false false) []))
            (ln "PWD")).2 (ln "CWD /")
       = (Err ErrWrongCommandLine,
          (sendToOrigin
             (set_originWriter (NewWriter (Some 0%nat))
                (sampleServer (sampleConfig false false) []))
             (ln "PWD")).2)).
Proof.
  apply (sendToOrigin_failure_sticks
           (set_originWriter (NewWriter (Some 0%nat))
              (sampleServer (sampleConfig false false) []))
           (sendToOrigin
              (set_originWriter (NewWriter (Some 0%nat))
                 (sampleServer (sampleConfig false false) []))
              (ln "PWD")).2
           (ln "PWD") (ln "CWD /")).
  reflexivity.
Defined.

(** X5 on a run: nothing listens at the address. *)
Lemma switchOrigin_dial_failure_witness :
  ∃ s',
    switchOrigin getCommandModel (sampleNet [] None)
      (str "192.0.2.1:5555") (str "10.0.0.8:21") 771 []
      (sampleServer (sampleConfig false false) []) = (Err ErrDial, s')
    ∧ origin s' = None ∧ isSwitched s' = true ∧ Close s' = s'
    ∧ signals s'
      = signals (sampleServer (sampleConfig false false) [])
          ++ [StopChan; StopChanDone; WaitSwitching false]
    ∧ ∀ clientAddr' originAddr' tlsProtocol' cmds',
        originAddr' ≠ [] →
        switchOrigin getCommandModel (sampleNet [] None)
          clientAddr' originAddr' tlsProtocol' cmds' s'
        = (Err ErrAlreadySwitched, s').
Proof.
  apply (switchOrigin_dial_failure getCommandModel (sampleNet [] None)
           (str "192.0.2.1:5555") (str "10.0.0.8:21") 771 []
           (sampleServer (sampleConfig false false) [])).
  - discriminate.
  - reflexivity.
  - reflexivity.
Defined.

(** X6 on a run: PBSZ and PROT, one reply line each. *)
Lemma sendTLSCommand_plain_commands_witness :
  ∃ s',
    sendTLSCommand getCommandModel 771 [ln "PBSZ 0"; ln "PROT P"]
      (sampleServer (sampleConfig false false)
         (ln "200 PBSZ=0" ++ ln "200 Protection set" ++ ln "220 later"))
    = (Ok, s')
    ∧ originReader s' = ln "220 later"
    ∧ wsent (originWriter s')
      = wsent (originWriter
                 (sampleServer (sampleConfig false false)
                    (ln "200 PBSZ=0" ++ ln "200 Protection set" ++ ln "220 later")))
          ++ [ln "PBSZ 0"; ln "PROT P"]
    ∧ wbuf (originWriter s') = []
    ∧ origin s'
      = origin (sampleServer (sampleConfig false false)
                  (ln "200 PBSZ=0" ++ ln "200 Protection set" ++ ln "220 later"))
    ∧ besideOrigin s'
      = besideOrigin
          (sampleServer (sampleConfig false false)
             (ln "200 PBSZ=0" ++ ln "200 Protection set" ++ ln "220 later")).
Proof.
  apply (sendTLSCommand_plain_commands getCommandModel 771 [ln "PBSZ 0"; ln "PROT P"]
           (sampleServer (sampleConfig false false)
              (ln "200 PBSZ=0" ++ ln "200 Protection set" ++ ln "220 later"))
           [ln "200 PBSZ=0"; ln "200 Protection set"] (ln "220 later")).
  - repeat constructor; intros H; vm_compute in H; discriminate H.
  - repeat constructor; discriminate.
  - reflexivity.
  - reflexivity.
  - reflexivity.
  - repeat constructor; by apply isLine_ln.
  - reflexivity.
  - reflexivity.
Defined.

(** X7 on a run: the origin answers PBSZ and breaks off in its answer to
    PROT. *)
Lemma sendTLSCommand_stream_ends_witness :
  ∃ s',
    sendTLSCommand getCommandModel 771 [ln "PBSZ 0"; ln "PROT P"; ln "FEAT"]
      (sampleServer (sampleConfig false false) (ln "200 PBSZ=0" ++ str "200 Prot"))
    = (Err ErrMakeTLS, s')
    ∧ wsent (originWriter s')
      = wsent (originWriter
                 (sampleServer (sampleConfig false false)
                    (ln "200 PBSZ=0" ++ str "200 Prot")))
          ++ take (S (length [ln "200 PBSZ=0"])) [ln "PBSZ 0"; ln "PROT P"; ln "FEAT"]
    ∧ origin s'
      = origin (sampleServer (sampleConfig false false)
                  (ln "200 PBSZ=0" ++ str "200 Prot"))
    ∧ besideOrigin s'
      = besideOrigin
          (sampleServer (sampleConfig false false)
             (ln "200 PBSZ=0" ++ str "200 Prot")).
Proof.
  apply (sendTLSCommand_stream_ends getCommandModel 771
           [ln "PBSZ 0"; ln "PROT P"; ln "FEAT"]
           (sampleServer (sampleConfig false false) (ln "200 PBSZ=0" ++ str "200 Prot"))
           [ln "200 PBSZ=0"] (str "200 Prot")).
  - repeat constructor; intros H; vm_compute in H; discriminate H.
  - repeat constructor; discriminate.
  - reflexivity.
  - reflexivity.
  - reflexivity.
  - repeat constructor; by apply isLine_ln.
  - simpl. lia.
  - reflexivity.
  - reflexivity.
Defined.

(** X8 on a run: the address of the client comes without a port. *)
Lemma sendProxyHeader_no_port_witness :
  sendProxyHeader (sampleNet [] None) (str "192.0.2.1") (str "10.0.0.7:21")
    (sampleServer (sampleConfig true false) [])
  = (Panic, sampleServer (sampleConfig true false) []).
Proof.
  apply (sendProxyHeader_no_port (sampleNet [] None) (str "192.0.2.1")
           (str "10.0.0.7:21") (sampleServer (sampleConfig true false) [])).
  left. by apply not_in_text.
Defined.

(** X9 on a run. *)
Lemma sendProxyHeader_header_witness :
  ∃ s' c',
    sendProxyHeader (sampleNet [] None)
      (str "192.0.2.1" ++ COLON :: str "5555") (str "10.0.0.7" ++ COLON :: str "21")
      (sampleServer (sampleConfig true false) [])
    = (Ok, s')
    ∧ origin s' = Some (TCP c')
    ∧ header c'
      = Some (mkHeader (str "192.0.2.1") (str "5555") (str "10.0.0.7") (str "21"))
    ∧ remoteAddr c' = str "10.0.0.1:21" ∧ incoming c' = []
    ∧ closed c' = false
    ∧ originReader s' = originReader (sampleServer (sampleConfig true false) [])
    ∧ wsent (originWriter s')
      = wsent (originWriter (sampleServer (sampleConfig true false) []))
    ∧ besideOrigin s' = besideOrigin (sampleServer (sampleConfig true false) []).
Proof.
  exact (sendProxyHeader_header (sampleNet [] None)
           (str "192.0.2.1") (str "5555") (str "10.0.0.7") (str "21")
           (sampleServer (sampleConfig true false) [])
           (tune 30 (sampleConn (str "10.0.0.1:21") [] None))
           (not_in_text COLON (str "192.0.2.1") eq_refl)
           (not_in_text COLON (str "5555") eq_refl)
           (not_in_text COLON (str "10.0.0.7") eq_refl)
           (not_in_text COLON (str "21") eq_refl)
           eq_refl ltac:(discriminate) eq_refl).
Defined.

(** X10 on a run: a reply, a block of three lines and the beginning of a
    line. *)
Lemma pump_forwards_origin_bytes_witness :
  ∃ chunks tail s' to',
    readerLoop noEndpoint noEndpoint
      (set_isSwitched true (sampleServer (sampleConfig false false) []))
      (ln "331 Password required" ++ ln "230-Hello" ++ ln " more" ++ ln "230 Done"
         ++ str "226 Tra")
      (NewWriter None)
    = (Err ErrRead, s', [], to')
    ∧ ln "331 Password required" ++ ln "230-Hello" ++ ln " more" ++ ln "230 Done"
        ++ str "226 Tra"
      = concat chunks ++ tail
    ∧ wsent to' = wsent (NewWriter None) ++ chunks ∧ wbuf to' = []
    ∧ Forall (λ chunk, ∃ ls, ls ≠ [] ∧ Forall isLine ls ∧ chunk = concat ls) chunks
    ∧ (ReadString tail = None
       ∨ ∃ line rest,
           ReadString tail = Some (line, rest) ∧ opensBlock line = true
           ∧ multiLineLoop (first (getCode line)) line rest = BlockError).
Proof.
  apply (pump_forwards_origin_bytes noEndpoint noEndpoint
           (set_isSwitched true (sampleServer (sampleConfig false false) []))
           (ln "331 Password required" ++ ln "230-Hello" ++ ln " more"
              ++ ln "230 Done" ++ str "226 Tra")
           (NewWriter None)); reflexivity.
Defined.

(** X12 on a run: the origin closes the connection without a word. *)
Lemma start_error_closes_witness :
  ErrRead = ErrRead
  ∧ last (signals
            (start noEndpoint noEndpoint (pasvServer 49999) []
               (NewWriter None)).1.1.2)
    = Some (ErrChan ErrRead)
  ∧ (∀ c, origin (start noEndpoint noEndpoint (pasvServer 49999) []
                    (NewWriter None)).1.1.2 = Some c →
          connClosed c = true)
  ∧ (∀ d, dataConnector (start noEndpoint noEndpoint (pasvServer 49999) []
                           (NewWriter None)).1.1.2 = Some d →
          dataClosed d = true).
Proof.
  apply (start_error_closes noEndpoint noEndpoint (pasvServer 49999) []
           (NewWriter None) ErrRead
           (start noEndpoint noEndpoint (pasvServer 49999) [] (NewWriter None)).1.1.2
           [] (NewWriter None)).
  reflexivity.
Defined.

(** X13 on a run: the block is opened and the origin goes away. *)
Lemma unterminated_block_lost_witness :
  readerIteration noEndpoint noEndpoint (sampleServer (sampleConfig false false) [])
    (ln "230-Hello" ++ concat [ln " more"] ++ str "230 Do")
  = BlockFailed
      (send (ErrChan ErrRead)
         (set_isDataCommandResponse false (sampleServer (sampleConfig false false) [])))
  ∧ readerLoop noEndpoint noEndpoint (sampleServer (sampleConfig false false) [])
      (ln "230-Hello" ++ concat [ln " more"] ++ str "230 Do") (NewWriter None)
    = (Err ErrRead,
       pumpFail
         (send (ErrChan ErrRead)
            (set_isDataCommandResponse false
               (sampleServer (sampleConfig false false) []))),
       [], NewWriter None).
Proof.
  apply (unterminated_block_lost noEndpoint noEndpoint
           (sampleServer (sampleConfig false false) [])
           (ln "230-Hello") [ln " more"] (str "230 Do") (NewWriter None)).
  - by apply isLine_ln.
  - reflexivity.
  - reflexivity.
  - reflexivity.
  - repeat constructor; by apply isLine_ln.
  - repeat constructor; intros [Hc Hsp]; discriminate Hsp.
  - reflexivity.
Defined.

(** X14 on a run: the client sent PORT, the origin was sent PASV and
    answers with 227. *)
Lemma data_reply_by_mode_witness :
  ∃ s',
    readerIteration noEndpoint noEndpoint portServer
      (ln "227 Entering Passive Mode (10,0,0,7,195,80)")
    = Handed (ln "200 PORT command successful") s' []
    ∧ transfers <$> dataConnector s' = Some 1%nat.
Proof.
  destruct (data_reply_by_mode noEndpoint noEndpoint portServer
              (ln "227 Entering Passive Mode (10,0,0,7,195,80)")
              (ln "227 Entering Passive Mode (10,0,0,7,195,80)") []
              (mkData (str "PORT") None None true 0 false))
    as [Hport _];
    [reflexivity|reflexivity|reflexivity|reflexivity|reflexivity|reflexivity|].
  exact (Hport (or_introl eq_refl)).
Defined.

(** X15 on a run: a 227 reply and no data handler. *)
Lemma data_reply_without_handler_witness :
  readerIteration noEndpoint noEndpoint
    (set_isSwitched true (sampleServer (sampleConfig false true) []))
    (ln "227 Entering Passive Mode (10,0,0,7,195,80)")
  = Panicked
  ∧ readerLoop noEndpoint noEndpoint
      (set_isSwitched true (sampleServer (sampleConfig false true) []))
      (ln "227 Entering Passive Mode (10,0,0,7,195,80)") (NewWriter None)
    = (Panic, set_isSwitched true (sampleServer (sampleConfig false true) []),
       ln "227 Entering Passive Mode (10,0,0,7,195,80)", NewWriter None).
Proof.
  apply (data_reply_without_handler noEndpoint noEndpoint
           (set_isSwitched true (sampleServer (sampleConfig false true) []))
           (ln "227 Entering Passive Mode (10,0,0,7,195,80)")
           (ln "227 Entering Passive Mode (10,0,0,7,195,80)") [] (NewWriter None));
    reflexivity.
Defined.

(** X16 on a run: AUTH TLS, PBSZ and PROT. *)
Lemma sendTLSCommand_AUTH_then_plain_witness :
  ∃ s',
    sendTLSCommand getCommandModel 771 [ln "AUTH TLS"; ln "PBSZ 0"; ln "PROT P"]
      (sampleServer (sampleConfig false false)
         (ln "234 AUTH TLS successful" ++ ln "200 PBSZ=0" ++ ln "200 Protection set"))
    = (Ok, s')
    ∧ origin s'
      = TLSClient {| InsecureSkipVerify := true; MinVersion := 771;
                     MaxVersion := 771 |}
          <$> origin
                (sampleServer (sampleConfig false false)
                   (ln "234 AUTH TLS successful" ++ ln "200 PBSZ=0"
                      ++ ln "200 Protection set"))
    ∧ originReader s' = []
    ∧ wsent (originWriter s')
      = wsent (originWriter
                 (sampleServer (sampleConfig false false)
                    (ln "234 AUTH TLS successful" ++ ln "200 PBSZ=0"
                       ++ ln "200 Protection set")))
          ++ [ln "AUTH TLS"; ln "PBSZ 0"; ln "PROT P"]
    ∧ besideOrigin s'
      = besideOrigin
          (sampleServer (sampleConfig false false)
             (ln "234 AUTH TLS successful" ++ ln "200 PBSZ=0"
                ++ ln "200 Protection set")).
Proof.
  apply (sendTLSCommand_AUTH_then_plain getCommandModel 771 (ln "AUTH TLS")
           [ln "PBSZ 0"; ln "PROT P"]
           (sampleServer (sampleConfig false false)
              (ln "234 AUTH TLS successful" ++ ln "200 PBSZ=0"
                 ++ ln "200 Protection set"))
           (ln "234 AUTH TLS successful")
           [ln "200 PBSZ=0"; ln "200 Protection set"] []).
  - reflexivity.
  - discriminate.
  - repeat constructor; intros H; vm_compute in H; discriminate H.
  - repeat constructor; discriminate.
  - reflexivity.
  - reflexivity.
  - reflexivity.
  - by apply isLine_ln.
  - reflexivity.
  - repeat constructor; by apply isLine_ln.
  - reflexivity.
  - reflexivity.
Defined.

(** X17 on a run: a reply line goes to the client whole. *)
Lemma pump_hands_whole_lines_witness :
  (∃ body, ln "331 Password required" = body ++ [LF])
  ∧ welcomeMsg (sampleServer (sampleConfig false false) [])
    = welcomeMsg (sampleServer (sampleConfig false false) []).
Proof.
  apply (pump_hands_whole_lines noEndpoint noEndpoint
           (sampleServer (sampleConfig false false) [])
           (ln "331 Password required" ++ ln "230 Logged in")
           (ln "331 Password required")
           (sampleServer (sampleConfig false false) []) (ln "230 Logged in")).
  - by exists (str "220 pftp ready" ++ [CR]).
  - reflexivity.
Defined.
